(** * visca2uvc: the UVC zoom command-line tool (main.cc)

    A shallow embedding of [main.cc] (the translation unit CMake builds) and
    of its sibling revision [unnamed/part_001], which differs in how the
    libuvc pointers are wrapped ([std::unique_ptr] with [UvcDelete] instead of
    [UvcWrapper]) and in how error texts are produced (the macro
    [RETURN_IF_UVC_ERROR]).

    - integers of the C++ code are [Z] with the wrap-around written out;
    - [absl::StatusOr<T>] is a sum, [absl::Status] an inductive;
    - libuvc is an abstract library: a record of state-passing functions;
    - the program runs in a monad that threads the library state, collects
      the trace of library calls and stream writes, and can raise the
      exception [absl::BadStatusOrAccess] that [StatusOr::value()] throws. *)

From Stdlib Require Import ZArith List String Ascii Bool Lia DecimalString.
From Stdlib Require Import DecimalPos DecimalN.
Import ListNotations.
Local Open Scope string_scope.
Local Open Scope list_scope.
Local Open Scope Z_scope.

(** ** Fixed-width integers *)

(** The three instantiations [SimpleAtoi<int8_t>], [SimpleAtoi<uint8_t>],
    [SimpleAtoi<uint16_t>]. *)
Inductive int_type : Type := Int8 | UInt8 | UInt16.

Definition width (T : int_type) : Z :=
  match T with Int8 | UInt8 => 8 | UInt16 => 16 end.

Definition is_signed (T : int_type) : bool :=
  match T with Int8 => true | UInt8 | UInt16 => false end.

(** [T(result)] for a [uint32_t result]: reduction modulo [2^width], read as
    two's complement when [T] is signed. *)
Definition convert (T : int_type) (v : Z) : Z :=
  let m := v mod 2 ^ width T in
  if is_signed T && (2 ^ (width T - 1) <=? m) then m - 2 ^ width T else m.

Definition in_range (T : int_type) (v : Z) : Prop :=
  if is_signed T then - 2 ^ (width T - 1) <= v < 2 ^ (width T - 1)
  else 0 <= v < 2 ^ width T.

(** [typeid(T).name()]: the Itanium ABI names g++ gives the three types. *)
Definition typeid_name (T : int_type) : string :=
  match T with Int8 => "a" | UInt8 => "h" | UInt16 => "t" end.

(** [absl::StrCat]. *)
Definition StrCat (pieces : list string) : string := String.concat "" pieces.

(** ** absl::Status and absl::StatusOr *)

Inductive Status : Type :=
| OkStatus
| InvalidArgumentError (message : string)
| InternalError (message : string).

Definition ok (st : Status) : bool :=
  match st with OkStatus => true | _ => false end.

(** [Status::ToString()], which [operator<<] on a status writes. *)
Definition Status_ToString (st : Status) : string :=
  match st with
  | OkStatus => "OK"
  | InvalidArgumentError m => StrCat ["INVALID_ARGUMENT: "; m]
  | InternalError m => StrCat ["INTERNAL: "; m]
  end.

(** [absl::StatusOr<T>]: a value or a non-OK status. *)
Definition StatusOr (T : Type) : Type := (Status + T)%type.
Definition Value {T : Type} (v : T) : StatusOr T := inr v.
Definition Failed {T : Type} (st : Status) : StatusOr T := inl st.

Definition status_ok {T : Type} (r : StatusOr T) : bool :=
  match r with inr _ => true | inl _ => false end.

(** ** absl::SimpleAtoi at [uint32_t]

    Abseil is a dependency of the build ([add_subdirectory(abseil-cpp)]); the
    definitions below follow [absl/strings/numbers.cc]:
    [SimpleAtoi(str, &u32)] is [safe_strtou32_base(str, &u32, 10)], that is
    [safe_parse_sign_and_base] followed by [safe_parse_positive_int], and a
    negative sign makes the unsigned parse fail. *)
Module absl.

(** [absl::ascii_isspace]: space, and [\t \n \v \f \r]. *)
Definition ascii_isspace (c : ascii) : bool :=
  let n := Z.of_nat (nat_of_ascii c) in
  (n =? 32) || ((9 <=? n) && (n <=? 13)).

(** [kAsciiToInt]: digits to 0..9, letters to 10..35, the rest to 36. *)
Definition kAsciiToInt (c : ascii) : Z :=
  let n := Z.of_nat (nat_of_ascii c) in
  if (48 <=? n) && (n <=? 57) then n - 48
  else if (97 <=? n) && (n <=? 122) then n - 97 + 10
  else if (65 <=? n) && (n <=? 90) then n - 65 + 10
  else 36.

Fixpoint skip_space (text : list ascii) : list ascii :=
  match text with
  | c :: rest => if ascii_isspace c then skip_space rest else text
  | [] => []
  end.

(** Base 10 is fixed by the caller, so the prefix handling of bases 0 and
    16 is not reached.  Returns the remaining text and the sign. *)
Definition safe_parse_sign_and_base (text : list ascii)
  : option (list ascii * bool) :=
  (* consume whitespace on both sides *)
  let text := skip_space text in
  let text := rev (skip_space (rev text)) in
  match text with
  | [] => None
  | c :: rest =>
      let negative := Ascii.eqb c "-" in
      if negative || Ascii.eqb c "+" then
        match rest with
        | [] => None
        | _ => Some (rest, negative)
        end
      else Some (text, negative)
  end.

Definition base : Z := 10.
Definition vmax : Z := 4294967295.           (* numeric_limits<uint32_t>::max() *)
Definition vmax_over_base : Z := vmax / base.

Fixpoint safe_parse_positive_int (text : list ascii) (value : Z) : option Z :=
  match text with
  | [] => Some value
  | c :: rest =>
      let digit := kAsciiToInt c in
      if base <=? digit then None
      else if vmax_over_base <? value then None
      else
        let value := value * base in
        if vmax - digit <? value then None
        else safe_parse_positive_int rest (value + digit)
  end.

(** [safe_uint_internal<uint32_t>]. *)
Definition safe_strtou32_base (text : list ascii) : option Z :=
  match safe_parse_sign_and_base text with
  | None => None
  | Some (_, true) => None
  | Some (text, false) => safe_parse_positive_int text 0
  end.

Definition SimpleAtoi (str : string) : option Z :=
  safe_strtou32_base (list_ascii_of_string str).

End absl.

(** ** SimpleAtoi<T> (main.cc 140-148, part_001 115-123) *)

Definition SimpleAtoi (T : int_type) (str : string) : StatusOr Z :=
  match absl.SimpleAtoi str with
  | None =>
      Failed (InvalidArgumentError
                (StrCat ["Cannot parse as "; typeid_name T; ": "; str]))
  | Some result => Value (convert T result)
  end.

(** ** libuvc

    The library is not part of the program: it is taken as a record of
    state-passing functions over an arbitrary library state [S].  A [ptr] is
    an address the library handed out; a C++ pointer variable is an
    [option ptr], [None] being [nullptr].  A call that reports an error
    leaves its out-parameters unset; the component returned for them is
    then never read by the program. *)

Definition ptr : Type := Z.
Definition uvc_error_t : Type := Z.

Inductive uvc_req_code : Type := UVC_GET_MIN | UVC_GET_MAX | UVC_GET_CUR.

(** [struct ZoomRel] (main.cc 38-49): [int8_t], [uint8_t], [uint8_t]. *)
Record ZoomRel : Type := mkZoomRel {
  zoom_rel : Z;
  digital_zoom : Z;
  speed : Z
}.

(** What is read back from an [int8_t] and two [uint8_t] variables the
    library wrote through pointers. *)
Definition stored_ZoomRel (z : ZoomRel) : ZoomRel :=
  {| zoom_rel := convert Int8 (zoom_rel z);
     digital_zoom := convert UInt8 (digital_zoom z);
     speed := convert UInt8 (speed z) |}.

Record libuvc (S : Type) : Type := {
  uvc_init : S -> uvc_error_t * ptr * S;
  uvc_find_device :
    option ptr -> Z -> Z -> option string -> S -> uvc_error_t * ptr * S;
  uvc_open : option ptr -> S -> uvc_error_t * ptr * S;
  uvc_get_zoom_abs : option ptr -> uvc_req_code -> S -> uvc_error_t * Z * S;
  uvc_set_zoom_abs : option ptr -> Z -> S -> uvc_error_t * S;
  uvc_get_zoom_rel :
    option ptr -> uvc_req_code -> S -> uvc_error_t * ZoomRel * S;
  uvc_set_zoom_rel : option ptr -> Z -> Z -> Z -> S -> uvc_error_t * S;
  uvc_print_diag : option ptr -> S -> S;
  uvc_close : ptr -> S -> S;
  uvc_unref_device : ptr -> S -> S;
  uvc_exit : ptr -> S -> S;
  uvc_strerror : uvc_error_t -> string
}.

Arguments uvc_init {S}.
Arguments uvc_find_device {S}.
Arguments uvc_open {S}.
Arguments uvc_get_zoom_abs {S}.
Arguments uvc_set_zoom_abs {S}.
Arguments uvc_get_zoom_rel {S}.
Arguments uvc_set_zoom_rel {S}.
Arguments uvc_print_diag {S}.
Arguments uvc_close {S}.
Arguments uvc_unref_device {S}.
Arguments uvc_exit {S}.
Arguments uvc_strerror {S}.

(** ** Observable events: library calls with their results, stream writes *)

Inductive event : Type :=
| Euvc_init (err : uvc_error_t) (ctx : ptr)
| Euvc_find_device (ctx : option ptr) (vid pid : Z) (sn : option string)
                   (err : uvc_error_t) (dev : ptr)
| Euvc_open (dev : option ptr) (err : uvc_error_t) (devh : ptr)
| Euvc_print_diag (devh : option ptr)
| Euvc_get_zoom_abs (devh : option ptr) (req_code : uvc_req_code)
                    (err : uvc_error_t) (focal_length : Z)
| Euvc_set_zoom_abs (devh : option ptr) (focal_length : Z) (err : uvc_error_t)
| Euvc_get_zoom_rel (devh : option ptr) (req_code : uvc_req_code)
                    (err : uvc_error_t) (result : ZoomRel)
| Euvc_set_zoom_rel (devh : option ptr) (zoom : ZoomRel) (err : uvc_error_t)
| Euvc_close (devh : ptr)
| Euvc_unref_device (dev : ptr)
| Euvc_exit (ctx : ptr)
| Ecout (text : string)
| Ecerr (text : string).

Definition trace : Type := list event.

(** ** Exceptions and the program monad *)

(** The only exception the program raises: [StatusOr::value()] on a non-OK
    [StatusOr] throws [absl::BadStatusOrAccess], a [std::exception]. *)
Inductive exception : Type := BadStatusOrAccess (st : Status).

Definition what (e : exception) : string :=
  match e with
  | BadStatusOrAccess st => StrCat ["Bad StatusOr access: "; Status_ToString st]
  end.

Inductive outcome (A : Type) : Type :=
| Returned (a : A)
| Thrown (e : exception).
Arguments Returned {A}.
Arguments Thrown {A}.

(** A computation takes the library state and gives its outcome, the new
    library state and the events it produced, oldest first. *)
Definition M (S A : Type) : Type := S -> outcome A * S * trace.

Definition ret {S A : Type} (a : A) : M S A := fun s => (Returned a, s, []).

Definition bind {S A B : Type} (m : M S A) (k : A -> M S B) : M S B :=
  fun s =>
    match m s with
    | (Returned a, s1, t1) =>
        match k a s1 with (r, s2, t2) => (r, s2, t1 ++ t2) end
    | (Thrown e, s1, t1) => (Thrown e, s1, t1)
    end.

Definition throw {S A : Type} (e : exception) : M S A :=
  fun s => (Thrown e, s, []).

(** Scope exit: [cleanup] (a destructor, which does not throw) runs after
    [body] however [body] ends, and the outcome of [body] is kept. *)
Definition finally {S A : Type} (body : M S A) (cleanup : M S unit) : M S A :=
  fun s =>
    match body s with
    | (r, s1, t1) =>
        match cleanup s1 with (_, s2, t2) => (r, s2, t1 ++ t2) end
    end.

(** [try { body } catch (const std::exception& e) { handler }]. *)
Definition try_catch {S A : Type} (body : M S A) (handler : exception -> M S A)
  : M S A :=
  fun s =>
    match body s with
    | (Returned a, s1, t1) => (Returned a, s1, t1)
    | (Thrown e, s1, t1) =>
        match handler e s1 with (r, s2, t2) => (r, s2, t1 ++ t2) end
    end.

Definition emit {S : Type} (ev : event) : M S unit :=
  fun s => (Returned tt, s, [ev]).

Declare Scope prog_scope.
Delimit Scope prog_scope with prog.
Notation "x <- m ;; k" := (bind m (fun x => k))
  (at level 61, m at next level, right associativity) : prog_scope.
Notation "' pat <- m ;; k" := (bind m (fun x => match x with pat => k end))
  (at level 61, pat pattern, m at next level, right associativity) : prog_scope.
Notation "m ;; k" := (bind m (fun _ => k))
  (at level 61, right associativity) : prog_scope.
Local Open Scope prog_scope.

Definition result_of {S A : Type} (r : outcome A * S * trace) : outcome A :=
  fst (fst r).
Definition state_of {S A : Type} (r : outcome A * S * trace) : S :=
  snd (fst r).
Definition trace_of {S A : Type} (r : outcome A * S * trace) : trace :=
  snd r.

(** ** The two revisions and their error texts *)

Inductive revision : Type :=
| main_cc      (* main.cc: UvcWrapper, error texts written out *)
| part_001.    (* unnamed/part_001: unique_ptr, RETURN_IF_UVC_ERROR *)

Inductive uvc_call : Type :=
| call_init | call_find_device | call_open
| call_get_zoom_abs | call_set_zoom_abs | call_get_zoom_rel | call_set_zoom_rel.

Definition call_name (c : uvc_call) : string :=
  match c with
  | call_init => "uvc_init"
  | call_find_device => "uvc_find_device"
  | call_open => "uvc_open"
  | call_get_zoom_abs => "uvc_get_zoom_abs"
  | call_set_zoom_abs => "uvc_set_zoom_abs"
  | call_get_zoom_rel => "uvc_get_zoom_rel"
  | call_set_zoom_rel => "uvc_set_zoom_rel"
  end.

(** What [#expr] of [RETURN_IF_UVC_ERROR] (part_001 15-18) expands to at each
    of its seven uses: the text of the call, comments and line breaks turned
    into single spaces. *)
Definition call_text (c : uvc_call) : string :=
  match c with
  | call_init => "uvc_init(&ctx, nullptr)"
  | call_find_device => "uvc_find_device(ctx_.get(), &dev, vid, pid, sn)"
  | call_open => "uvc_open(dev_.get(), &handle)"
  | call_get_zoom_abs => "uvc_get_zoom_abs(handle_.get(), &result, req_code)"
  | call_set_zoom_abs => "uvc_set_zoom_abs(handle_.get(), focal_length)"
  | call_get_zoom_rel =>
      "uvc_get_zoom_rel(handle_.get(), &result.zoom_rel, &result.digital_zoom, &result.speed, req_code)"
  | call_set_zoom_rel =>
      "uvc_set_zoom_rel(handle_.get(), zoom.zoom_rel, zoom.digital_zoom, zoom.speed)"
  end.

Definition error_label (rev : revision) (c : uvc_call) : string :=
  match rev with
  | main_cc => call_name c
  | part_001 => call_text c
  end.

(** ** Output formatting *)

(** [os << uint16_t]: decimal digits. *)
Definition show_uint16 (v : Z) : string :=
  NilZero.string_of_uint (N.to_uint (Z.to_N v)).

(** [os << int8_t] and [os << uint8_t] write one character: both types are
    character types. *)
Definition show_char (v : Z) : string :=
  String (ascii_of_N (Z.to_N (v mod 256))) EmptyString.

(** The line feed of ["\n"] and of [std::endl]. *)
Definition nl : string := String (ascii_of_N 10) EmptyString.

(** The raw string literal of main.cc 152-159. *)
Definition usage : string :=
  StrCat ["Usage: visca2uvc [cmd] ..."; nl; nl;
          "  get_zoom_abs"; nl;
          "  set_zoom_abs focal_length"; nl; nl;
          "  get_zoom_rel"; nl;
          "  set_zoom_rel zoom_rel digital_zoom speed"; nl].

(** The kinds of wrapped pointer: [uvc_context_t*], [uvc_device_t*],
    [uvc_device_handle_t*]. *)
Inductive uvc_kind : Type := Context | Device | Handle.

(** [UvcWrapper<T, deleter>] (main.cc 15-36); in part_001 the same data is a
    [std::unique_ptr<T, UvcDelete>] member. *)
Record UvcWrapper : Type := { value_ : option ptr }.

(** [explicit UvcWrapper(T* value)]. *)
Definition UvcWrapper_new (value : ptr) : UvcWrapper := {| value_ := Some value |}.

(** [UvcWrapper(UvcWrapper&& other)]: the new object and [other] afterwards. *)
Definition UvcWrapper_move (other : UvcWrapper) : UvcWrapper * UvcWrapper :=
  ({| value_ := value_ other |}, {| value_ := None |}).

(** [operator=(UvcWrapper&& other)]: [std::swap]; [this] and [other]
    afterwards. *)
Definition UvcWrapper_move_assign (this other : UvcWrapper)
  : UvcWrapper * UvcWrapper :=
  ({| value_ := value_ other |}, {| value_ := value_ this |}).

Section Program.

Context {S : Type} (lib : libuvc S) (rev : revision).

Local Abbreviation M := (M S).

(** *** Library calls, recorded in the trace *)

Definition do_uvc_init : M (uvc_error_t * ptr) :=
  fun s => match uvc_init lib s with
           | (err, ctx, s1) => (Returned (err, ctx), s1, [Euvc_init err ctx])
           end.

Definition do_uvc_find_device (ctx : option ptr) (vid pid : Z)
           (sn : option string) : M (uvc_error_t * ptr) :=
  fun s => match uvc_find_device lib ctx vid pid sn s with
           | (err, dev, s1) =>
               (Returned (err, dev), s1, [Euvc_find_device ctx vid pid sn err dev])
           end.

Definition do_uvc_open (dev : option ptr) : M (uvc_error_t * ptr) :=
  fun s => match uvc_open lib dev s with
           | (err, devh, s1) => (Returned (err, devh), s1, [Euvc_open dev err devh])
           end.

(** The library stores through a [uint16_t*]. *)
Definition do_uvc_get_zoom_abs (devh : option ptr) (req_code : uvc_req_code)
  : M (uvc_error_t * Z) :=
  fun s => match uvc_get_zoom_abs lib devh req_code s with
           | (err, v, s1) =>
               let v := convert UInt16 v in
               (Returned (err, v), s1, [Euvc_get_zoom_abs devh req_code err v])
           end.

Definition do_uvc_set_zoom_abs (devh : option ptr) (focal_length : Z)
  : M uvc_error_t :=
  fun s => match uvc_set_zoom_abs lib devh focal_length s with
           | (err, s1) => (Returned err, s1, [Euvc_set_zoom_abs devh focal_length err])
           end.

(** The library stores through an [int8_t*] and two [uint8_t*]. *)
Definition do_uvc_get_zoom_rel (devh : option ptr) (req_code : uvc_req_code)
  : M (uvc_error_t * ZoomRel) :=
  fun s => match uvc_get_zoom_rel lib devh req_code s with
           | (err, z, s1) =>
               let z := stored_ZoomRel z in
               (Returned (err, z), s1, [Euvc_get_zoom_rel devh req_code err z])
           end.

Definition do_uvc_set_zoom_rel (devh : option ptr) (zoom : ZoomRel)
  : M uvc_error_t :=
  fun s => match uvc_set_zoom_rel lib devh (zoom_rel zoom) (digital_zoom zoom)
                                  (speed zoom) s with
           | (err, s1) => (Returned err, s1, [Euvc_set_zoom_rel devh zoom err])
           end.

Definition do_uvc_print_diag (devh : option ptr) : M unit :=
  fun s => (Returned tt, uvc_print_diag lib devh s, [Euvc_print_diag devh]).

Definition do_uvc_close (devh : ptr) : M unit :=
  fun s => (Returned tt, uvc_close lib devh s, [Euvc_close devh]).

Definition do_uvc_unref_device (dev : ptr) : M unit :=
  fun s => (Returned tt, uvc_unref_device lib dev s, [Euvc_unref_device dev]).

Definition do_uvc_exit (ctx : ptr) : M unit :=
  fun s => (Returned tt, uvc_exit lib ctx s, [Euvc_exit ctx]).

Definition cout (text : string) : M unit := emit (Ecout text).
Definition cerr (text : string) : M unit := emit (Ecerr text).

(** *** Ownership *)

(** The template argument [deleter] of the three wrapper classes
    (main.cc 51, 101, 116), which is also what the overloads of
    [UvcDelete::operator()] (part_001 33-38) select by pointer type. *)
Definition deleter (k : uvc_kind) (p : ptr) : M unit :=
  match k with
  | Handle => do_uvc_close p
  | Device => do_uvc_unref_device p
  | Context => do_uvc_exit p
  end.

(** [~UvcWrapper()]: [if (value_ != nullptr) deleter(value_);]
    ([~unique_ptr] does the same). *)
Definition UvcWrapper_delete (k : uvc_kind) (w : UvcWrapper) : M unit :=
  match value_ w with
  | Some p => deleter k p
  | None => ret tt
  end.

(** [return T(p);] from a function returning [StatusOr<T>], [T] one of the
    wrapper classes.  main.cc: the temporary [T(p)] is moved into the
    [StatusOr] and destroyed.  part_001: [T(Ptr(p))], where the constructor
    moves its [Ptr] parameter into the member and the parameter is
    destroyed, before the same happens to the temporary [T]. *)
Definition return_wrapped (k : uvc_kind) (p : ptr) : M (StatusOr UvcWrapper) :=
  match rev with
  | main_cc =>
      let temporary := UvcWrapper_new p in
      let '(stored, temporary) := UvcWrapper_move temporary in
      UvcWrapper_delete k temporary ;;
      ret (Value stored)
  | part_001 =>
      let parameter := UvcWrapper_new p in
      let '(member, parameter) := UvcWrapper_move parameter in
      UvcWrapper_delete k parameter ;;
      let '(stored, temporary) := UvcWrapper_move member in
      UvcWrapper_delete k temporary ;;
      ret (Value stored)
  end.

(** The error both revisions return for a negative [err]. *)
Definition uvc_failure (c : uvc_call) (err : uvc_error_t) : Status :=
  InternalError (StrCat [error_label rev c; ": "; uvc_strerror lib err]).

(** [StatusOr<T>::value()]: the value, or [BadStatusOrAccess] is thrown. *)
Definition value {T : Type} (r : StatusOr T) : M T :=
  match r with
  | inr v => ret v
  | inl st => throw (BadStatusOrAccess st)
  end.

(** [T x = e.value();] for a wrapper class [T]: [x] is move-constructed
    from the wrapper inside the temporary [StatusOr], which is then
    destroyed.  When [value()] throws, the temporary holds no wrapper. *)
Definition init_from_value (k : uvc_kind) (e : M (StatusOr UvcWrapper))
  : M UvcWrapper :=
  temporary <- e ;;
  held <- value temporary ;;
  let '(x, held) := UvcWrapper_move held in
  UvcWrapper_delete k held ;;
  ret x.

(** A local variable [obj] of wrapper class [k] whose scope is [body]. *)
Definition scoped {A : Type} (k : uvc_kind) (obj : UvcWrapper) (body : M A)
  : M A :=
  finally body (UvcWrapper_delete k obj).

(** *** class UvcDeviceHandle (main.cc 51-99, part_001 43-77) *)

Definition GetZoomAbs (this : UvcWrapper) (req_code : uvc_req_code)
  : M (StatusOr Z) :=
  '(err, result) <- do_uvc_get_zoom_abs (value_ this) req_code ;;
  if err <? 0 then ret (Failed (uvc_failure call_get_zoom_abs err))
  else ret (Value result).

Definition SetZoomAbs (this : UvcWrapper) (focal_length : Z) : M Status :=
  err <- do_uvc_set_zoom_abs (value_ this) focal_length ;;
  if err <? 0 then ret (uvc_failure call_set_zoom_abs err)
  else ret OkStatus.

Definition GetZoomRel (this : UvcWrapper) (req_code : uvc_req_code)
  : M (StatusOr ZoomRel) :=
  '(err, result) <- do_uvc_get_zoom_rel (value_ this) req_code ;;
  if err <? 0 then ret (Failed (uvc_failure call_get_zoom_rel err))
  else ret (Value result).

Definition SetZoomRel (this : UvcWrapper) (zoom : ZoomRel) : M Status :=
  err <- do_uvc_set_zoom_rel (value_ this) zoom ;;
  if err <? 0 then ret (uvc_failure call_set_zoom_rel err)
  else ret OkStatus.

Definition PrintDiag (this : UvcWrapper) : M unit :=
  do_uvc_print_diag (value_ this).

(** *** class UvcDevice (main.cc 101-114, part_001 79-92) *)

Definition Open (this : UvcWrapper) : M (StatusOr UvcWrapper) :=
  '(err, handle) <- do_uvc_open (value_ this) ;;
  if err <? 0 then ret (Failed (uvc_failure call_open err))
  else return_wrapped Handle handle.

(** *** class UvcContext (main.cc 116-138, part_001 94-113) *)

Definition Create : M (StatusOr UvcWrapper) :=
  '(err, ctx) <- do_uvc_init ;;
  if err <? 0 then ret (Failed (uvc_failure call_init err))
  else return_wrapped Context ctx.

Definition FindDevice (this : UvcWrapper) (vid pid : Z) (sn : option string)
  : M (StatusOr UvcWrapper) :=
  '(err, dev) <- do_uvc_find_device (value_ this) vid pid sn ;;
  if err <? 0 then ret (Failed (uvc_failure call_find_device err))
  else return_wrapped Device dev.

(** *** operator<< on ZoomRel (main.cc 43-48) *)

Definition cout_ZoomRel (value : ZoomRel) : M unit :=
  cout "zoom_rel: " ;; cout (show_char (zoom_rel value)) ;;
  cout ", digital_zoom: " ;; cout (show_char (digital_zoom value)) ;;
  cout ", speed: " ;; cout (show_char (speed value)).

(** *** Visca2Uvc (main.cc 150-201, part_001 125-176)

    [args] is the span the function receives.  In a chain
    [std::cout << a << f() << b] the writes and the call happen left to
    right (C++17, which CMakeLists.txt selects). *)

(** The chain of [if (cmd == ...)] with the final [return] (main.cc
    169-200), [handle] being the local of that name. *)
Definition Visca2Uvc_commands (args : list string) (handle : UvcWrapper)
  : M Status :=
  let cmd := nth 1 args "" in
  if (cmd =? "get_zoom_abs")%string then
    cout "min: " ;; r <- GetZoomAbs handle UVC_GET_MIN ;;
    v <- value r ;; cout (show_uint16 v) ;; cout nl ;;
    cout "max: " ;; r <- GetZoomAbs handle UVC_GET_MAX ;;
    v <- value r ;; cout (show_uint16 v) ;; cout nl ;;
    cout "cur: " ;; r <- GetZoomAbs handle UVC_GET_CUR ;;
    v <- value r ;; cout (show_uint16 v) ;; cout nl ;;
    ret OkStatus
  else if (cmd =? "set_zoom_abs")%string then
    if negb (Z.of_nat (List.length args) =? 3) then
      ret (InvalidArgumentError "set_zoom_abs needs 1 argument.")
    else
      cout "set: " ;;
      focal_length <- value (SimpleAtoi UInt16 (nth 2 args "")) ;;
      st <- SetZoomAbs handle focal_length ;;
      cout (Status_ToString st) ;; cout nl ;;
      cout "cur: " ;; r <- GetZoomAbs handle UVC_GET_CUR ;;
      v <- value r ;; cout (show_uint16 v) ;; cout nl ;;
      ret OkStatus
  else if (cmd =? "get_zoom_rel")%string then
    cout "min: " ;; r <- GetZoomRel handle UVC_GET_MIN ;;
    v <- value r ;; cout_ZoomRel v ;; cout nl ;;
    cout "max: " ;; r <- GetZoomRel handle UVC_GET_MAX ;;
    v <- value r ;; cout_ZoomRel v ;; cout nl ;;
    cout "cur: " ;; r <- GetZoomRel handle UVC_GET_CUR ;;
    v <- value r ;; cout_ZoomRel v ;; cout nl ;;
    ret OkStatus
  else if (cmd =? "set_zoom_rel")%string then
    if negb (Z.of_nat (List.length args) =? 5) then
      ret (InvalidArgumentError "set_zoom_rel needs 3 argument.")
    else
      arg_zoom_rel <- value (SimpleAtoi Int8 (nth 2 args "")) ;;
      arg_digital_zoom <- value (SimpleAtoi UInt8 (nth 3 args "")) ;;
      arg_speed <- value (SimpleAtoi UInt8 (nth 3 args "")) ;;
      let arg := {| zoom_rel := arg_zoom_rel;
                    digital_zoom := arg_digital_zoom;
                    speed := arg_speed |} in
      cout "set: " ;;
      st <- SetZoomRel handle arg ;;
      cout (Status_ToString st) ;; cout nl ;;
      cout "cur: " ;; r <- GetZoomRel handle UVC_GET_CUR ;;
      v <- value r ;; cout_ZoomRel v ;; cout nl ;;
      ret OkStatus
  else
    cerr "Unknown command: " ;; cerr cmd ;; cerr nl ;;
    ret OkStatus.

(** The three locals [uvc], [dev], [handle] live to the end of the
    function, so each [return] and each exception passes their
    destructors, last declared first. *)
Definition Visca2Uvc (args : list string) : M Status :=
  if Z.of_nat (List.length args) <=? 1 then
    cout usage ;;
    ret OkStatus
  else
    uvc <- init_from_value Context Create ;;
    scoped Context uvc (
      (* Get the first available UVC device. *)
      dev <- init_from_value Device (FindDevice uvc 0 0 None) ;;
      scoped Device dev (
        handle <- init_from_value Handle (Open dev) ;;
        scoped Handle handle (
          PrintDiag handle ;;
          Visca2Uvc_commands args handle))).

(** *** main (main.cc 205-216, part_001 180-191)

    [args] is what [absl::ParseCommandLine(argc, argv)] returned: the
    program name followed by the positional arguments.  Falling off the
    end of [main] is [return 0]. *)
Definition main (args : list string) : M Z :=
  try_catch
    (status <- Visca2Uvc args ;;
     (if negb (ok status)
      then cerr (Status_ToString status) ;; cerr nl
      else ret tt) ;;
     ret 0)
    (fun e =>
       cerr "Exception: " ;; cerr (what e) ;; cerr nl ;;
       ret 1).

End Program.

(** ** Test doubles for libuvc

    Three stand-ins for the library, used to run the program on concrete
    inputs: a camera that remembers what was last set, a machine with no
    camera attached, and a camera whose control transfers stall. *)
Module Mock.

(** [uvc_strerror] on the codes of [enum uvc_error] used below. *)
Definition strerror (err : uvc_error_t) : string :=
  match err with
  | 0 => "Success"
  | -1 => "I/O error"
  | -4 => "No such device"
  | -9 => "Pipe"
  | _ => "Unknown error"
  end.

Record camera : Type := {
  focal_length : Z;
  relative : ZoomRel
}.

Definition power_on : camera :=
  {| focal_length := 0; relative := mkZoomRel 0 0 0 |}.

Definition ctx_addr : ptr := 4096.
Definition dev_addr : ptr := 8192.
Definition devh_addr : ptr := 12288.

Definition echo : libuvc camera := {|
  uvc_init := fun s => (0, ctx_addr, s);
  uvc_find_device := fun _ _ _ _ s => (0, dev_addr, s);
  uvc_open := fun _ s => (0, devh_addr, s);
  uvc_get_zoom_abs := fun _ req s =>
    (0, match req with
        | UVC_GET_MIN => 0
        | UVC_GET_MAX => 16384
        | UVC_GET_CUR => focal_length s
        end, s);
  uvc_set_zoom_abs := fun _ v s =>
    (0, {| focal_length := v; relative := relative s |});
  uvc_get_zoom_rel := fun _ req s =>
    (0, match req with
        | UVC_GET_MIN => mkZoomRel (-7) 0 0
        | UVC_GET_MAX => mkZoomRel 7 1 7
        | UVC_GET_CUR => relative s
        end, s);
  uvc_set_zoom_rel := fun _ z d sp s =>
    (0, {| focal_length := focal_length s; relative := mkZoomRel z d sp |});
  uvc_print_diag := fun _ s => s;
  uvc_close := fun _ s => s;
  uvc_unref_device := fun _ s => s;
  uvc_exit := fun _ s => s;
  uvc_strerror := strerror
|}.

(** [uvc_find_device] reports [UVC_ERROR_NO_DEVICE]. *)
Definition unplugged : libuvc unit := {|
  uvc_init := fun s => (0, ctx_addr, s);
  uvc_find_device := fun _ _ _ _ s => (-4, 0, s);
  uvc_open := fun _ s => (-4, 0, s);
  uvc_get_zoom_abs := fun _ _ s => (-4, 0, s);
  uvc_set_zoom_abs := fun _ _ s => (-4, s);
  uvc_get_zoom_rel := fun _ _ s => (-4, mkZoomRel 0 0 0, s);
  uvc_set_zoom_rel := fun _ _ _ _ s => (-4, s);
  uvc_print_diag := fun _ s => s;
  uvc_close := fun _ s => s;
  uvc_unref_device := fun _ s => s;
  uvc_exit := fun _ s => s;
  uvc_strerror := strerror
|}.

(** Every zoom control transfer reports [UVC_ERROR_PIPE]. *)
Definition stalled : libuvc unit := {|
  uvc_init := fun s => (0, ctx_addr, s);
  uvc_find_device := fun _ _ _ _ s => (0, dev_addr, s);
  uvc_open := fun _ s => (0, devh_addr, s);
  uvc_get_zoom_abs := fun _ _ s => (-9, 0, s);
  uvc_set_zoom_abs := fun _ _ s => (-9, s);
  uvc_get_zoom_rel := fun _ _ s => (-9, mkZoomRel 0 0 0, s);
  uvc_set_zoom_rel := fun _ _ _ _ s => (-9, s);
  uvc_print_diag := fun _ s => s;
  uvc_close := fun _ s => s;
  uvc_unref_device := fun _ s => s;
  uvc_exit := fun _ s => s;
  uvc_strerror := strerror
|}.

End Mock.

(** ** Decimal numerals, as the specification speaks of them *)

Definition is_digit (c : ascii) : bool :=
  let n := Z.of_nat (nat_of_ascii c) in
  (48 <=? n) && (n <=? 57).

Definition digit_value (c : ascii) : Z := Z.of_nat (nat_of_ascii c) - 48.

Definition decimal_from (acc : Z) (ds : list ascii) : Z :=
  fold_left (fun a c => 10 * a + digit_value c) ds acc.

Definition decimal_value (ds : list ascii) : Z := decimal_from 0 ds.

(** A non-empty string of decimal digits. *)
Definition digit_string (ds : list ascii) : Prop :=
  ds <> [] /\ forallb is_digit ds = true.

Definition all_space (ws : list ascii) : Prop :=
  forallb absl.ascii_isspace ws = true.

(** [text] is a base-10 numeral of the unsigned 32-bit value [v] in the
    syntax [absl::SimpleAtoi] reads: white space, an optional plus sign,
    digits, white space. *)
Inductive denotes_uint32 (text : list ascii) (v : Z) : Prop :=
| denotes_intro (ws1 sign ds ws2 : list ascii) :
    text = ws1 ++ sign ++ ds ++ ws2 ->
    all_space ws1 -> all_space ws2 ->
    sign = [] \/ sign = ["+"%char] ->
    digit_string ds ->
    v = decimal_value ds ->
    v <= 4294967295 ->
    denotes_uint32 text v.

(** The text left once [safe_parse_sign_and_base] has dropped the white
    space. *)
Definition trimmed (text : list ascii) : list ascii :=
  rev (absl.skip_space (rev (absl.skip_space text))).

(** [s] is a numeral of [v], for a string. *)
Definition numeral_of (s : string) (v : Z) : Prop :=
  denotes_uint32 (list_ascii_of_string s) v.

(** What the specification asks of [parse<T>]: a digit string whose value
    fits [T]. *)
Definition fits_digit_string (T : int_type) (s : string) : Prop :=
  digit_string (list_ascii_of_string s) /\
  in_range T (decimal_value (list_ascii_of_string s)).

(** ** Reading traces *)

(** The control transfers of the four zoom operations. *)
Definition is_zoom_transfer (e : event) : bool :=
  match e with
  | Euvc_get_zoom_abs _ _ _ _ | Euvc_set_zoom_abs _ _ _
  | Euvc_get_zoom_rel _ _ _ _ | Euvc_set_zoom_rel _ _ _ => true
  | _ => false
  end.

(** Every call into libuvc: context creation, discovery, open, diagnostics,
    control transfers, releases. *)
Definition is_subsystem_call (e : event) : bool :=
  match e with
  | Ecout _ | Ecerr _ => false
  | _ => true
  end.

Definition zoom_transfers (t : trace) : trace := filter is_zoom_transfer t.
Definition subsystem_calls (t : trace) : trace := filter is_subsystem_call t.

(** What reached [std::cout] and [std::cerr]. *)
Fixpoint stdout_text (t : trace) : string :=
  match t with
  | [] => ""
  | Ecout text :: t' => text ++ stdout_text t'
  | _ :: t' => stdout_text t'
  end.

Fixpoint stderr_text (t : trace) : string :=
  match t with
  | [] => ""
  | Ecerr text :: t' => text ++ stderr_text t'
  | _ :: t' => stderr_text t'
  end.

(** The zoom operation an event is.  The names are those of the
    specification. *)
Inductive zoom_op : Type :=
| get_absolute_zoom (kind : uvc_req_code)
| set_absolute_zoom
| get_relative_zoom (kind : uvc_req_code)
| set_relative_zoom.

Definition zoom_op_of (e : event) : list zoom_op :=
  match e with
  | Euvc_get_zoom_abs _ kind _ _ => [get_absolute_zoom kind]
  | Euvc_set_zoom_abs _ _ _ => [set_absolute_zoom]
  | Euvc_get_zoom_rel _ kind _ _ => [get_relative_zoom kind]
  | Euvc_set_zoom_rel _ _ _ => [set_relative_zoom]
  | _ => []
  end.

(** The zoom operations of a trace, in its order. *)
Definition zoom_ops (t : trace) : list zoom_op := flat_map zoom_op_of t.

(** ** Resources and their life cycle *)

Definition resource : Type := (uvc_kind * ptr)%type.

Definition kind_eqb (a b : uvc_kind) : bool :=
  match a, b with
  | Context, Context | Device, Device | Handle, Handle => true
  | _, _ => false
  end.

Definition resource_eqb (a b : resource) : bool :=
  kind_eqb (fst a) (fst b) && (snd a =? snd b).

(** The resources a trace acquires (successful [uvc_init],
    [uvc_find_device], [uvc_open]) and releases ([uvc_close],
    [uvc_unref_device], [uvc_exit]), in the order of the trace. *)
Definition acquisition (e : event) : list resource :=
  match e with
  | Euvc_init err ctx => if err <? 0 then [] else [(Context, ctx)]
  | Euvc_find_device _ _ _ _ err dev => if err <? 0 then [] else [(Device, dev)]
  | Euvc_open _ err devh => if err <? 0 then [] else [(Handle, devh)]
  | _ => []
  end.

Definition release_of (e : event) : list resource :=
  match e with
  | Euvc_close devh => [(Handle, devh)]
  | Euvc_unref_device dev => [(Device, dev)]
  | Euvc_exit ctx => [(Context, ctx)]
  | _ => []
  end.

Definition acquired (t : trace) : list resource := flat_map acquisition t.
Definition released (t : trace) : list resource := flat_map release_of t.

(** A monitor over traces.  Its state is the stack of live resources, the
    last acquired on top.  A release must name the top of the stack; a call
    on a context, device or handle needs it live, and a handle moreover
    needs a device and a context live; a null pointer is never passed. *)
Definition is_live (r : resource) (live : list resource) : bool :=
  existsb (resource_eqb r) live.

Definition holds (k : uvc_kind) (live : list resource) : bool :=
  existsb (fun r => kind_eqb k (fst r)) live.

Definition acquire (k : uvc_kind) (err : uvc_error_t) (p : ptr)
           (live : list resource) : list resource :=
  if err <? 0 then live else (k, p) :: live.

Definition release (r : resource) (live : list resource)
  : option (list resource) :=
  match live with
  | top :: rest => if resource_eqb r top then Some rest else None
  | [] => None
  end.

Definition use_handle (devh : option ptr) (live : list resource)
  : option (list resource) :=
  match devh with
  | Some h =>
      if is_live (Handle, h) live && holds Device live && holds Context live
      then Some live else None
  | None => None
  end.

Definition lifecycle_step (live : list resource) (e : event)
  : option (list resource) :=
  match e with
  | Euvc_init err ctx => Some (acquire Context err ctx live)
  | Euvc_find_device (Some ctx) _ _ _ err dev =>
      if is_live (Context, ctx) live
      then Some (acquire Device err dev live) else None
  | Euvc_find_device None _ _ _ _ _ => None
  | Euvc_open (Some dev) err devh =>
      if is_live (Device, dev) live && holds Context live
      then Some (acquire Handle err devh live) else None
  | Euvc_open None _ _ => None
  | Euvc_print_diag devh => use_handle devh live
  | Euvc_get_zoom_abs devh _ _ _ => use_handle devh live
  | Euvc_set_zoom_abs devh _ _ => use_handle devh live
  | Euvc_get_zoom_rel devh _ _ _ => use_handle devh live
  | Euvc_set_zoom_rel devh _ _ => use_handle devh live
  | Euvc_close devh => release (Handle, devh) live
  | Euvc_unref_device dev => release (Device, dev) live
  | Euvc_exit ctx => release (Context, ctx) live
  | Ecout _ | Ecerr _ => Some live
  end.

Fixpoint lifecycle (live : list resource) (t : trace)
  : option (list resource) :=
  match t with
  | [] => Some live
  | e :: t' =>
      match lifecycle_step live e with
      | Some live' => lifecycle live' t'
      | None => None
      end
  end.

(** The whole trace passes the monitor and leaves nothing live. *)
Definition well_bracketed (t : trace) : bool :=
  match lifecycle [] t with
  | Some [] => true
  | _ => false
  end.

(** The trace passes the monitor; what it releases is what it acquires,
    backwards; and it acquires an initial part of context, device, handle. *)
Definition paired (t : trace) : Prop :=
  well_bracketed t = true /\
  released t = List.rev (acquired t) /\
  exists n, map fst (acquired t) = firstn n [Context; Device; Handle].

(** An event that is a stream write or a call on the handle [h]: what the
    command chain may do. *)
Definition on_handle (h : ptr) (e : event) : Prop :=
  match e with
  | Euvc_print_diag devh | Euvc_get_zoom_abs devh _ _ _
  | Euvc_set_zoom_abs devh _ _ | Euvc_get_zoom_rel devh _ _ _
  | Euvc_set_zoom_rel devh _ _ => devh = Some h
  | Ecout _ | Ecerr _ => True
  | _ => False
  end.

(** ** The runs of Visca2Uvc *)

Section Runs.

Context {S : Type} (lib : libuvc S) (rev : revision).

(** The events up to and including the diagnostics, and those of the
    three destructors. *)
Definition setup_events (e0 : uvc_error_t) (c : ptr) (e1 : uvc_error_t)
           (d : ptr) (e2 : uvc_error_t) (h : ptr) : trace :=
  [Euvc_init e0 c; Euvc_find_device (Some c) 0 0 None e1 d;
   Euvc_open (Some d) e2 h; Euvc_print_diag (Some h)].

Definition teardown_events (c d h : ptr) : trace :=
  [Euvc_close h; Euvc_unref_device d; Euvc_exit c].

(** From state [s] the library creates context [c], finds device [d] and
    opens handle [h], with statuses [e0], [e1], [e2], and the diagnostics
    leave it in state [s4]. *)
Definition opens (s : S) (e0 : uvc_error_t) (c : ptr) (e1 : uvc_error_t)
           (d : ptr) (e2 : uvc_error_t) (h : ptr) (s4 : S) : Prop :=
  exists s1 s2 s3,
    uvc_init lib s = (e0, c, s1) /\ 0 <= e0 /\
    uvc_find_device lib (Some c) 0 0 None s1 = (e1, d, s2) /\ 0 <= e1 /\
    uvc_open lib (Some d) s2 = (e2, h, s3) /\ 0 <= e2 /\
    s4 = uvc_print_diag lib (Some h) s3.

Definition closes (c d h : ptr) (s : S) : S :=
  uvc_exit lib c (uvc_unref_device lib d (uvc_close lib h s)).

(** The five ways a call of [Visca2Uvc] can go. *)
Inductive Visca2Uvc_run (args : list string) (s : S)
  : outcome Status * S * trace -> Prop :=
| run_usage :
    (List.length args <= 1)%nat ->
    Visca2Uvc_run args s (Returned OkStatus, s, [Ecout usage])
| run_init_failed (e0 : uvc_error_t) (c : ptr) (s1 : S) :
    (1 < List.length args)%nat ->
    uvc_init lib s = (e0, c, s1) -> e0 < 0 ->
    Visca2Uvc_run args s
      (Thrown (BadStatusOrAccess (uvc_failure lib rev call_init e0)), s1,
       [Euvc_init e0 c])
| run_find_failed (e0 : uvc_error_t) (c : ptr) (s1 : S)
                  (e1 : uvc_error_t) (d : ptr) (s2 : S) :
    (1 < List.length args)%nat ->
    uvc_init lib s = (e0, c, s1) -> 0 <= e0 ->
    uvc_find_device lib (Some c) 0 0 None s1 = (e1, d, s2) -> e1 < 0 ->
    Visca2Uvc_run args s
      (Thrown (BadStatusOrAccess (uvc_failure lib rev call_find_device e1)),
       uvc_exit lib c s2,
       [Euvc_init e0 c; Euvc_find_device (Some c) 0 0 None e1 d;
        Euvc_exit c])
| run_open_failed (e0 : uvc_error_t) (c : ptr) (s1 : S)
                  (e1 : uvc_error_t) (d : ptr) (s2 : S)
                  (e2 : uvc_error_t) (h : ptr) (s3 : S) :
    (1 < List.length args)%nat ->
    uvc_init lib s = (e0, c, s1) -> 0 <= e0 ->
    uvc_find_device lib (Some c) 0 0 None s1 = (e1, d, s2) -> 0 <= e1 ->
    uvc_open lib (Some d) s2 = (e2, h, s3) -> e2 < 0 ->
    Visca2Uvc_run args s
      (Thrown (BadStatusOrAccess (uvc_failure lib rev call_open e2)),
       uvc_exit lib c (uvc_unref_device lib d s3),
       [Euvc_init e0 c; Euvc_find_device (Some c) 0 0 None e1 d;
        Euvc_open (Some d) e2 h; Euvc_unref_device d; Euvc_exit c])
| run_commands (e0 : uvc_error_t) (c : ptr) (e1 : uvc_error_t) (d : ptr)
               (e2 : uvc_error_t) (h : ptr) (s4 : S)
               (r : outcome Status) (s5 : S) (t : trace) :
    (1 < List.length args)%nat ->
    opens s e0 c e1 d e2 h s4 ->
    Visca2Uvc_commands lib rev args (UvcWrapper_new h) s4 = (r, s5, t) ->
    Visca2Uvc_run args s
      (r, closes c d h s5,
       setup_events e0 c e1 d e2 h ++ t ++ teardown_events c d h).

End Runs.

(** The four command names of the chain. *)
Definition known_command (cmd : string) : bool :=
  existsb (String.eqb cmd)
          ["get_zoom_abs"; "set_zoom_abs"; "get_zoom_rel"; "set_zoom_rel"].

(** The six writes of [operator<<] on a [ZoomRel]. *)
Definition ZoomRel_events (z : ZoomRel) : trace :=
  [Ecout "zoom_rel: "; Ecout (show_char (zoom_rel z));
   Ecout ", digital_zoom: "; Ecout (show_char (digital_zoom z));
   Ecout ", speed: "; Ecout (show_char (speed z))].

(** The text [operator<<] writes for a [ZoomRel]. *)
Definition show_ZoomRel (z : ZoomRel) : string :=
  StrCat ["zoom_rel: "; show_char (zoom_rel z);
          ", digital_zoom: "; show_char (digital_zoom z);
          ", speed: "; show_char (speed z)].

(** The status [SetZoomAbs] and [SetZoomRel] return for a library status. *)
Definition set_status {S : Type} (lib : libuvc S) (rev : revision)
           (c : uvc_call) (err : uvc_error_t) : Status :=
  if err <? 0 then uvc_failure lib rev c err else OkStatus.

(** ** The failures the program expects *)

(** A libuvc call reported a negative status. *)
Definition subsystem_failure {S : Type} (lib : libuvc S) (rev : revision)
           (st : Status) : Prop :=
  exists c err, err < 0 /\ st = uvc_failure lib rev c err.

(** One of the tokens of [args] was refused by [SimpleAtoi<T>]. *)
Definition parse_failure (args : list string) (st : Status) : Prop :=
  exists T tok, In tok args /\ SimpleAtoi T tok = Failed st.

(** A command was given the wrong number of arguments. *)
Definition arity_failure (st : Status) : Prop :=
  st = InvalidArgumentError "set_zoom_abs needs 1 argument." \/
  st = InvalidArgumentError "set_zoom_rel needs 3 argument.".

(** A failed [StatusOr] carries a subsystem failure. *)
Definition fails_by_subsystem {S T : Type} (lib : libuvc S) (rev : revision)
           (r : StatusOr T) : Prop :=
  forall st, r = Failed st -> subsystem_failure lib rev st.

(** What an exception leaving [Visca2Uvc] carries. *)
Definition expected_exception {S : Type} (lib : libuvc S) (rev : revision)
           (args : list string) (e : exception) : Prop :=
  match e with
  | BadStatusOrAccess st => subsystem_failure lib rev st \/ parse_failure args st
  end.

(** ** A small program logic

    [satisfies m Q E T]: from every state, [m] emits only events of [T],
    and its result satisfies [Q] when it returns and [E] when it throws. *)
Definition satisfies {S A : Type} (m : M S A) (Q : A -> Prop)
           (E : exception -> Prop) (T : event -> Prop) : Prop :=
  forall s,
    Forall T (trace_of (m s)) /\
    match result_of (m s) with
    | Returned a => Q a
    | Thrown e => E e
    end.

(** ** Definitions for the further properties *)

(** The digits of a decimal numeral as the stream writes them. *)
Definition digits_of (d : Decimal.uint) : list ascii :=
  list_ascii_of_string (NilEmpty.string_of_uint d).

(** The pointer a wrapper owns, if it owns one. *)
Definition held (w : UvcWrapper) : list ptr :=
  match value_ w with
  | Some p => [p]
  | None => []
  end.

(** What the chain does for one of the four commands: zoom transfers on the
    handle [h] and writes to the output stream. *)
Definition command_event (h : ptr) (e : event) : Prop :=
  match e with
  | Euvc_get_zoom_abs devh _ _ _ | Euvc_set_zoom_abs devh _ _
  | Euvc_get_zoom_rel devh _ _ _ | Euvc_set_zoom_rel devh _ _ => devh = Some h
  | Ecout _ => True
  | _ => False
  end.

Definition is_print_diag (e : event) : bool :=
  match e with
  | Euvc_print_diag _ => true
  | _ => false
  end.

(** Whether [main] is given a command that is none of the four. *)
Definition unknown_command_given (args : list string) : bool :=
  (1 <? Z.of_nat (List.length args)) && negb (known_command (nth 1 args "")).

(** A camera that answers the queries and refuses every set request with
    [UVC_ERROR_PIPE]. *)
Definition read_only : libuvc Mock.camera := {|
  uvc_init := uvc_init Mock.echo;
  uvc_find_device := uvc_find_device Mock.echo;
  uvc_open := uvc_open Mock.echo;
  uvc_get_zoom_abs := uvc_get_zoom_abs Mock.echo;
  uvc_set_zoom_abs := fun _ _ s => (-9, s);
  uvc_get_zoom_rel := uvc_get_zoom_rel Mock.echo;
  uvc_set_zoom_rel := fun _ _ _ _ s => (-9, s);
  uvc_print_diag := uvc_print_diag Mock.echo;
  uvc_close := uvc_close Mock.echo;
  uvc_unref_device := uvc_unref_device Mock.echo;
  uvc_exit := uvc_exit Mock.echo;
  uvc_strerror := Mock.strerror
|}.

(** ** Comparing the two revisions *)

(** The status a library call reported, for the calls that report one. *)
Definition call_status (e : event) : option uvc_error_t :=
  match e with
  | Euvc_init err _ | Euvc_find_device _ _ _ _ err _ | Euvc_open _ err _
  | Euvc_get_zoom_abs _ _ err _ | Euvc_set_zoom_abs _ _ err
  | Euvc_get_zoom_rel _ _ err _ | Euvc_set_zoom_rel _ _ err => Some err
  | _ => None
  end.

Definition call_succeeded (e : event) : bool :=
  match call_status e with
  | Some err => 0 <=? err
  | None => true
  end.

(** No library call of the trace reported an error. *)
Definition calls_succeed (t : trace) : bool := forallb call_succeeded t.

(** Two events are the same library call with the same arguments and
    results, or they are writes to the same stream. *)
Definition same_call (e1 e2 : event) : Prop :=
  match e1, e2 with
  | Ecout _, Ecout _ => True
  | Ecerr _, Ecerr _ => True
  | _, _ => e1 = e2
  end.

Definition outcome_rel {A : Type} (R : A -> A -> Prop) (r1 r2 : outcome A)
  : Prop :=
  match r1, r2 with
  | Returned a1, Returned a2 => R a1 a2
  | Thrown _, Thrown _ => True
  | _, _ => False
  end.

(** Two computations agree: from every state they reach the same state
    through the same calls, with writes at the same places, and with
    outcomes related by [R]; and, when [P] holds and no call of the first
    reported an error, they are equal. *)
Definition agree {S A : Type} (P : Prop) (R : A -> A -> Prop)
           (m1 m2 : M S A) : Prop :=
  forall s,
    state_of (m1 s) = state_of (m2 s) /\
    Forall2 same_call (trace_of (m1 s)) (trace_of (m2 s)) /\
    outcome_rel R (result_of (m1 s)) (result_of (m2 s)) /\
    (P -> calls_succeed (trace_of (m1 s)) = true -> m1 s = m2 s).

(** Two results of a fallible function: the same, or two errors. *)
Definition both_failed_or_equal {T : Type} (r1 r2 : StatusOr T) : Prop :=
  r1 = r2 \/ exists st1 st2, r1 = Failed st1 /\ r2 = Failed st2.

(** ** Reading the output as lines, and the runs of the four commands *)



(** What one query of [get_zoom_abs] leaves in the trace: the label and the
    call, and when the call succeeded the value and the line end. *)
Definition abs_query_events (h : ptr) (label : string) (req_code : uvc_req_code)
           (err : uvc_error_t) (v : Z) : trace :=
  [Ecout label; Euvc_get_zoom_abs (Some h) req_code err v] ++
  (if err <? 0 then [] else [Ecout (show_uint16 v); Ecout nl]).


(** The call and the status of an event that is a failed acquisition or a
    failed query (the calls whose result the program reads with
    [value()]). *)
Definition failed_call (e : event) : option (uvc_call * uvc_error_t) :=
  match e with
  | Euvc_init err _ => if err <? 0 then Some (call_init, err) else None
  | Euvc_find_device _ _ _ _ err _ =>
      if err <? 0 then Some (call_find_device, err) else None
  | Euvc_open _ err _ => if err <? 0 then Some (call_open, err) else None
  | Euvc_get_zoom_abs _ _ err _ =>
      if err <? 0 then Some (call_get_zoom_abs, err) else None
  | Euvc_get_zoom_rel _ _ err _ =>
      if err <? 0 then Some (call_get_zoom_rel, err) else None
  | _ => None
  end.








(** ** Parser lemmas *)

Section Parser.

Import absl.

Lemma kAsciiToInt_digit (c : ascii) :
  is_digit c = true -> kAsciiToInt c = digit_value c /\ 0 <= digit_value c <= 9.
Proof.
  unfold is_digit, kAsciiToInt, digit_value.
  intros H. rewrite H.
  apply andb_true_iff in H. destruct H as [H1 H2].
  apply Z.leb_le in H1, H2. lia.
Qed.

Lemma kAsciiToInt_other (c : ascii) :
  is_digit c = false -> 10 <= kAsciiToInt c.
Proof.
  unfold is_digit, kAsciiToInt.
  intros H. rewrite H.
  repeat match goal with
         | |- context [if ?b then _ else _] => destruct b eqn:?
         end;
    repeat match goal with
           | E : (_ && _)%bool = true |- _ =>
               apply andb_true_iff in E; destruct E
           | E : (_ <=? _) = true |- _ => apply Z.leb_le in E
           end;
    lia.
Qed.

Lemma digit_not_space (c : ascii) : is_digit c = true -> ascii_isspace c = false.
Proof.
  unfold is_digit, ascii_isspace. intros H.
  apply andb_true_iff in H. destruct H as [H1 H2].
  apply Z.leb_le in H1, H2.
  apply orb_false_iff. split.
  - apply Z.eqb_neq. lia.
  - apply andb_false_iff. right. apply Z.leb_gt. lia.
Qed.

Lemma digit_not_sign (c : ascii) :
  is_digit c = true -> Ascii.eqb c "-" = false /\ Ascii.eqb c "+" = false.
Proof.
  intros H. split; apply Ascii.eqb_neq; intros ->; discriminate H.
Qed.

Lemma decimal_from_cons (acc : Z) (c : ascii) (ds : list ascii) :
  decimal_from acc (c :: ds) = decimal_from (10 * acc + digit_value c) ds.
Proof. reflexivity. Qed.

Lemma decimal_from_ge (ds : list ascii) :
  forall acc, 0 <= acc -> forallb is_digit ds = true -> acc <= decimal_from acc ds.
Proof.
  induction ds as [|c ds IH]; intros acc Hacc Hds.
  - unfold decimal_from. cbn [fold_left]. lia.
  - cbn [forallb] in Hds. apply andb_true_iff in Hds. destruct Hds as [Hc Hds].
    destruct (kAsciiToInt_digit c Hc) as [_ Hd].
    rewrite decimal_from_cons.
    assert (H : 0 <= 10 * acc + digit_value c) by lia.
    specialize (IH (10 * acc + digit_value c) H Hds). lia.
Qed.

(** The digit loop accepts exactly the digit strings whose value, continued
    from [value], does not pass [vmax], and returns that value. *)
Lemma safe_parse_positive_int_spec (text : list ascii) :
  forall value v, 0 <= value <= vmax ->
    safe_parse_positive_int text value = Some v <->
    forallb is_digit text = true /\ v = decimal_from value text /\ v <= vmax.
Proof.
  induction text as [|c text IH]; intros value v Hv.
  - unfold decimal_from. cbn [safe_parse_positive_int forallb fold_left]. split.
    + intros [= <-]. repeat split; lia.
    + intros (_ & -> & _). reflexivity.
  - cbn [safe_parse_positive_int forallb]. rewrite decimal_from_cons.
    destruct (is_digit c) eqn:Hc.
    + destruct (kAsciiToInt_digit c Hc) as [-> Hd].
      change vmax_over_base with 429496729.
      unfold base, vmax in *. cbn [andb].
      replace (10 <=? digit_value c) with false
        by (symmetry; apply Z.leb_gt; lia).
      destruct (429496729 <? value) eqn:E1; cbv iota.
      * apply Z.ltb_lt in E1. split; [discriminate|].
        intros (Hds & -> & Hle). exfalso.
        assert (10 * value + digit_value c
                <= decimal_from (10 * value + digit_value c) text)
          by (apply decimal_from_ge; [lia|exact Hds]).
        lia.
      * apply Z.ltb_ge in E1.
        destruct (4294967295 - digit_value c <? value * 10) eqn:E2; cbv iota.
        -- apply Z.ltb_lt in E2. split; [discriminate|].
           intros (Hds & -> & Hle). exfalso.
           assert (10 * value + digit_value c
                   <= decimal_from (10 * value + digit_value c) text)
             by (apply decimal_from_ge; [lia|exact Hds]).
           lia.
        -- apply Z.ltb_ge in E2.
           rewrite IH by lia.
           replace (value * 10 + digit_value c)
             with (10 * value + digit_value c) by lia.
           reflexivity.
    + pose proof (kAsciiToInt_other c Hc) as Hk.
      unfold base.
      replace (10 <=? kAsciiToInt c) with true
        by (symmetry; apply Z.leb_le; lia).
      cbv iota.
      split; [discriminate|]. intros (Hds & _). discriminate Hds.
Qed.

(** *** White space on both sides *)

Lemma skip_space_split (text : list ascii) :
  exists ws, all_space ws /\ text = ws ++ skip_space text.
Proof.
  induction text as [|c text IH].
  - exists []. split; reflexivity.
  - cbn [skip_space]. destruct (ascii_isspace c) eqn:Hc.
    + destruct IH as (ws & Hws & Heq).
      exists (c :: ws). split.
      * unfold all_space. cbn [forallb]. rewrite Hc. exact Hws.
      * cbn [app]. f_equal. exact Heq.
    + exists []. split; reflexivity.
Qed.

Lemma skip_space_app (ws rest : list ascii) :
  all_space ws -> skip_space (ws ++ rest) = skip_space rest.
Proof.
  unfold all_space. induction ws as [|c ws IH]; intros Hws.
  - reflexivity.
  - cbn [forallb] in Hws. apply andb_true_iff in Hws. destruct Hws as [Hc Hws].
    cbn [app skip_space]. rewrite Hc. apply IH. exact Hws.
Qed.

Lemma skip_space_stops (c : ascii) (rest : list ascii) :
  ascii_isspace c = false -> skip_space (c :: rest) = c :: rest.
Proof. intros Hc. cbn [skip_space]. rewrite Hc. reflexivity. Qed.

Lemma forallb_rev {A : Type} (f : A -> bool) (l : list A) :
  forallb f (rev l) = forallb f l.
Proof.
  induction l as [|a l IH].
  - reflexivity.
  - cbn [rev forallb]. rewrite forallb_app, IH. cbn [forallb].
    rewrite andb_true_r. apply andb_comm.
Qed.

Lemma trimmed_split (text : list ascii) :
  exists ws1 ws2,
    all_space ws1 /\ all_space ws2 /\ text = ws1 ++ trimmed text ++ ws2.
Proof.
  destruct (skip_space_split text) as (ws1 & Hws1 & Heq1).
  destruct (skip_space_split (rev (skip_space text))) as (ws2 & Hws2 & Heq2).
  exists ws1, (rev ws2). repeat split.
  - exact Hws1.
  - unfold all_space. rewrite forallb_rev. exact Hws2.
  - unfold trimmed. rewrite <- rev_app_distr, <- Heq2, rev_involutive.
    exact Heq1.
Qed.

Lemma trimmed_numeral (ws1 sign ds ws2 : list ascii) :
  all_space ws1 -> all_space ws2 ->
  sign = [] \/ sign = ["+"%char] ->
  digit_string ds ->
  trimmed (ws1 ++ sign ++ ds ++ ws2) = sign ++ ds.
Proof.
  intros Hws1 Hws2 Hsign [Hne Hds].
  unfold trimmed.
  rewrite skip_space_app by exact Hws1.
  assert (Hhead : skip_space (sign ++ ds ++ ws2) = sign ++ ds ++ ws2).
  { destruct Hsign as [-> | ->].
    - destruct ds as [|d ds]; [contradiction|].
      cbn [forallb] in Hds. apply andb_true_iff in Hds.
      cbn [app]. apply skip_space_stops, digit_not_space, Hds.
    - reflexivity. }
  rewrite Hhead, app_assoc, rev_app_distr.
  rewrite skip_space_app
    by (unfold all_space; rewrite forallb_rev; exact Hws2).
  assert (Hlast : exists d ds', rev ds = d :: ds' /\ is_digit d = true).
  { destruct (rev ds) as [|d ds'] eqn:E.
    - apply (f_equal (@rev ascii)) in E. rewrite rev_involutive in E.
      contradiction.
    - exists d, ds'. split; [reflexivity|].
      rewrite <- forallb_rev, E in Hds. cbn [forallb] in Hds.
      apply andb_true_iff in Hds. apply Hds. }
  destruct Hlast as (d & ds' & E & Hd).
  rewrite rev_app_distr, E. cbn [app].
  rewrite skip_space_stops by (apply digit_not_space, Hd).
  change (d :: ds' ++ rev sign) with ((d :: ds') ++ rev sign).
  rewrite <- E, <- rev_app_distr. apply rev_involutive.
Qed.

(** *** The unsigned 32-bit parse is the numeral syntax *)

Theorem safe_strtou32_base_spec (text : list ascii) (v : Z) :
  safe_strtou32_base text = Some v <-> denotes_uint32 text v.
Proof.
  unfold safe_strtou32_base, safe_parse_sign_and_base.
  fold (trimmed text).
  split.
  - intros H.
    destruct (trimmed_split text) as (ws1 & ws2 & Hws1 & Hws2 & Heq).
    destruct (trimmed text) as [|c rest] eqn:Ecore; [discriminate|].
    destruct (Ascii.eqb c "-") eqn:Eminus.
    { cbn [orb] in H. destruct rest; discriminate. }
    destruct (Ascii.eqb c "+") eqn:Eplus; cbn [orb] in H.
    + apply Ascii.eqb_eq in Eplus. subst c.
      destruct rest as [|d rest]; [discriminate|].
      apply safe_parse_positive_int_spec in H; [|unfold vmax; lia].
      destruct H as (Hds & Hv & Hle).
      apply (denotes_intro text v ws1 ["+"%char] (d :: rest) ws2); auto.
      split; [discriminate|exact Hds].
    + apply safe_parse_positive_int_spec in H; [|unfold vmax; lia].
      destruct H as (Hds & Hv & Hle).
      apply (denotes_intro text v ws1 [] (c :: rest) ws2); auto.
      split; [discriminate|exact Hds].
  - intros [ws1 sign ds ws2 -> Hws1 Hws2 Hsign Hds -> Hle].
    rewrite (trimmed_numeral ws1 sign ds ws2 Hws1 Hws2 Hsign Hds).
    assert (Hparse : safe_parse_positive_int ds 0 = Some (decimal_value ds)).
    { apply safe_parse_positive_int_spec; [unfold vmax; lia|].
      destruct Hds as [_ Hds]. repeat split; assumption. }
    destruct Hds as [Hne Hds].
    destruct Hsign as [-> | ->].
    + destruct ds as [|d ds]; [contradiction|].
      cbn [forallb] in Hds. apply andb_true_iff in Hds.
      destruct Hds as [Hd _].
      destruct (digit_not_sign d Hd) as [E1 E2].
      cbn [app]. rewrite E1, E2. cbn [orb]. exact Hparse.
    + cbn [app]. change (Ascii.eqb "+" "-") with false.
      change (Ascii.eqb "+" "+") with true. cbn [orb].
      destruct ds as [|d ds]; [contradiction|]. exact Hparse.
Qed.

End Parser.

(** ** Rules of the program logic *)

Section Logic.

Context {S : Type}.

Lemma satisfies_ret {A : Type} (a : A) (Q : A -> Prop)
      (E : exception -> Prop) (T : event -> Prop) :
  Q a -> satisfies (S := S) (ret a) Q E T.
Proof. intros Ha s. split; [constructor|exact Ha]. Qed.

Lemma satisfies_throw {A : Type} (e : exception) (Q : A -> Prop)
      (E : exception -> Prop) (T : event -> Prop) :
  E e -> satisfies (S := S) (throw e) Q E T.
Proof. intros He s. split; [constructor|exact He]. Qed.

Lemma satisfies_emit (ev : event) (Q : unit -> Prop)
      (E : exception -> Prop) (T : event -> Prop) :
  T ev -> Q tt -> satisfies (S := S) (emit ev) Q E T.
Proof.
  intros Hev Hq s. split; [|exact Hq].
  constructor; [exact Hev|constructor].
Qed.

Lemma satisfies_bind {A B : Type} (m : M S A) (k : A -> M S B)
      (Q : A -> Prop) (Q' : B -> Prop)
      (E : exception -> Prop) (T : event -> Prop) :
  satisfies m Q E T ->
  (forall a, Q a -> satisfies (k a) Q' E T) ->
  satisfies (bind m k) Q' E T.
Proof.
  intros Hm Hk s. unfold bind.
  destruct (Hm s) as [Ht Hr]. unfold trace_of, result_of in *.
  destruct (m s) as [[[a|e] s1] t1]; cbn [fst snd] in *.
  - destruct (Hk a Hr s1) as [Ht' Hr']. unfold trace_of, result_of in *.
    destruct (k a s1) as [[r s2] t2]; cbn [fst snd] in *.
    split; [apply Forall_app; split; assumption|exact Hr'].
  - split; assumption.
Qed.

Lemma satisfies_weaken {A : Type} (m : M S A) (Q Q' : A -> Prop)
      (E E' : exception -> Prop) (T T' : event -> Prop) :
  satisfies m Q E T ->
  (forall a, Q a -> Q' a) -> (forall e, E e -> E' e) ->
  (forall ev, T ev -> T' ev) ->
  satisfies m Q' E' T'.
Proof.
  intros Hm HQ HE HT s. destruct (Hm s) as [Ht Hr]. split.
  - eapply Forall_impl; [exact HT|exact Ht].
  - destruct (result_of (m s)); auto.
Qed.

End Logic.

(** ** How the pieces of the program run *)

Section Pieces.

Context {S : Type} (lib : libuvc S) (rev : revision).

Lemma return_wrapped_run (k : uvc_kind) (p : ptr) (s : S) :
  return_wrapped lib rev k p s = (Returned (Value (UvcWrapper_new p)), s, []).
Proof. destruct rev; reflexivity. Qed.

(** A moved-from wrapper is null, and destroying it does nothing. *)
Lemma moved_from_is_inert (k : uvc_kind) (w : UvcWrapper) (s : S) :
  value_ (snd (UvcWrapper_move w)) = None /\
  value_ (fst (UvcWrapper_move w)) = value_ w /\
  UvcWrapper_delete lib k (snd (UvcWrapper_move w)) s = (Returned tt, s, []).
Proof. repeat split. Qed.

Lemma Create_run (s : S) :
  init_from_value lib Context (Create lib rev) s =
  match uvc_init lib s with
  | (e0, c, s1) =>
      (if e0 <? 0
       then Thrown (BadStatusOrAccess (uvc_failure lib rev call_init e0))
       else Returned (UvcWrapper_new c),
       s1, [Euvc_init e0 c])
  end.
Proof.
  unfold init_from_value, Create, bind, do_uvc_init.
  destruct (uvc_init lib s) as [[e0 c] s1].
  destruct (e0 <? 0); [reflexivity|].
  rewrite return_wrapped_run. reflexivity.
Qed.

Lemma FindDevice_run (uvc : UvcWrapper) (vid pid : Z) (sn : option string)
      (s : S) :
  init_from_value lib Device (FindDevice lib rev uvc vid pid sn) s =
  match uvc_find_device lib (value_ uvc) vid pid sn s with
  | (e1, d, s1) =>
      (if e1 <? 0
       then Thrown (BadStatusOrAccess (uvc_failure lib rev call_find_device e1))
       else Returned (UvcWrapper_new d),
       s1, [Euvc_find_device (value_ uvc) vid pid sn e1 d])
  end.
Proof.
  unfold init_from_value, FindDevice, bind, do_uvc_find_device.
  destruct (uvc_find_device lib (value_ uvc) vid pid sn s) as [[e1 d] s1].
  destruct (e1 <? 0); [reflexivity|].
  rewrite return_wrapped_run. reflexivity.
Qed.

Lemma Open_run (dev : UvcWrapper) (s : S) :
  init_from_value lib Handle (Open lib rev dev) s =
  match uvc_open lib (value_ dev) s with
  | (e2, h, s1) =>
      (if e2 <? 0
       then Thrown (BadStatusOrAccess (uvc_failure lib rev call_open e2))
       else Returned (UvcWrapper_new h),
       s1, [Euvc_open (value_ dev) e2 h])
  end.
Proof.
  unfold init_from_value, Open, bind, do_uvc_open.
  destruct (uvc_open lib (value_ dev) s) as [[e2 h] s1].
  destruct (e2 <? 0); [reflexivity|].
  rewrite return_wrapped_run. reflexivity.
Qed.

(** Every call of [Visca2Uvc] is one of the five runs. *)
Lemma Visca2Uvc_runs (args : list string) (s : S) :
  Visca2Uvc_run lib rev args s (Visca2Uvc lib rev args s).
Proof.
  unfold Visca2Uvc.
  destruct (Z.of_nat (List.length args) <=? 1) eqn:Hlen.
  { apply Z.leb_le in Hlen. apply run_usage. lia. }
  apply Z.leb_gt in Hlen.
  assert (Hargs : (1 < List.length args)%nat) by lia.
  unfold bind at 1. rewrite Create_run.
  destruct (uvc_init lib s) as [[e0 c] s1] eqn:E0.
  destruct (e0 <? 0) eqn:L0.
  { apply Z.ltb_lt in L0. eapply run_init_failed; eassumption. }
  apply Z.ltb_ge in L0.
  unfold scoped at 1, finally at 1, bind at 1. rewrite FindDevice_run.
  cbn [value_ UvcWrapper_new].
  destruct (uvc_find_device lib (Some c) 0 0 None s1) as [[e1 d] s2] eqn:E1.
  destruct (e1 <? 0) eqn:L1.
  { apply Z.ltb_lt in L1. cbn. eapply run_find_failed; eassumption. }
  apply Z.ltb_ge in L1.
  unfold scoped at 1, finally at 1, bind at 1. rewrite Open_run.
  cbn [value_ UvcWrapper_new].
  destruct (uvc_open lib (Some d) s2) as [[e2 h] s3] eqn:E2.
  destruct (e2 <? 0) eqn:L2.
  { apply Z.ltb_lt in L2. cbn. eapply run_open_failed; eassumption. }
  apply Z.ltb_ge in L2.
  unfold scoped, finally, bind at 1, PrintDiag, do_uvc_print_diag.
  change (value_ (UvcWrapper_new h)) with (Some h).
  destruct (Visca2Uvc_commands lib rev args (UvcWrapper_new h)
                               (uvc_print_diag lib (Some h) s3))
    as [[r s5] t] eqn:Ecmd.
  cbn [UvcWrapper_delete value_ UvcWrapper_new deleter].
  unfold do_uvc_close, do_uvc_unref_device, do_uvc_exit.
  match goal with
  | |- Visca2Uvc_run _ _ _ _ (_, _, ?tr) =>
      replace tr
        with (setup_events e0 c e1 d e2 h ++ t ++ teardown_events c d h)
  end.
  - eapply run_commands; [exact Hargs| |exact Ecmd].
    exists s1, s2, s3. repeat split; assumption.
  - unfold setup_events, teardown_events. cbn [app].
    repeat (rewrite <- app_assoc; cbn [app]). reflexivity.
Qed.

(** *** The four zoom operations *)

Lemma GetZoomAbs_run (this : UvcWrapper) (req_code : uvc_req_code) (s : S) :
  GetZoomAbs lib rev this req_code s =
  match uvc_get_zoom_abs lib (value_ this) req_code s with
  | (err, v, s1) =>
      (Returned (if err <? 0
                 then Failed (uvc_failure lib rev call_get_zoom_abs err)
                 else Value (convert UInt16 v)),
       s1, [Euvc_get_zoom_abs (value_ this) req_code err (convert UInt16 v)])
  end.
Proof.
  unfold GetZoomAbs, bind, do_uvc_get_zoom_abs.
  destruct (uvc_get_zoom_abs lib (value_ this) req_code s) as [[err v] s1].
  destruct (err <? 0); reflexivity.
Qed.

Lemma SetZoomAbs_run (this : UvcWrapper) (focal_length : Z) (s : S) :
  SetZoomAbs lib rev this focal_length s =
  match uvc_set_zoom_abs lib (value_ this) focal_length s with
  | (err, s1) =>
      (Returned (if err <? 0
                 then uvc_failure lib rev call_set_zoom_abs err
                 else OkStatus),
       s1, [Euvc_set_zoom_abs (value_ this) focal_length err])
  end.
Proof.
  unfold SetZoomAbs, bind, do_uvc_set_zoom_abs.
  destruct (uvc_set_zoom_abs lib (value_ this) focal_length s) as [err s1].
  destruct (err <? 0); reflexivity.
Qed.

Lemma GetZoomRel_run (this : UvcWrapper) (req_code : uvc_req_code) (s : S) :
  GetZoomRel lib rev this req_code s =
  match uvc_get_zoom_rel lib (value_ this) req_code s with
  | (err, z, s1) =>
      (Returned (if err <? 0
                 then Failed (uvc_failure lib rev call_get_zoom_rel err)
                 else Value (stored_ZoomRel z)),
       s1, [Euvc_get_zoom_rel (value_ this) req_code err (stored_ZoomRel z)])
  end.
Proof.
  unfold GetZoomRel, bind, do_uvc_get_zoom_rel.
  destruct (uvc_get_zoom_rel lib (value_ this) req_code s) as [[err z] s1].
  destruct (err <? 0); reflexivity.
Qed.

Lemma SetZoomRel_run (this : UvcWrapper) (zoom : ZoomRel) (s : S) :
  SetZoomRel lib rev this zoom s =
  match uvc_set_zoom_rel lib (value_ this) (zoom_rel zoom)
                         (digital_zoom zoom) (speed zoom) s with
  | (err, s1) =>
      (Returned (if err <? 0
                 then uvc_failure lib rev call_set_zoom_rel err
                 else OkStatus),
       s1, [Euvc_set_zoom_rel (value_ this) zoom err])
  end.
Proof.
  unfold SetZoomRel, bind, do_uvc_set_zoom_rel.
  destruct (uvc_set_zoom_rel lib (value_ this) (zoom_rel zoom)
                             (digital_zoom zoom) (speed zoom) s) as [err s1].
  destruct (err <? 0); reflexivity.
Qed.

Lemma uvc_failure_is_subsystem_failure (c : uvc_call) (err : uvc_error_t) :
  (err <? 0) = true -> subsystem_failure lib rev (uvc_failure lib rev c err).
Proof. intros H. apply Z.ltb_lt in H. exists c, err. split; auto. Qed.

Lemma GetZoomAbs_satisfies (h : ptr) (req_code : uvc_req_code)
      (E : exception -> Prop) :
  satisfies (GetZoomAbs lib rev (UvcWrapper_new h) req_code)
            (fails_by_subsystem lib rev) E (on_handle h).
Proof.
  intros s. rewrite GetZoomAbs_run.
  destruct (uvc_get_zoom_abs lib _ req_code s) as [[err v] s1].
  split.
  - repeat constructor.
  - cbn. destruct (err <? 0) eqn:L; intros st [= <-].
    apply uvc_failure_is_subsystem_failure, L.
Qed.

Lemma GetZoomRel_satisfies (h : ptr) (req_code : uvc_req_code)
      (E : exception -> Prop) :
  satisfies (GetZoomRel lib rev (UvcWrapper_new h) req_code)
            (fails_by_subsystem lib rev) E (on_handle h).
Proof.
  intros s. rewrite GetZoomRel_run.
  destruct (uvc_get_zoom_rel lib _ req_code s) as [[err v] s1].
  split.
  - repeat constructor.
  - cbn. destruct (err <? 0) eqn:L; intros st [= <-].
    apply uvc_failure_is_subsystem_failure, L.
Qed.

Lemma SetZoomAbs_satisfies (h : ptr) (focal_length : Z)
      (E : exception -> Prop) :
  satisfies (SetZoomAbs lib rev (UvcWrapper_new h) focal_length)
            (fun _ => True) E (on_handle h).
Proof.
  intros s. rewrite SetZoomAbs_run.
  destruct (uvc_set_zoom_abs lib _ focal_length s) as [err s1].
  split; [repeat constructor|exact I].
Qed.

Lemma SetZoomRel_satisfies (h : ptr) (zoom : ZoomRel)
      (E : exception -> Prop) :
  satisfies (SetZoomRel lib rev (UvcWrapper_new h) zoom)
            (fun _ => True) E (on_handle h).
Proof.
  intros s. rewrite SetZoomRel_run.
  destruct (uvc_set_zoom_rel lib _ _ _ _ s) as [err s1].
  split; [repeat constructor|exact I].
Qed.

Lemma cout_satisfies (text : string) (E : exception -> Prop) (h : ptr) :
  satisfies (S := S) (cout text) (fun _ => True) E (on_handle h).
Proof. apply satisfies_emit; exact I. Qed.

Lemma cerr_satisfies (text : string) (E : exception -> Prop) (h : ptr) :
  satisfies (S := S) (cerr text) (fun _ => True) E (on_handle h).
Proof. apply satisfies_emit; exact I. Qed.

Lemma cout_ZoomRel_satisfies (z : ZoomRel) (E : exception -> Prop) (h : ptr) :
  satisfies (S := S) (cout_ZoomRel z) (fun _ => True) E (on_handle h).
Proof.
  unfold cout_ZoomRel.
  repeat (eapply satisfies_bind; [apply cout_satisfies|intros _ _]).
  apply cout_satisfies.
Qed.

(** [value()] on what an operation returned. *)
Lemma value_of_operation {T : Type} (r : StatusOr T) (args : list string)
      (h : ptr) :
  fails_by_subsystem lib rev r ->
  satisfies (S := S) (value r) (fun _ => True)
            (expected_exception lib rev args) (on_handle h).
Proof.
  intros Hr. destruct r as [st|v].
  - apply satisfies_throw. left. apply Hr. reflexivity.
  - apply satisfies_ret. exact I.
Qed.

(** [value()] on what [SimpleAtoi] returned for a token of [args]. *)
Lemma value_of_SimpleAtoi (T : int_type) (tok : string) (args : list string)
      (h : ptr) :
  In tok args ->
  satisfies (S := S) (value (SimpleAtoi T tok)) (fun _ => True)
            (expected_exception lib rev args) (on_handle h).
Proof.
  intros Hin. destruct (SimpleAtoi T tok) as [st|v] eqn:E.
  - apply satisfies_throw. right. exists T, tok. split; assumption.
  - apply satisfies_ret. exact I.
Qed.

(** *** The command chain *)

Ltac prog_step :=
  first
    [ apply satisfies_ret
    | eapply satisfies_bind;
      [ first [ apply cout_satisfies | apply cerr_satisfies
              | apply cout_ZoomRel_satisfies
              | apply GetZoomAbs_satisfies | apply GetZoomRel_satisfies
              | apply SetZoomAbs_satisfies | apply SetZoomRel_satisfies
              | apply value_of_operation; assumption
              | apply value_of_SimpleAtoi; assumption ]
      | intros ? ? ] ].

Lemma token_in_args (args : list string) (n : nat) (len : Z) :
  negb (Z.of_nat (List.length args) =? len) = false ->
  Z.of_nat n < len -> In (nth n args "") args.
Proof.
  intros Hlen Hn. apply negb_false_iff, Z.eqb_eq in Hlen.
  apply nth_In. lia.
Qed.

(** The command chain only writes to the streams and calls the handle; it
    returns OK or an arity error; what it throws comes from a failed
    subsystem call or a failed parse. *)
Lemma Visca2Uvc_commands_satisfies (args : list string) (h : ptr) :
  satisfies (Visca2Uvc_commands lib rev args (UvcWrapper_new h))
            (fun st => st = OkStatus \/ arity_failure st)
            (expected_exception lib rev args) (on_handle h).
Proof.
  unfold Visca2Uvc_commands.
  destruct (nth 1 args "" =? "get_zoom_abs")%string.
  { repeat prog_step. left. reflexivity. }
  destruct (nth 1 args "" =? "set_zoom_abs")%string.
  { destruct (negb (Z.of_nat (List.length args) =? 3)) eqn:Hlen.
    - apply satisfies_ret. right. left. reflexivity.
    - pose proof (token_in_args args 2 3 Hlen ltac:(lia)).
      repeat prog_step. left. reflexivity. }
  destruct (nth 1 args "" =? "get_zoom_rel")%string.
  { repeat prog_step. left. reflexivity. }
  destruct (nth 1 args "" =? "set_zoom_rel")%string.
  { destruct (negb (Z.of_nat (List.length args) =? 5)) eqn:Hlen.
    - apply satisfies_ret. right. right. reflexivity.
    - pose proof (token_in_args args 2 5 Hlen ltac:(lia)).
      pose proof (token_in_args args 3 5 Hlen ltac:(lia)).
      repeat prog_step. left. reflexivity. }
  repeat prog_step. left. reflexivity.
Qed.

(** *** main *)

(** What [main] appends to the trace of [Visca2Uvc]. *)
Lemma main_run (args : list string) (s : S) :
  main lib rev args s =
  match Visca2Uvc lib rev args s with
  | (Returned status, s1, t) =>
      (Returned 0, s1,
       t ++ (if ok status then []
             else [Ecerr (Status_ToString status); Ecerr nl]))
  | (Thrown e, s1, t) =>
      (Returned 1, s1, t ++ [Ecerr "Exception: "; Ecerr (what e); Ecerr nl])
  end.
Proof.
  unfold main, try_catch, bind.
  destruct (Visca2Uvc lib rev args s) as [[[status|e] s1] t].
  - destruct (ok status); reflexivity.
  - reflexivity.
Qed.

End Pieces.

(** ** The monitor on the traces of the program *)

Section Monitor.

Lemma lifecycle_app (t1 t2 : trace) :
  forall live,
    lifecycle live (t1 ++ t2) =
    match lifecycle live t1 with
    | Some live' => lifecycle live' t2
    | None => None
    end.
Proof.
  induction t1 as [|e t1 IH]; intros live; cbn [app lifecycle].
  - reflexivity.
  - destruct (lifecycle_step live e); [apply IH|reflexivity].
Qed.

(** Calls on a live handle and stream writes leave the stack as it is. *)
Lemma lifecycle_on_handle (h : ptr) (live : list resource) (t : trace) :
  use_handle (Some h) live = Some live ->
  Forall (on_handle h) t ->
  lifecycle live t = Some live.
Proof.
  intros Hlive Ht. induction Ht as [|e t He Ht IH]; [reflexivity|].
  cbn [lifecycle].
  assert (Hstep : lifecycle_step live e = Some live).
  { destruct e; cbn in He; try contradiction; subst;
      try exact Hlive; reflexivity. }
  rewrite Hstep. exact IH.
Qed.

(** They neither acquire nor release. *)
Lemma acquired_on_handle (h : ptr) (t : trace) :
  Forall (on_handle h) t -> acquired t = [] /\ released t = [].
Proof.
  intros Ht. induction Ht as [|e t He Ht [IHa IHr]].
  - split; reflexivity.
  - unfold acquired, released in *. cbn [flat_map].
    rewrite IHa, IHr.
    destruct e; cbn in He; try contradiction; split; reflexivity.
Qed.

Lemma acquired_app (t1 t2 : trace) :
  acquired (t1 ++ t2) = acquired t1 ++ acquired t2.
Proof. apply flat_map_app. Qed.

Lemma released_app (t1 t2 : trace) :
  released (t1 ++ t2) = released t1 ++ released t2.
Proof. apply flat_map_app. Qed.

Lemma resource_eqb_refl (r : resource) : resource_eqb r r = true.
Proof.
  destruct r as [k p]. unfold resource_eqb. cbn [fst snd].
  rewrite Z.eqb_refl. destruct k; reflexivity.
Qed.

End Monitor.

(** ** The numeric argument parser *)

Section ParserClaims.

Lemma convert_in_range (T : int_type) (v : Z) : in_range T (convert T v).
Proof.
  unfold in_range, convert.
  destruct T; cbn [is_signed width andb];
    change (2 ^ 8) with 256; change (2 ^ (8 - 1)) with 128;
    change (2 ^ 16) with 65536.
  - pose proof (Z.mod_pos_bound v 256 ltac:(lia)).
    destruct (128 <=? v mod 256) eqn:E;
      [apply Z.leb_le in E|apply Z.leb_gt in E]; lia.
  - apply Z.mod_pos_bound. lia.
  - apply Z.mod_pos_bound. lia.
Qed.

Lemma convert_congruent (T : int_type) (v : Z) :
  convert T v mod 2 ^ width T = v mod 2 ^ width T.
Proof.
  unfold convert.
  destruct (is_signed T && (2 ^ (width T - 1) <=? v mod 2 ^ width T)).
  - replace (v mod 2 ^ width T - 2 ^ width T)
      with (v mod 2 ^ width T + (-1) * 2 ^ width T) by lia.
    rewrite Z.mod_add by (destruct T; discriminate).
    apply Z.mod_mod. destruct T; discriminate.
  - apply Z.mod_mod. destruct T; discriminate.
Qed.

Lemma numeral_bounds (s : string) (v : Z) :
  numeral_of s v -> 0 <= v <= 4294967295.
Proof.
  intros [ws1 sign ds ws2 _ _ _ _ [_ Hds] -> Hle]. split; [|exact Hle].
  apply (decimal_from_ge ds 0); [lia|exact Hds].
Qed.

Lemma SimpleAtoi_numeral (T : int_type) (s : string) (v : Z) :
  numeral_of s v -> SimpleAtoi T s = Value (convert T v).
Proof.
  intros H. apply safe_strtou32_base_spec in H.
  unfold SimpleAtoi, absl.SimpleAtoi. rewrite H. reflexivity.
Qed.

Lemma SimpleAtoi_ok_iff (T : int_type) (s : string) :
  status_ok (SimpleAtoi T s) = true <-> exists v, numeral_of s v.
Proof.
  unfold SimpleAtoi, absl.SimpleAtoi. split.
  - destruct (absl.safe_strtou32_base (list_ascii_of_string s)) as [v|] eqn:E;
      [|discriminate].
    intros _. exists v. apply safe_strtou32_base_spec. exact E.
  - intros [v H]. apply safe_strtou32_base_spec in H. rewrite H. reflexivity.
Qed.

Lemma minus_is_no_numeral (s : string) (v : Z) :
  In "-"%char (list_ascii_of_string s) -> ~ numeral_of s v.
Proof.
  intros Hin [ws1 sign ds ws2 Heq Hws1 Hws2 Hsign [_ Hds] _ _].
  rewrite Heq in Hin.
  repeat (apply in_app_or in Hin; destruct Hin as [Hin|Hin]).
  - unfold all_space in Hws1. rewrite forallb_forall in Hws1.
    specialize (Hws1 _ Hin). discriminate Hws1.
  - destruct Hsign as [-> | ->]; [contradiction|].
    destruct Hin as [Hin|[]]. discriminate Hin.
  - rewrite forallb_forall in Hds. specialize (Hds _ Hin). discriminate Hds.
  - unfold all_space in Hws2. rewrite forallb_forall in Hws2.
    specialize (Hws2 _ Hin). discriminate Hws2.
Qed.

(** A digit string on its own is a numeral of its value when that value
    fits 32 bits. *)
Lemma digit_string_numeral (s : string) :
  digit_string (list_ascii_of_string s) ->
  decimal_value (list_ascii_of_string s) <= 4294967295 ->
  numeral_of s (decimal_value (list_ascii_of_string s)).
Proof.
  intros Hds Hle.
  apply (denotes_intro _ _ [] [] (list_ascii_of_string s) []); auto.
  - cbn [app]. symmetry. apply app_nil_r.
  - reflexivity.
  - reflexivity.
Qed.

(** C9: for each of the three widths, [SimpleAtoi<T>] succeeds exactly on
    the numerals of unsigned 32-bit values; on success it returns that
    value reduced modulo [2^width] (two's complement for [int8_t]), which
    lies in the range of [T]; a string with a minus sign is refused
    (["-5"] at [int8_t]), and a value above the range of [T] is accepted
    and truncated (["70000"] at [uint16_t] gives [70000 mod 2^16]). *)
Theorem C9_SimpleAtoi_parses_uint32_then_converts :
  forall (T : int_type) (s : string),
    (status_ok (SimpleAtoi T s) = true <-> exists v, numeral_of s v) /\
    (forall v, numeral_of s v ->
       0 <= v <= 4294967295 /\
       SimpleAtoi T s = Value (convert T v) /\
       in_range T (convert T v) /\
       convert T v mod 2 ^ width T = v mod 2 ^ width T) /\
    (In "-"%char (list_ascii_of_string s) ->
       status_ok (SimpleAtoi T s) = false) /\
    SimpleAtoi Int8 "-5"
      = Failed (InvalidArgumentError "Cannot parse as a: -5") /\
    SimpleAtoi UInt16 "70000" = Value (70000 mod 2 ^ 16) /\
    ~ in_range UInt16 70000.
Proof.
  intros T s. split; [apply SimpleAtoi_ok_iff|]. split.
  { intros v Hv. split; [exact (numeral_bounds s v Hv)|]. split.
    - apply SimpleAtoi_numeral, Hv.
    - split; [apply convert_in_range|apply convert_congruent]. }
  split.
  { intros Hin. apply not_true_is_false. intros Hok.
    apply SimpleAtoi_ok_iff in Hok. destruct Hok as [v Hv].
    exact (minus_is_no_numeral s v Hin Hv). }
  split; [reflexivity|]. split; [reflexivity|].
  unfold in_range. cbn. lia.
Qed.

(** The run of C9 on the two tokens it names and on a numeral with white
    space and a plus sign. *)
Lemma C9_witness_padded_numeral :
  numeral_of " +300 " 300 /\
  SimpleAtoi UInt8 " +300 " = Value 44 /\
  status_ok (SimpleAtoi Int8 "12-3") = false.
Proof.
  assert (H : numeral_of " +300 " 300).
  { apply safe_strtou32_base_spec. reflexivity. }
  split; [exact H|]. split.
  - destruct (C9_SimpleAtoi_parses_uint32_then_converts UInt8 " +300 ")
      as (_ & Hv & _).
    destruct (Hv 300 H) as (_ & Heq & _). exact Heq.
  - destruct (C9_SimpleAtoi_parses_uint32_then_converts Int8 "12-3")
      as (_ & _ & Hminus & _).
    apply Hminus. cbn. auto.
Defined.

(** C2, as stated, fails at ["70000"]: the parse at [uint16_t] succeeds,
    with the truncated value 4464, although 70000 is not in [0, 65535]. *)
Lemma C2_counterexample_70000 :
  SimpleAtoi UInt16 "70000" = Value 4464 /\
  ~ (status_ok (SimpleAtoi UInt16 "70000") = true <->
     fits_digit_string UInt16 "70000").
Proof.
  split; [reflexivity|].
  intros [H _]. specialize (H eq_refl).
  destruct H as [_ Hrange]. unfold in_range in Hrange.
  cbn [is_signed width] in Hrange. destruct Hrange as [_ Hlt].
  apply Z.ltb_lt in Hlt. vm_compute in Hlt. discriminate Hlt.
Qed.

(** C2, amended: the parse at [uint16_t] succeeds exactly on the numerals
    of values in [0, 4294967295] (white space around and a plus sign in
    front are allowed) and returns the value modulo 65536.  So a digit
    string whose value is in [0, 65535] gives that value, ["0"] gives 0,
    and ["70000"] is accepted and gives 4464. *)
Theorem C2_parse_u16_accepts_uint32_and_truncates :
  forall t : string,
    (status_ok (SimpleAtoi UInt16 t) = true <->
     exists v, numeral_of t v /\ 0 <= v <= 4294967295) /\
    (forall v, numeral_of t v -> SimpleAtoi UInt16 t = Value (v mod 65536)) /\
    (fits_digit_string UInt16 t ->
     SimpleAtoi UInt16 t = Value (decimal_value (list_ascii_of_string t))) /\
    SimpleAtoi UInt16 "0" = Value 0 /\
    SimpleAtoi UInt16 "70000" = Value 4464.
Proof.
  intros t. split.
  { rewrite SimpleAtoi_ok_iff. split.
    - intros [v Hv]. exists v. split; [exact Hv|exact (numeral_bounds t v Hv)].
    - intros [v [Hv _]]. exists v. exact Hv. }
  split.
  { intros v Hv. rewrite (SimpleAtoi_numeral UInt16 t v Hv). reflexivity. }
  split; [|split; reflexivity].
  intros [Hds Hrange]. unfold in_range in Hrange.
  cbn [is_signed width] in Hrange. change (2 ^ 16) with 65536 in Hrange.
  rewrite (SimpleAtoi_numeral UInt16 t _ (digit_string_numeral t Hds ltac:(lia))).
  unfold convert. cbn [is_signed width andb]. change (2 ^ 16) with 65536.
  rewrite Z.mod_small by lia. reflexivity.
Qed.

(** The amended C2 on a token in range and on one above it. *)
Lemma C2_witness_in_and_out_of_range :
  SimpleAtoi UInt16 "65535" = Value 65535 /\
  SimpleAtoi UInt16 "65536" = Value 0.
Proof.
  split.
  - destruct (C2_parse_u16_accepts_uint32_and_truncates "65535")
      as (_ & _ & Hfit & _).
    apply Hfit. split.
    + split; [discriminate|reflexivity].
    + unfold in_range. cbn [is_signed width].
      split; [apply Z.leb_le|apply Z.ltb_lt]; reflexivity.
  - destruct (C2_parse_u16_accepts_uint32_and_truncates "65536")
      as (_ & Hmod & _).
    apply (Hmod 65536). apply safe_strtou32_base_spec. reflexivity.
Defined.

End ParserClaims.

(** ** The four zoom operations *)

(** C5: each of [GetZoomAbs], [SetZoomAbs], [GetZoomRel], [SetZoomRel] makes
    exactly one library call (so nothing is retried), succeeds if and only
    if the status of that call is non-negative, and for a negative status
    returns the internal error whose text is the label of the call, [": "]
    and [uvc_strerror] of the status; the label is the name of the call in
    main.cc and the text of the call, which starts with that name, in
    part_001. *)
Theorem C5_zoom_operations_translate_status :
  forall (S : Type) (lib : libuvc S) (rev : revision) (this : UvcWrapper)
         (req_code : uvc_req_code) (focal_length : Z) (zoom : ZoomRel) (s : S),
    (exists err v s1 r,
        uvc_get_zoom_abs lib (value_ this) req_code s = (err, v, s1) /\
        GetZoomAbs lib rev this req_code s =
          (Returned r, s1,
           [Euvc_get_zoom_abs (value_ this) req_code err (convert UInt16 v)]) /\
        (status_ok r = true <-> 0 <= err) /\
        (0 <= err -> r = Value (convert UInt16 v)) /\
        (err < 0 ->
         r = Failed (InternalError
                       (StrCat [error_label rev call_get_zoom_abs; ": ";
                                uvc_strerror lib err])))) /\
    (exists err s1 st,
        uvc_set_zoom_abs lib (value_ this) focal_length s = (err, s1) /\
        SetZoomAbs lib rev this focal_length s =
          (Returned st, s1, [Euvc_set_zoom_abs (value_ this) focal_length err]) /\
        (ok st = true <-> 0 <= err) /\
        (err < 0 ->
         st = InternalError
                (StrCat [error_label rev call_set_zoom_abs; ": ";
                         uvc_strerror lib err]))) /\
    (exists err z s1 r,
        uvc_get_zoom_rel lib (value_ this) req_code s = (err, z, s1) /\
        GetZoomRel lib rev this req_code s =
          (Returned r, s1,
           [Euvc_get_zoom_rel (value_ this) req_code err (stored_ZoomRel z)]) /\
        (status_ok r = true <-> 0 <= err) /\
        (0 <= err -> r = Value (stored_ZoomRel z)) /\
        (err < 0 ->
         r = Failed (InternalError
                       (StrCat [error_label rev call_get_zoom_rel; ": ";
                                uvc_strerror lib err])))) /\
    (exists err s1 st,
        uvc_set_zoom_rel lib (value_ this) (zoom_rel zoom) (digital_zoom zoom)
                         (speed zoom) s = (err, s1) /\
        SetZoomRel lib rev this zoom s =
          (Returned st, s1, [Euvc_set_zoom_rel (value_ this) zoom err]) /\
        (ok st = true <-> 0 <= err) /\
        (err < 0 ->
         st = InternalError
                (StrCat [error_label rev call_set_zoom_rel; ": ";
                         uvc_strerror lib err]))) /\
    (forall c, String.prefix (call_name c) (error_label rev c) = true).
Proof.
  intros S lib rev this req_code focal_length zoom s.
  split; [|split; [|split; [|split]]].
  - rewrite GetZoomAbs_run.
    destruct (uvc_get_zoom_abs lib (value_ this) req_code s) as [[err v] s1].
    exists err, v, s1. eexists. split; [reflexivity|]. split; [reflexivity|].
    destruct (err <? 0) eqn:L;
      [apply Z.ltb_lt in L|apply Z.ltb_ge in L]; cbn [status_ok Failed Value].
    + repeat split; intros; try reflexivity; try discriminate; lia.
    + repeat split; intros; try reflexivity; try discriminate; lia.
  - rewrite SetZoomAbs_run.
    destruct (uvc_set_zoom_abs lib (value_ this) focal_length s) as [err s1].
    exists err, s1. eexists. split; [reflexivity|]. split; [reflexivity|].
    destruct (err <? 0) eqn:L;
      [apply Z.ltb_lt in L|apply Z.ltb_ge in L]; cbn [ok uvc_failure].
    + repeat split; intros; try reflexivity; try discriminate; lia.
    + repeat split; intros; try reflexivity; try discriminate; lia.
  - rewrite GetZoomRel_run.
    destruct (uvc_get_zoom_rel lib (value_ this) req_code s) as [[err z] s1].
    exists err, z, s1. eexists. split; [reflexivity|]. split; [reflexivity|].
    destruct (err <? 0) eqn:L;
      [apply Z.ltb_lt in L|apply Z.ltb_ge in L]; cbn [status_ok Failed Value].
    + repeat split; intros; try reflexivity; try discriminate; lia.
    + repeat split; intros; try reflexivity; try discriminate; lia.
  - rewrite SetZoomRel_run.
    destruct (uvc_set_zoom_rel lib (value_ this) (zoom_rel zoom)
                               (digital_zoom zoom) (speed zoom) s) as [err s1].
    exists err, s1. eexists. split; [reflexivity|]. split; [reflexivity|].
    destruct (err <? 0) eqn:L;
      [apply Z.ltb_lt in L|apply Z.ltb_ge in L]; cbn [ok uvc_failure].
    + repeat split; intros; try reflexivity; try discriminate; lia.
    + repeat split; intros; try reflexivity; try discriminate; lia.
  - intros c. destruct rev, c; reflexivity.
Qed.

(** C5 on the camera whose transfers stall: the status -9 becomes the
    internal error naming the call. *)
Lemma C5_witness_stalled :
  GetZoomAbs Mock.stalled main_cc (UvcWrapper_new Mock.devh_addr) UVC_GET_CUR tt
  = (Returned (Failed (InternalError "uvc_get_zoom_abs: Pipe")), tt,
     [Euvc_get_zoom_abs (Some Mock.devh_addr) UVC_GET_CUR (-9) 0]).
Proof.
  destruct (C5_zoom_operations_translate_status
              unit Mock.stalled main_cc (UvcWrapper_new Mock.devh_addr)
              UVC_GET_CUR 0 (mkZoomRel 1 0 1) tt)
    as ((err & v & s1 & r & Hcall & Hrun & _ & _ & Hneg) & _).
  cbn in Hcall. injection Hcall as <- <- <-.
  rewrite Hrun, Hneg by lia. reflexivity.
Defined.

(** ** The process boundary *)

(** C10: whenever [Visca2Uvc] returns, with whatever status, [main] exits
    with code 0, and a status that is not OK only adds its text and a line
    end to the error stream; when an exception leaves [Visca2Uvc], [main]
    writes the "Exception: " diagnostic and exits with code 1; these are the
    only two ways [main] ends, so exit code 1 occurs exactly when an
    exception reached the handler. *)
Theorem C10_exit_code_is_0_unless_exception :
  forall (S : Type) (lib : libuvc S) (rev : revision) (args : list string)
         (s : S),
    (forall st s1 t,
        Visca2Uvc lib rev args s = (Returned st, s1, t) ->
        main lib rev args s =
          (Returned 0, s1,
           t ++ (if ok st then []
                 else [Ecerr (Status_ToString st); Ecerr nl]))) /\
    (forall e s1 t,
        Visca2Uvc lib rev args s = (Thrown e, s1, t) ->
        main lib rev args s =
          (Returned 1, s1,
           t ++ [Ecerr "Exception: "; Ecerr (what e); Ecerr nl])) /\
    (result_of (main lib rev args s) = Returned 0 <->
     exists st, result_of (Visca2Uvc lib rev args s) = Returned st) /\
    (result_of (main lib rev args s) = Returned 1 <->
     exists e, result_of (Visca2Uvc lib rev args s) = Thrown e).
Proof.
  intros S lib rev args s. rewrite main_run.
  destruct (Visca2Uvc lib rev args s) as [[[st|e] s1] t]; cbn [result_of fst].
  - split; [intros ? ? ? [= <- <- <-]; reflexivity|].
    split; [intros ? ? ? [=]|].
    split; split.
    + intros _. exists st. reflexivity.
    + reflexivity.
    + intros [=].
    + intros [e [=]].
  - split; [intros ? ? ? [=]|].
    split; [intros ? ? ? [= <- <- <-]; reflexivity|].
    split; split.
    + intros [=].
    + intros [st [=]].
    + intros _. exists e. reflexivity.
    + reflexivity.
Qed.

(** C10 on [set_zoom_abs] without its argument: [Visca2Uvc] returns the
    arity error and the exit code is 0. *)
Lemma C10_witness_arity_error_exits_0 :
  main Mock.echo main_cc ["visca2uvc"; "set_zoom_abs"] Mock.power_on
  = (Returned 0, Mock.power_on,
     [Euvc_init 0 Mock.ctx_addr;
      Euvc_find_device (Some Mock.ctx_addr) 0 0 None 0 Mock.dev_addr;
      Euvc_open (Some Mock.dev_addr) 0 Mock.devh_addr;
      Euvc_print_diag (Some Mock.devh_addr);
      Euvc_close Mock.devh_addr; Euvc_unref_device Mock.dev_addr;
      Euvc_exit Mock.ctx_addr;
      Ecerr "INVALID_ARGUMENT: set_zoom_abs needs 1 argument."; Ecerr nl]).
Proof.
  destruct (C10_exit_code_is_0_unless_exception
              Mock.camera Mock.echo main_cc ["visca2uvc"; "set_zoom_abs"]
              Mock.power_on) as [Hret _].
  apply (Hret (InvalidArgumentError "set_zoom_abs needs 1 argument.")
              Mock.power_on
              [Euvc_init 0 Mock.ctx_addr;
               Euvc_find_device (Some Mock.ctx_addr) 0 0 None 0 Mock.dev_addr;
               Euvc_open (Some Mock.dev_addr) 0 Mock.devh_addr;
               Euvc_print_diag (Some Mock.devh_addr);
               Euvc_close Mock.devh_addr; Euvc_unref_device Mock.dev_addr;
               Euvc_exit Mock.ctx_addr]).
  reflexivity.
Defined.

(** ** Resource life cycle *)

Section Lifecycle.

Context {S : Type} (lib : libuvc S) (rev : revision).

Lemma acquire_ok (k : uvc_kind) (err : uvc_error_t) (p : ptr)
      (live : list resource) :
  0 <= err -> acquire k err p live = (k, p) :: live.
Proof.
  intros H. unfold acquire.
  replace (err <? 0) with false by (symmetry; apply Z.ltb_ge; exact H).
  reflexivity.
Qed.

Lemma acquire_failed (k : uvc_kind) (err : uvc_error_t) (p : ptr)
      (live : list resource) :
  err < 0 -> acquire k err p live = live.
Proof.
  intros H. unfold acquire.
  replace (err <? 0) with true by (symmetry; apply Z.ltb_lt; exact H).
  reflexivity.
Qed.

Ltac settle_status :=
  repeat match goal with
         | H : 0 <= ?e |- context [?e <? 0] =>
             replace (e <? 0) with false by (symmetry; apply Z.ltb_ge; exact H)
         | H : ?e < 0 |- context [?e <? 0] =>
             replace (e <? 0) with true by (symmetry; apply Z.ltb_lt; exact H)
         end.

Ltac run_monitor :=
  repeat (progress
            (cbn [lifecycle lifecycle_step release is_live existsb holds
                  kind_eqb fst orb andb app flat_map acquisition release_of];
             rewrite ?resource_eqb_refl;
             rewrite ?acquire_ok by assumption;
             rewrite ?acquire_failed by assumption;
             settle_status)).

Lemma Visca2Uvc_paired (args : list string) (s : S) :
  paired (trace_of (Visca2Uvc lib rev args s)).
Proof.
  destruct (Visca2Uvc_runs lib rev args s)
    as [ Hlen
       | e0 c s1 Hlen E0 L0
       | e0 c s1 e1 d s2 Hlen E0 L0 E1 L1
       | e0 c s1 e1 d s2 e2 h s3 Hlen E0 L0 E1 L1 E2 L2
       | e0 c e1 d e2 h s4 r s5 t Hlen Hopen Hcmd ];
    unfold paired, trace_of; cbn [snd].
  - split; [reflexivity|split; [reflexivity|exists 0%nat; reflexivity]].
  - unfold well_bracketed, acquired, released. run_monitor.
    split; [reflexivity|split; [reflexivity|exists 0%nat; reflexivity]].
  - unfold well_bracketed, acquired, released. run_monitor.
    split; [reflexivity|split; [reflexivity|exists 1%nat; reflexivity]].
  - unfold well_bracketed, acquired, released. run_monitor.
    split; [reflexivity|split; [reflexivity|exists 2%nat; reflexivity]].
  - destruct Hopen as (s1 & s2 & s3 & E0 & L0 & E1 & L1 & E2 & L2 & ->).
    pose proof (Visca2Uvc_commands_satisfies lib rev args h
                  (uvc_print_diag lib (Some h) s3)) as [Ht _].
    rewrite Hcmd in Ht. unfold trace_of in Ht. cbn [snd] in Ht.
    destruct (acquired_on_handle h t Ht) as [Ha Hr].
    split; [|split].
    + unfold well_bracketed, setup_events, teardown_events. run_monitor.
      match goal with
      | |- context [use_handle (Some h) ?live] =>
          assert (Huse : use_handle (Some h) live = Some live)
            by (unfold use_handle; run_monitor; reflexivity)
      end.
      rewrite Huse, lifecycle_app.
      rewrite (lifecycle_on_handle h _ t Huse Ht).
      run_monitor. reflexivity.
    + rewrite released_app, released_app, acquired_app, acquired_app, Ha, Hr.
      unfold setup_events, teardown_events, acquired, released.
      run_monitor. reflexivity.
    + exists 3%nat.
      rewrite acquired_app, acquired_app, Ha.
      unfold setup_events, teardown_events, acquired.
      run_monitor. reflexivity.
Qed.

(** Writes to the error stream change nothing for the monitor. *)
Lemma cerr_neutral (texts : list string) :
  acquired (map Ecerr texts) = [] /\
  released (map Ecerr texts) = [] /\
  forall live, lifecycle live (map Ecerr texts) = Some live.
Proof.
  induction texts as [|x texts (IHa & IHr & IHl)].
  - repeat split.
  - split; [exact IHa|split; [exact IHr|intros live; exact (IHl live)]].
Qed.

Lemma paired_cerr (t : trace) (texts : list string) :
  paired t -> paired (t ++ map Ecerr texts).
Proof.
  intros (Hwb & Hrel & n & Hacq).
  destruct (cerr_neutral texts) as (Ha & Hr & Hl).
  unfold paired. rewrite acquired_app, released_app, Ha, Hr, !app_nil_r.
  split; [|split; [exact Hrel|exists n; exact Hacq]].
  unfold well_bracketed in *. rewrite lifecycle_app.
  destruct (lifecycle [] t) as [live|]; [|discriminate].
  rewrite Hl. exact Hwb.
Qed.

(** What [main] adds goes to the error stream only. *)
Lemma main_paired (args : list string) (s : S) :
  paired (trace_of (main lib rev args s)).
Proof.
  pose proof (Visca2Uvc_paired args s) as Ht.
  rewrite main_run.
  destruct (Visca2Uvc lib rev args s) as [[[st|e] s1] t];
    unfold trace_of in *; cbn [snd] in *.
  - destruct (ok st).
    + apply (paired_cerr t []). exact Ht.
    + apply (paired_cerr t [Status_ToString st; nl]). exact Ht.
  - apply (paired_cerr t ["Exception: "; what e; nl]). exact Ht.
Qed.

End Lifecycle.

(** C4: on every run of the program, whatever the library answers and
    whatever the arguments are (normal return, arity error, exception from
    a failed call or parse), the trace passes the life-cycle monitor and
    ends with nothing live: every release names the resource acquired last
    among those still live, no call is made on a resource that is not live
    or on a handle without a live device and context, and no null pointer
    is passed.  The resources released are exactly those acquired, in the
    reverse order; they are acquired in the order context, device, handle,
    so the handle is released before the device and the device before the
    context.  A moved-from wrapper holds the null pointer, and destroying it
    makes no call. *)
Theorem C4_resources_released_once_in_reverse_order :
  forall (S : Type) (lib : libuvc S) (rev : revision) (args : list string)
         (s : S),
    let t := trace_of (main lib rev args s) in
    well_bracketed t = true /\
    released t = List.rev (acquired t) /\
    (exists n, map fst (acquired t) = firstn n [Context; Device; Handle]) /\
    (forall (k : uvc_kind) (w : UvcWrapper) (s' : S),
        value_ (snd (UvcWrapper_move w)) = None /\
        value_ (fst (UvcWrapper_move w)) = value_ w /\
        UvcWrapper_delete lib k (snd (UvcWrapper_move w)) s'
        = (Returned tt, s', [])).
Proof.
  intros S lib rev args s t.
  destruct (main_paired lib rev args s) as (Hwb & Hrel & Hacq).
  repeat split; assumption.
Qed.

(** C4 on two runs: with the camera that answers the three resources are
    released handle first; with no camera attached only the context was
    acquired, and it is released. *)
Lemma C4_witness_echo_and_unplugged :
  released (trace_of (main Mock.echo main_cc ["visca2uvc"; "get_zoom_abs"]
                           Mock.power_on))
  = [(Handle, Mock.devh_addr); (Device, Mock.dev_addr);
     (Context, Mock.ctx_addr)] /\
  released (trace_of (main Mock.unplugged part_001 ["visca2uvc"; "get_zoom_abs"]
                           tt))
  = [(Context, Mock.ctx_addr)].
Proof.
  split.
  - destruct (C4_resources_released_once_in_reverse_order
                Mock.camera Mock.echo main_cc ["visca2uvc"; "get_zoom_abs"]
                Mock.power_on) as (_ & Hrel & _).
    rewrite Hrel. reflexivity.
  - destruct (C4_resources_released_once_in_reverse_order
                unit Mock.unplugged part_001 ["visca2uvc"; "get_zoom_abs"] tt)
      as (_ & Hrel & _).
    rewrite Hrel. reflexivity.
Defined.

(** ** The command chain, command by command *)

Section Commands.

Context {S : Type} (lib : libuvc S) (rev : revision).

(** Exposes the library calls of the chain. *)
Ltac unfold_prog :=
  cbv [bind cout cerr cout_ZoomRel emit value ret throw]; cbn [app].

(** Decides the comparisons of a concrete command name and the argument
    count of a list of known length. *)
Ltac pick_command :=
  cbn [nth List.length];
  repeat match goal with
         | |- context [String.eqb ?a ?b] =>
             let r := eval vm_compute in (String.eqb a b) in
             match r with
             | true => change (String.eqb a b) with true
             | false => change (String.eqb a b) with false
             end
         | |- context [negb (Z.of_nat ?n =? ?k)] =>
             let r := eval vm_compute in (negb (Z.of_nat n =? k)) in
             match r with
             | true => change (negb (Z.of_nat n =? k)) with true
             | false => change (negb (Z.of_nat n =? k)) with false
             end
         end;
  cbv iota.

(** A command that is none of the four: one line on the error stream. *)
Lemma commands_unknown (prog cmd : string) (rest : list string) (h : ptr)
      (s : S) :
  known_command cmd = false ->
  Visca2Uvc_commands lib rev (prog :: cmd :: rest) (UvcWrapper_new h) s
  = (Returned OkStatus, s,
     [Ecerr "Unknown command: "; Ecerr cmd; Ecerr nl]).
Proof.
  unfold known_command. cbn [existsb]. intros H.
  repeat (apply orb_false_iff in H; destruct H as [? H]).
  unfold Visca2Uvc_commands. cbn [nth].
  repeat match goal with E : (cmd =? _)%string = false |- _ =>
                           rewrite E; clear E end.
  reflexivity.
Qed.

(** *** From the chain to the whole function *)

Lemma opens_unique (s : S) (e0 e0' : uvc_error_t) (c c' : ptr)
      (e1 e1' : uvc_error_t) (d d' : ptr) (e2 e2' : uvc_error_t)
      (h h' : ptr) (s4 s4' : S) :
  opens lib s e0 c e1 d e2 h s4 -> opens lib s e0' c' e1' d' e2' h' s4' ->
  e0 = e0' /\ c = c' /\ e1 = e1' /\ d = d' /\ e2 = e2' /\ h = h' /\ s4 = s4'.
Proof.
  intros (s1 & s2 & s3 & E0 & _ & E1 & _ & E2 & _ & ->)
         (s1' & s2' & s3' & E0' & _ & E1' & _ & E2' & _ & ->).
  rewrite E0 in E0'. injection E0' as <- <- <-.
  rewrite E1 in E1'. injection E1' as <- <- <-.
  rewrite E2 in E2'. injection E2' as <- <- <-.
  repeat split.
Qed.

(** Once the handle is open, [Visca2Uvc] is the chain between the set-up
    and the three destructors. *)
Lemma Visca2Uvc_opened (args : list string) (s : S)
      (e0 : uvc_error_t) (c : ptr) (e1 : uvc_error_t) (d : ptr)
      (e2 : uvc_error_t) (h : ptr) (s4 : S) :
  (1 < List.length args)%nat ->
  opens lib s e0 c e1 d e2 h s4 ->
  Visca2Uvc lib rev args s =
  match Visca2Uvc_commands lib rev args (UvcWrapper_new h) s4 with
  | (r, s5, t) =>
      (r, closes lib c d h s5,
       setup_events e0 c e1 d e2 h ++ t ++ teardown_events c d h)
  end.
Proof.
  intros Hlen Hopen.
  pose proof Hopen as (s1 & s2 & s3 & E0 & L0 & E1 & L1 & E2 & L2 & Hs4).
  destruct (Visca2Uvc_runs lib rev args s)
    as [ Hlen'
       | e0' c' s1' _ E0' L0'
       | e0' c' s1' e1' d' s2' _ E0' L0' E1' L1'
       | e0' c' s1' e1' d' s2' e2' h' s3' _ E0' L0' E1' L1' E2' L2'
       | e0' c' e1' d' e2' h' s4' r s5 t _ Hopen' Hcmd ].
  - lia.
  - rewrite E0 in E0'. injection E0' as <- <- <-. lia.
  - rewrite E0 in E0'. injection E0' as <- <- <-.
    rewrite E1 in E1'. injection E1' as <- <- <-. lia.
  - rewrite E0 in E0'. injection E0' as <- <- <-.
    rewrite E1 in E1'. injection E1' as <- <- <-.
    rewrite E2 in E2'. injection E2' as <- <- <-. lia.
  - destruct (opens_unique _ _ _ _ _ _ _ _ _ _ _ _ _ _ _ Hopen Hopen')
      as (<- & <- & <- & <- & <- & <- & <-).
    rewrite Hcmd. reflexivity.
Qed.

Lemma zoom_transfers_app (t1 t2 : trace) :
  zoom_transfers (t1 ++ t2) = zoom_transfers t1 ++ zoom_transfers t2.
Proof. apply filter_app. Qed.

(** Set-up and tear-down make no zoom transfer. *)
Lemma zoom_transfers_framed (e0 : uvc_error_t) (c : ptr) (e1 : uvc_error_t)
      (d : ptr) (e2 : uvc_error_t) (h : ptr) (t : trace) :
  zoom_transfers (setup_events e0 c e1 d e2 h ++ t ++ teardown_events c d h)
  = zoom_transfers t.
Proof.
  rewrite !zoom_transfers_app. cbn. apply app_nil_r.
Qed.

(** When the chain makes no zoom transfer, neither does the function. *)
Lemma Visca2Uvc_no_zoom_transfer (args : list string) (s : S) :
  (forall h s4,
      zoom_transfers
        (trace_of (Visca2Uvc_commands lib rev args (UvcWrapper_new h) s4))
      = []) ->
  zoom_transfers (trace_of (Visca2Uvc lib rev args s)) = [].
Proof.
  intros Hcmd.
  destruct (Visca2Uvc_runs lib rev args s)
    as [ | | | | e0 c e1 d e2 h s4 r s5 t _ _ Ht ];
    unfold trace_of; cbn [snd]; try reflexivity.
  rewrite zoom_transfers_framed.
  specialize (Hcmd h s4). rewrite Ht in Hcmd. exact Hcmd.
Qed.

(** *** The four commands, whatever the camera answers *)

(** Runs the next call, whose answer is the hypothesis [H]. *)
Ltac answer H :=
  first [ rewrite GetZoomAbs_run | rewrite GetZoomRel_run
        | rewrite SetZoomAbs_run | rewrite SetZoomRel_run ];
  cbn [value_ UvcWrapper_new zoom_rel digital_zoom speed]; rewrite H;
  cbv beta iota zeta delta [Value Failed]; cbn [app].



Lemma commands_set_zoom_abs_full (prog a : string) (h : ptr) (s : S)
      (focal_length : Z) (e : uvc_error_t) (s1 : S)
      (a3 : uvc_error_t) (v3 : Z) (s2 : S) :
  SimpleAtoi UInt16 a = Value focal_length ->
  uvc_set_zoom_abs lib (Some h) focal_length s = (e, s1) ->
  uvc_get_zoom_abs lib (Some h) UVC_GET_CUR s1 = (a3, v3, s2) ->
  Visca2Uvc_commands lib rev [prog; "set_zoom_abs"; a] (UvcWrapper_new h) s
  = (if a3 <? 0
     then Thrown (BadStatusOrAccess (uvc_failure lib rev call_get_zoom_abs a3))
     else Returned OkStatus,
     s2,
     [Ecout "set: "; Euvc_set_zoom_abs (Some h) focal_length e;
      Ecout (Status_ToString (set_status lib rev call_set_zoom_abs e));
      Ecout nl] ++
     abs_query_events h "cur: " UVC_GET_CUR a3 (convert UInt16 v3)).
Proof.
  intros Hparse Hset Hget. unfold Visca2Uvc_commands, abs_query_events.
  pick_command. unfold_prog. rewrite Hparse.
  cbv beta iota zeta delta [Value]. cbn [app].
  answer Hset. fold (set_status lib rev call_set_zoom_abs e).
  answer Hget. destruct (a3 <? 0); reflexivity.
Qed.


(** A wrong number of arguments, with the text of the error. *)
Lemma commands_arity_status (prog cmd : string) (rest : list string) (h : ptr)
      (s : S) :
  cmd = "set_zoom_abs" /\ List.length rest <> 1%nat \/
  cmd = "set_zoom_rel" /\ List.length rest <> 3%nat ->
  Visca2Uvc_commands lib rev (prog :: cmd :: rest) (UvcWrapper_new h) s
  = (Returned (InvalidArgumentError
                 (if (cmd =? "set_zoom_abs")%string
                  then "set_zoom_abs needs 1 argument."
                  else "set_zoom_rel needs 3 argument.")), s, []).
Proof.
  unfold Visca2Uvc_commands.
  intros [[-> Hlen] | [-> Hlen]]; pick_command;
    match goal with
    | |- context [Z.of_nat ?n =? ?k] =>
        replace (Z.of_nat n =? k) with false
          by (symmetry; apply Z.eqb_neq; lia)
    end; reflexivity.
Qed.

End Commands.

(** ** Which failures are returned and which are thrown *)

Section Failures.

Context {S : Type} (lib : libuvc S) (rev : revision).

(** What [Visca2Uvc] returns is OK or an arity error; what it throws
    carries a subsystem failure or a parse failure. *)
Lemma Visca2Uvc_outcome (args : list string) (s : S) :
  match result_of (Visca2Uvc lib rev args s) with
  | Returned st => st = OkStatus \/ arity_failure st
  | Thrown e => expected_exception lib rev args e
  end.
Proof.
  destruct (Visca2Uvc_runs lib rev args s)
    as [ Hlen
       | e0 c s1 Hlen E0 L0
       | e0 c s1 e1 d s2 Hlen E0 L0 E1 L1
       | e0 c s1 e1 d s2 e2 h s3 Hlen E0 L0 E1 L1 E2 L2
       | e0 c e1 d e2 h s4 r s5 t Hlen Hopen Hcmd ];
    cbn [result_of fst expected_exception].
  - left. reflexivity.
  - left. exists call_init, e0. split; [exact L0|reflexivity].
  - left. exists call_find_device, e1. split; [exact L1|reflexivity].
  - left. exists call_open, e2. split; [exact L2|reflexivity].
  - pose proof (Visca2Uvc_commands_satisfies lib rev args h s4) as [_ Hr].
    rewrite Hcmd in Hr. exact Hr.
Qed.

(** A token [SimpleAtoi] refuses makes the chain throw. *)
Lemma commands_set_zoom_abs_bad_token (prog a : string) (h : ptr) (s : S)
      (st : Status) :
  SimpleAtoi UInt16 a = Failed st ->
  Visca2Uvc_commands lib rev [prog; "set_zoom_abs"; a] (UvcWrapper_new h) s
  = (Thrown (BadStatusOrAccess st), s, [Ecout "set: "]).
Proof.
  intros Hbad. unfold Visca2Uvc_commands. cbn [nth List.length].
  change ("set_zoom_abs" =? "get_zoom_abs")%string with false.
  change ("set_zoom_abs" =? "set_zoom_abs")%string with true.
  change (negb (Z.of_nat 3 =? 3)) with false. cbv iota.
  cbv [bind cout emit]. rewrite Hbad. reflexivity.
Qed.

(** [set_zoom_rel] with a token that does not parse: the chain throws
    before it has written or called anything. *)
Lemma commands_set_zoom_rel_bad_token (prog a b c : string) (h : ptr) (s : S)
      (st : Status) :
  SimpleAtoi Int8 a = Failed st \/
  (exists step, SimpleAtoi Int8 a = Value step) /\ SimpleAtoi UInt8 b = Failed st ->
  Visca2Uvc_commands lib rev [prog; "set_zoom_rel"; a; b; c] (UvcWrapper_new h) s
  = (Thrown (BadStatusOrAccess st), s, []).
Proof.
  intros Hbad. unfold Visca2Uvc_commands. cbn [nth List.length].
  change ("set_zoom_rel" =? "get_zoom_abs")%string with false.
  change ("set_zoom_rel" =? "set_zoom_abs")%string with false.
  change ("set_zoom_rel" =? "get_zoom_rel")%string with false.
  change ("set_zoom_rel" =? "set_zoom_rel")%string with true.
  change (negb (Z.of_nat 5 =? 5)) with false. cbv iota.
  cbv [bind value ret throw].
  destruct Hbad as [Ha | [[step Ha] Hb]]; rewrite Ha; [reflexivity|].
  rewrite Hb. reflexivity.
Qed.

(** Two results of the same library call are the same. *)
Ltac same_call :=
  repeat match goal with
         | H : uvc_init lib ?s = _, H' : uvc_init lib ?s = _ |- _ =>
             rewrite H in H'; injection H' as <- <- <-
         | H : uvc_find_device lib ?c 0 0 None ?s = _,
           H' : uvc_find_device lib ?c 0 0 None ?s = _ |- _ =>
             rewrite H in H'; injection H' as <- <- <-
         | H : uvc_open lib ?d ?s = _, H' : uvc_open lib ?d ?s = _ |- _ =>
             rewrite H in H'; injection H' as <- <- <-
         end.

(** The five runs are exclusive: a run that fits is the run of the call. *)
Lemma Visca2Uvc_deterministic (args : list string) (s : S)
      (r : outcome Status * S * trace) :
  Visca2Uvc_run lib rev args s r -> Visca2Uvc lib rev args s = r.
Proof.
  intros Hr.
  destruct Hr
    as [ Hlen
       | e0 c s1 Hlen E0 L0
       | e0 c s1 e1 d s2 Hlen E0 L0 E1 L1
       | e0 c s1 e1 d s2 e2 h s3 Hlen E0 L0 E1 L1 E2 L2
       | e0 c e1 d e2 h s4 r s5 t Hlen Hopen Hcmd ];
    try (destruct Hopen as (s1 & s2 & s3 & E0 & L0 & E1 & L1 & E2 & L2 & ->));
    destruct (Visca2Uvc_runs lib rev args s)
      as [ Hlen'
         | e0' c' s1' Hlen' E0' L0'
         | e0' c' s1' e1' d' s2' Hlen' E0' L0' E1' L1'
         | e0' c' s1' e1' d' s2' e2' h' s3' Hlen' E0' L0' E1' L1' E2' L2'
         | e0' c' e1' d' e2' h' s4' r' s5' t' Hlen' Hopen' Hcmd' ];
    try (destruct Hopen'
          as (s1' & s2' & s3' & E0' & L0' & E1' & L1' & E2' & L2' & ->));
    try lia; same_call; try lia; try reflexivity.
  rewrite Hcmd in Hcmd'. injection Hcmd' as <- <- <-. reflexivity.
Qed.

(** When one of the three set-up calls fails, its failure is thrown: the
    command is not looked at, and what was acquired is released. *)
Lemma Visca2Uvc_init_failed (args : list string) (s : S)
      (e0 : uvc_error_t) (c : ptr) (s1 : S) :
  (1 < List.length args)%nat ->
  uvc_init lib s = (e0, c, s1) -> e0 < 0 ->
  Visca2Uvc lib rev args s
  = (Thrown (BadStatusOrAccess (uvc_failure lib rev call_init e0)), s1,
     [Euvc_init e0 c]).
Proof.
  intros Hlen E0 L0. apply Visca2Uvc_deterministic.
  apply run_init_failed; assumption.
Qed.

Lemma Visca2Uvc_find_failed (args : list string) (s : S)
      (e0 : uvc_error_t) (c : ptr) (s1 : S)
      (e1 : uvc_error_t) (d : ptr) (s2 : S) :
  (1 < List.length args)%nat ->
  uvc_init lib s = (e0, c, s1) -> 0 <= e0 ->
  uvc_find_device lib (Some c) 0 0 None s1 = (e1, d, s2) -> e1 < 0 ->
  Visca2Uvc lib rev args s
  = (Thrown (BadStatusOrAccess (uvc_failure lib rev call_find_device e1)),
     uvc_exit lib c s2,
     [Euvc_init e0 c; Euvc_find_device (Some c) 0 0 None e1 d; Euvc_exit c]).
Proof.
  intros Hlen E0 L0 E1 L1. apply Visca2Uvc_deterministic.
  apply (run_find_failed lib rev args s e0 c s1 e1 d s2); assumption.
Qed.

Lemma Visca2Uvc_open_failed (args : list string) (s : S)
      (e0 : uvc_error_t) (c : ptr) (s1 : S)
      (e1 : uvc_error_t) (d : ptr) (s2 : S)
      (e2 : uvc_error_t) (h : ptr) (s3 : S) :
  (1 < List.length args)%nat ->
  uvc_init lib s = (e0, c, s1) -> 0 <= e0 ->
  uvc_find_device lib (Some c) 0 0 None s1 = (e1, d, s2) -> 0 <= e1 ->
  uvc_open lib (Some d) s2 = (e2, h, s3) -> e2 < 0 ->
  Visca2Uvc lib rev args s
  = (Thrown (BadStatusOrAccess (uvc_failure lib rev call_open e2)),
     uvc_exit lib c (uvc_unref_device lib d s3),
     [Euvc_init e0 c; Euvc_find_device (Some c) 0 0 None e1 d;
      Euvc_open (Some d) e2 h; Euvc_unref_device d; Euvc_exit c]).
Proof.
  intros Hlen E0 L0 E1 L1 E2 L2. apply Visca2Uvc_deterministic.
  apply (run_open_failed lib rev args s e0 c s1 e1 d s2 e2 h s3); assumption.
Qed.



End Failures.

(** ** Texts and their lines *)


Lemma append_assoc (a b c : string) :
  ((a ++ b) ++ c = a ++ (b ++ c))%string.
Proof.
  induction a as [|x a IH]; [reflexivity|].
  cbn [String.append]. rewrite IH. reflexivity.
Qed.

Lemma append_empty_r (a : string) : (a ++ "" = a)%string.
Proof.
  induction a as [|x a IH]; [reflexivity|].
  cbn [String.append]. rewrite IH. reflexivity.
Qed.

Lemma stderr_text_app (t1 t2 : trace) :
  stderr_text (t1 ++ t2) = (stderr_text t1 ++ stderr_text t2)%string.
Proof.
  induction t1 as [|e t1 IH]; [reflexivity|].
  destruct e; cbn [app stderr_text]; try exact IH.
  rewrite IH. symmetry. apply append_assoc.
Qed.

Lemma stdout_text_app (t1 t2 : trace) :
  stdout_text (t1 ++ t2) = (stdout_text t1 ++ stdout_text t2)%string.
Proof.
  induction t1 as [|e t1 IH]; [reflexivity|].
  destruct e; cbn [app stdout_text]; try exact IH.
  rewrite IH. symmetry. apply append_assoc.
Qed.

(** ** Unknown commands *)

(** Without a camera the command is never looked at: the failure of
    [uvc_find_device] is thrown before, whatever the command is. *)
Example unknown_command_without_camera :
  main Mock.unplugged main_cc ["visca2uvc"; "foo"] tt
  = main Mock.unplugged main_cc ["visca2uvc"; "get_zoom_abs"] tt /\
  result_of (main Mock.unplugged main_cc ["visca2uvc"; "foo"] tt) = Returned 1.
Proof. split; reflexivity. Qed.




(** ** Argument counts *)

(** C3, as stated, fails on the camera that answers.  For [set_zoom_abs]
    without argument and with two arguments the arity error is returned,
    but only after the context was created, the device found and opened and
    the diagnostics printed.  And [get_zoom_abs] with an argument too many
    fails in no way. *)
Lemma C3_counterexample_set_zoom_abs :
  Visca2Uvc Mock.echo main_cc ["visca2uvc"; "set_zoom_abs"] Mock.power_on =
  (Returned (InvalidArgumentError "set_zoom_abs needs 1 argument."),
   Mock.power_on,
   [Euvc_init 0 Mock.ctx_addr;
    Euvc_find_device (Some Mock.ctx_addr) 0 0 None 0 Mock.dev_addr;
    Euvc_open (Some Mock.dev_addr) 0 Mock.devh_addr;
    Euvc_print_diag (Some Mock.devh_addr);
    Euvc_close Mock.devh_addr; Euvc_unref_device Mock.dev_addr;
    Euvc_exit Mock.ctx_addr]) /\
  subsystem_calls
    (trace_of (Visca2Uvc Mock.echo main_cc ["visca2uvc"; "set_zoom_abs"]
                         Mock.power_on)) <> [] /\
  List.length
    (subsystem_calls
       (trace_of (Visca2Uvc Mock.echo main_cc
                            ["visca2uvc"; "set_zoom_abs"; "1"; "2"]
                            Mock.power_on))) = 7%nat /\
  result_of (Visca2Uvc Mock.echo main_cc ["visca2uvc"; "get_zoom_abs"; "1"]
                       Mock.power_on) = Returned OkStatus.
Proof. repeat split. discriminate. Qed.

(** C3, amended: when [set_zoom_abs] is given other than one argument, or
    [set_zoom_rel] other than three, no zoom control transfer is made; if
    the context, the device and the handle open, [Visca2Uvc] returns the
    [InvalidArgument] error of the command after these three calls and the
    diagnostics and before anything else, and the three resources are
    released; if [uvc_init], [uvc_find_device] or [uvc_open] fails, the
    argument count is not looked at: that failure is thrown and what was
    acquired is released.  The two get commands do not look at further
    arguments: they run as without them. *)
Theorem C3_arity_error_after_device_open :
  forall (S : Type) (lib : libuvc S) (rev : revision) (prog : string) (s : S),
    (forall (cmd : string) (rest : list string),
        cmd = "set_zoom_abs" /\ List.length rest <> 1%nat \/
        cmd = "set_zoom_rel" /\ List.length rest <> 3%nat ->
        let run := Visca2Uvc lib rev (prog :: cmd :: rest) s in
        let thrown c e :=
          Thrown (BadStatusOrAccess (uvc_failure lib rev c e)) in
        zoom_transfers (trace_of run) = [] /\
        (forall e0 c e1 d e2 h s4,
            opens lib s e0 c e1 d e2 h s4 ->
            run = (Returned
                     (InvalidArgumentError
                        (if (cmd =? "set_zoom_abs")%string
                         then "set_zoom_abs needs 1 argument."
                         else "set_zoom_rel needs 3 argument.")),
                   closes lib c d h s4,
                   setup_events e0 c e1 d e2 h ++ teardown_events c d h)) /\
        (forall e0 c s1,
            uvc_init lib s = (e0, c, s1) -> e0 < 0 ->
            run = (thrown call_init e0, s1, [Euvc_init e0 c])) /\
        (forall e0 c s1 e1 d s2,
            uvc_init lib s = (e0, c, s1) -> 0 <= e0 ->
            uvc_find_device lib (Some c) 0 0 None s1 = (e1, d, s2) -> e1 < 0 ->
            run = (thrown call_find_device e1, uvc_exit lib c s2,
                   [Euvc_init e0 c; Euvc_find_device (Some c) 0 0 None e1 d;
                    Euvc_exit c])) /\
        (forall e0 c s1 e1 d s2 e2 h s3,
            uvc_init lib s = (e0, c, s1) -> 0 <= e0 ->
            uvc_find_device lib (Some c) 0 0 None s1 = (e1, d, s2) -> 0 <= e1 ->
            uvc_open lib (Some d) s2 = (e2, h, s3) -> e2 < 0 ->
            run = (thrown call_open e2,
                   uvc_exit lib c (uvc_unref_device lib d s3),
                   [Euvc_init e0 c; Euvc_find_device (Some c) 0 0 None e1 d;
                    Euvc_open (Some d) e2 h; Euvc_unref_device d;
                    Euvc_exit c]))) /\
    (forall rest : list string,
        Visca2Uvc lib rev (prog :: "get_zoom_abs" :: rest) s
        = Visca2Uvc lib rev [prog; "get_zoom_abs"] s /\
        Visca2Uvc lib rev (prog :: "get_zoom_rel" :: rest) s
        = Visca2Uvc lib rev [prog; "get_zoom_rel"] s).
Proof.
  intros S lib rev prog s. split.
  { intros cmd rest Hbad run thrown.
    assert (Hlen : (1 < List.length (prog :: cmd :: rest))%nat)
      by (cbn [List.length]; lia).
    split; [|split; [|split; [|split]]].
    - apply Visca2Uvc_no_zoom_transfer. intros h s4.
      rewrite (commands_arity_status lib rev prog cmd rest h s4 Hbad).
      reflexivity.
    - intros e0 c e1 d e2 h s4 Hopen. unfold run.
      rewrite (Visca2Uvc_opened lib rev _ s e0 c e1 d e2 h s4 Hlen Hopen).
      rewrite (commands_arity_status lib rev prog cmd rest h s4 Hbad).
      reflexivity.
    - intros e0 c s1 E0 L0.
      exact (Visca2Uvc_init_failed lib rev _ s e0 c s1 Hlen E0 L0).
    - intros e0 c s1 e1 d s2 E0 L0 E1 L1.
      exact (Visca2Uvc_find_failed lib rev _ s e0 c s1 e1 d s2
                                   Hlen E0 L0 E1 L1).
    - intros e0 c s1 e1 d s2 e2 h s3 E0 L0 E1 L1 E2 L2.
      exact (Visca2Uvc_open_failed lib rev _ s e0 c s1 e1 d s2 e2 h s3
                                   Hlen E0 L0 E1 L1 E2 L2). }
  intros rest. unfold Visca2Uvc. cbn [List.length].
  replace (Z.of_nat (Datatypes.S (Datatypes.S (List.length rest))) <=? 1)
    with false by (symmetry; apply Z.leb_gt; lia).
  split; reflexivity.
Qed.

(** The amended C3 on [set_zoom_rel] with two arguments: with the camera
    that answers the error is returned after the set-up; with no camera
    attached the failure of [uvc_find_device] is thrown instead. *)
Lemma C3_witness_set_zoom_rel_two_arguments :
  Visca2Uvc Mock.echo part_001 ["visca2uvc"; "set_zoom_rel"; "1"; "2"]
            Mock.power_on =
  (Returned (InvalidArgumentError "set_zoom_rel needs 3 argument."),
   Mock.power_on,
   [Euvc_init 0 Mock.ctx_addr;
    Euvc_find_device (Some Mock.ctx_addr) 0 0 None 0 Mock.dev_addr;
    Euvc_open (Some Mock.dev_addr) 0 Mock.devh_addr;
    Euvc_print_diag (Some Mock.devh_addr);
    Euvc_close Mock.devh_addr; Euvc_unref_device Mock.dev_addr;
    Euvc_exit Mock.ctx_addr]) /\
  Visca2Uvc Mock.unplugged part_001 ["visca2uvc"; "set_zoom_rel"; "1"; "2"] tt =
  (Thrown (BadStatusOrAccess
             (uvc_failure Mock.unplugged part_001 call_find_device (-4))),
   tt,
   [Euvc_init 0 Mock.ctx_addr;
    Euvc_find_device (Some Mock.ctx_addr) 0 0 None (-4) 0;
    Euvc_exit Mock.ctx_addr]).
Proof.
  split.
  - destruct (C3_arity_error_after_device_open
                Mock.camera Mock.echo part_001 "visca2uvc" Mock.power_on)
      as [Hset _].
    destruct (Hset "set_zoom_rel" ["1"; "2"]) as (_ & Hopened & _).
    + right. split; [reflexivity|discriminate].
    + apply (Hopened 0 Mock.ctx_addr 0 Mock.dev_addr 0 Mock.devh_addr).
      exists Mock.power_on, Mock.power_on, Mock.power_on.
      repeat split; discriminate.
  - destruct (C3_arity_error_after_device_open
                unit Mock.unplugged part_001 "visca2uvc" tt) as [Hset _].
    destruct (Hset "set_zoom_rel" ["1"; "2"]) as (_ & _ & _ & Hfind & _).
    + right. split; [reflexivity|discriminate].
    + apply (Hfind 0 Mock.ctx_addr tt (-4) 0 tt).
      * reflexivity.
      * discriminate.
      * reflexivity.
      * reflexivity.
Defined.

(** ** Failed calls and what is thrown *)

Section Settled.

Context {S : Type} (lib : libuvc S) (rev : revision) (args : list string).


















End Settled.

Section SettledRuns.

Context {S : Type} (lib : libuvc S) (rev : revision) (args : list string).













End SettledRuns.






(** ** The texts of the values *)

Section PrintParse.

Lemma digits_of_acc (d : Decimal.uint) :
  forall acc : positive,
    decimal_from (Z.pos acc) (digits_of d) = Z.pos (Pos.of_uint_acc d acc).
Proof.
  unfold digits_of.
  induction d as [|d IH|d IH|d IH|d IH|d IH|d IH|d IH|d IH|d IH|d IH];
    intros acc;
    cbn [NilEmpty.string_of_uint list_ascii_of_string Pos.of_uint_acc];
    [reflexivity|..];
    rewrite decimal_from_cons, <- IH; f_equal;
    match goal with
    | |- context [digit_value ?c] =>
        let v := eval vm_compute in (digit_value c) in
        change (digit_value c) with v
    end;
    lia.
Qed.

Lemma digits_of_value (d : Decimal.uint) :
  decimal_value (digits_of d) = Z.of_N (Pos.of_uint d).
Proof.
  unfold decimal_value, digits_of.
  induction d as [|d IH|d IH|d IH|d IH|d IH|d IH|d IH|d IH|d IH|d IH];
    cbn [NilEmpty.string_of_uint list_ascii_of_string Pos.of_uint];
    [reflexivity|..];
    rewrite decimal_from_cons;
    [exact IH|..];
    cbn [Z.of_N]; rewrite <- digits_of_acc; reflexivity.
Qed.

Lemma digits_of_digits (d : Decimal.uint) :
  forallb is_digit (digits_of d) = true.
Proof.
  unfold digits_of.
  induction d; cbn [NilEmpty.string_of_uint list_ascii_of_string forallb];
    [reflexivity|..]; rewrite IHd; reflexivity.
Qed.

(** The decimal text of a number is a numeral of it. *)
Lemma show_uint16_numeral (n : Z) :
  0 <= n <= 4294967295 -> numeral_of (show_uint16 n) n.
Proof.
  intros Hn. unfold show_uint16.
  assert (Hnil : N.to_uint (Z.to_N n) <> Decimal.Nil).
  { destruct (Z.to_N n) as [|p]; [discriminate|].
    apply DecimalPos.Unsigned.to_uint_nonnil. }
  assert (Hstr : NilZero.string_of_uint (N.to_uint (Z.to_N n))
                 = NilEmpty.string_of_uint (N.to_uint (Z.to_N n))).
  { destruct (N.to_uint (Z.to_N n)); [contradiction|reflexivity..]. }
  rewrite Hstr.
  pose proof (digits_of_value (N.to_uint (Z.to_N n))) as Hval.
  change (Pos.of_uint (N.to_uint (Z.to_N n)))
    with (N.of_uint (N.to_uint (Z.to_N n))) in Hval.
  rewrite DecimalN.Unsigned.of_to, Z2N.id in Hval by lia.
  fold (digits_of (N.to_uint (Z.to_N n))) in *.
  apply (denotes_intro _ _ [] [] (digits_of (N.to_uint (Z.to_N n))) []).
  - unfold digits_of. cbn [app]. symmetry. apply app_nil_r.
  - reflexivity.
  - reflexivity.
  - left. reflexivity.
  - split; [|apply digits_of_digits].
    unfold digits_of. intros Hempty.
    destruct (N.to_uint (Z.to_N n)); try contradiction; discriminate Hempty.
  - symmetry. exact Hval.
  - lia.
Qed.




End PrintParse.

(** ** The order of queries and writes *)








Example get_zoom_abs_output :
  stdout_text
    (trace_of (Visca2Uvc Mock.echo main_cc ["visca2uvc"; "get_zoom_abs"]
                         Mock.power_on))
  = ("min: 0" ++ nl ++ "max: 16384" ++ nl ++ "cur: 0" ++ nl)%string.
Proof. reflexivity. Qed.

Example set_zoom_abs_round_trip :
  zoom_transfers
    (trace_of (Visca2Uvc Mock.echo main_cc ["visca2uvc"; "set_zoom_abs"; "500"]
                         Mock.power_on))
  = [Euvc_set_zoom_abs (Some Mock.devh_addr) 500 0;
     Euvc_get_zoom_abs (Some Mock.devh_addr) UVC_GET_CUR 0 500].
Proof. reflexivity. Qed.

(** ** The arguments of set_zoom_rel *)

(** C1 (the code departs from the claim): [Visca2Uvc] never reads the third
    argument of [set_zoom_rel], so any two calls that differ only there run
    alike; the speed is parsed from the second argument.  On the claim's
    tokens [-5 1 10] the unsigned parse of ["-5"] fails, the exception is
    thrown before any setter call, and no [ZoomRel] is passed on.  On
    [251 1 10], which the parse accepts and converts to step -5, the setter
    receives speed 1, not 10. *)
Theorem C1_set_zoom_rel_speed_from_second_token :
  (forall (S : Type) (lib : libuvc S) (rev : revision)
          (prog a b c c' : string) (s : S),
      Visca2Uvc lib rev [prog; "set_zoom_rel"; a; b; c] s
      = Visca2Uvc lib rev [prog; "set_zoom_rel"; a; b; c'] s) /\
  Visca2Uvc Mock.echo main_cc ["visca2uvc"; "set_zoom_rel"; "-5"; "1"; "10"]
            Mock.power_on
  = (Thrown (BadStatusOrAccess (InvalidArgumentError "Cannot parse as a: -5")),
     Mock.power_on,
     [Euvc_init 0 Mock.ctx_addr;
      Euvc_find_device (Some Mock.ctx_addr) 0 0 None 0 Mock.dev_addr;
      Euvc_open (Some Mock.dev_addr) 0 Mock.devh_addr;
      Euvc_print_diag (Some Mock.devh_addr);
      Euvc_close Mock.devh_addr; Euvc_unref_device Mock.dev_addr;
      Euvc_exit Mock.ctx_addr]) /\
  zoom_transfers
    (trace_of (Visca2Uvc Mock.echo main_cc
                         ["visca2uvc"; "set_zoom_rel"; "251"; "1"; "10"]
                         Mock.power_on))
  = [Euvc_set_zoom_rel (Some Mock.devh_addr) (mkZoomRel (-5) 1 1) 0;
     Euvc_get_zoom_rel (Some Mock.devh_addr) UVC_GET_CUR 0
                       (mkZoomRel (-5) 1 1)].
Proof.
  split; [|split; reflexivity].
  intros S lib rev prog a b c c' s. reflexivity.
Qed.

(** ** The monitor refuses what it should *)

Example monitor_refuses_leak :
  well_bracketed [Euvc_init 0 1; Euvc_find_device (Some 1) 0 0 None 0 2;
                  Euvc_exit 1] = false.
Proof. reflexivity. Qed.

Example monitor_refuses_double_close :
  well_bracketed [Euvc_init 0 1; Euvc_find_device (Some 1) 0 0 None 0 2;
                  Euvc_open (Some 2) 0 3; Euvc_close 3; Euvc_close 3;
                  Euvc_unref_device 2; Euvc_exit 1] = false.
Proof. reflexivity. Qed.

Example monitor_refuses_use_after_close :
  well_bracketed [Euvc_init 0 1; Euvc_find_device (Some 1) 0 0 None 0 2;
                  Euvc_open (Some 2) 0 3; Euvc_close 3;
                  Euvc_get_zoom_abs (Some 3) UVC_GET_CUR 0 0;
                  Euvc_unref_device 2; Euvc_exit 1] = false.
Proof. reflexivity. Qed.

Example monitor_refuses_context_first :
  well_bracketed [Euvc_init 0 1; Euvc_find_device (Some 1) 0 0 None 0 2;
                  Euvc_open (Some 2) 0 3; Euvc_exit 1;
                  Euvc_unref_device 2; Euvc_close 3] = false.
Proof. reflexivity. Qed.

Example monitor_accepts_failed_open :
  well_bracketed [Euvc_init 0 1; Euvc_find_device (Some 1) 0 0 None 0 2;
                  Euvc_open (Some 2) (-3) 0;
                  Euvc_unref_device 2; Euvc_exit 1] = true.
Proof. reflexivity. Qed.

(** ** The parser on sample tokens *)

Example SimpleAtoi_u16_0 : SimpleAtoi UInt16 "0" = Value 0.
Proof. reflexivity. Qed.

Example SimpleAtoi_u16_70000 : SimpleAtoi UInt16 "70000" = Value 4464.
Proof. reflexivity. Qed.

Example SimpleAtoi_i8_minus5 :
  SimpleAtoi Int8 "-5" = Failed (InvalidArgumentError "Cannot parse as a: -5").
Proof. reflexivity. Qed.

Example SimpleAtoi_i8_251 : SimpleAtoi Int8 "251" = Value (-5).
Proof. reflexivity. Qed.

Example SimpleAtoi_u8_padded : SimpleAtoi UInt8 " +7 " = Value 7.
Proof. reflexivity. Qed.

Example SimpleAtoi_u16_too_big :
  status_ok (SimpleAtoi UInt16 "4294967296") = false.
Proof. reflexivity. Qed.

(** * Further properties *)

(** ** What the program prints, the parser reads back *)

(** X1: every value of the target type has a token.  For [v] in the range
    of [T], the decimal text of [v mod 2^width] parses at [T] to [v].  At
    [uint16_t] this is the text itself that [get_zoom_abs] prints for [v],
    so what the program prints for a focal length it reads back as the same
    number; at [int8_t] the negative steps, which no token with a minus sign
    reaches, are given by the texts of 128..255. *)
Theorem X1_decimal_text_parses_back :
  forall (T : int_type) (v : Z),
    in_range T v ->
    SimpleAtoi T (show_uint16 (v mod 2 ^ width T)) = Value v.
Proof.
  intros T v Hv.
  assert (Hw : 2 ^ width T = 256 \/ 2 ^ width T = 65536)
    by (destruct T; [left|left|right]; reflexivity).
  pose proof (Z.mod_pos_bound v (2 ^ width T) ltac:(lia)) as Hm.
  rewrite (SimpleAtoi_numeral T _ (v mod 2 ^ width T))
    by (apply show_uint16_numeral; lia).
  f_equal. unfold convert. rewrite Z.mod_mod by lia.
  unfold in_range in Hv.
  destruct T; cbn [is_signed width andb] in *;
    change (2 ^ 8) with 256 in *; change (2 ^ (8 - 1)) with 128 in *;
    change (2 ^ 16) with 65536 in *.
  - destruct (128 <=? v mod 256) eqn:E;
      [apply Z.leb_le in E|apply Z.leb_gt in E];
      Z.div_mod_to_equations; lia.
  - apply Z.mod_small. lia.
  - apply Z.mod_small. lia.
Qed.

(** X1 at the step -5 and at the largest focal length. *)
Lemma X1_witness_minus_5_and_65535 :
  SimpleAtoi Int8 "251" = Value (-5) /\
  SimpleAtoi UInt16 (show_uint16 65535) = Value 65535.
Proof.
  split.
  - apply (X1_decimal_text_parses_back Int8 (-5)).
    unfold in_range. cbn [is_signed width].
    split; [apply Z.leb_le|apply Z.ltb_lt]; reflexivity.
  - apply (X1_decimal_text_parses_back UInt16 65535).
    unfold in_range. cbn [is_signed width].
    split; [apply Z.leb_le|apply Z.ltb_lt]; reflexivity.
Defined.

(** ** The text of a ZoomRel *)

(** X2: [operator<<] on a [ZoomRel] writes each of the three fields as one
    raw character, not as a number: the text always has 38 characters, and
    no field, read back by the parser of its type, gives the field again (a
    field between 48 and 57 is read as the digit it shows, every other one
    is refused).  So what [get_zoom_rel] prints cannot be given back to
    [set_zoom_rel]. *)
Theorem X2_ZoomRel_fields_written_as_raw_characters :
  forall z : ZoomRel,
    (forall (S : Type) (s : S),
        cout_ZoomRel z s = (Returned tt, s, ZoomRel_events z)) /\
    stdout_text (ZoomRel_events z) = show_ZoomRel z /\
    String.length (show_ZoomRel z) = 38%nat /\
    (forall v, 0 <= v <= 255 -> SimpleAtoi UInt8 (show_char v) <> Value v) /\
    (forall v, -128 <= v <= 127 -> SimpleAtoi Int8 (show_char v) <> Value v).
Proof.
  intros z.
  split; [intros S s; reflexivity|].
  split; [reflexivity|]. split; [reflexivity|]. split.
  - assert (Hall :
      forallb (fun n => match SimpleAtoi UInt8 (show_char (Z.of_nat n)) with
                        | inr r => negb (r =? Z.of_nat n)
                        | inl _ => true
                        end) (seq 0 256) = true) by (vm_compute; reflexivity).
    rewrite forallb_forall in Hall.
    intros v Hv Heq.
    specialize (Hall (Z.to_nat v)).
    rewrite Z2Nat.id, Heq in Hall by lia.
    unfold Value in Hall. rewrite Z.eqb_refl in Hall.
    assert (Hin : In (Z.to_nat v) (seq 0 256)) by (apply in_seq; lia).
    specialize (Hall Hin). discriminate Hall.
  - assert (Hall :
      forallb (fun n => match SimpleAtoi Int8 (show_char (Z.of_nat n - 128)) with
                        | inr r => negb (r =? Z.of_nat n - 128)
                        | inl _ => true
                        end) (seq 0 256) = true) by (vm_compute; reflexivity).
    rewrite forallb_forall in Hall.
    intros v Hv Heq.
    specialize (Hall (Z.to_nat (v + 128))).
    rewrite Z2Nat.id in Hall by lia.
    replace (v + 128 - 128) with v in Hall by lia.
    rewrite Heq in Hall. unfold Value in Hall. rewrite Z.eqb_refl in Hall.
    assert (Hin : In (Z.to_nat (v + 128)) (seq 0 256)) by (apply in_seq; lia).
    specialize (Hall Hin). discriminate Hall.
Qed.

Example get_zoom_rel_prints_characters :
  show_ZoomRel (mkZoomRel 55 49 10)
  = ("zoom_rel: 7, digital_zoom: 1, speed: " ++ nl)%string.
Proof. reflexivity. Qed.

(** ** Creating the context, finding and opening the device *)

Section Acquisition.

Context {S : Type} (lib : libuvc S) (rev : revision).

Lemma Create_returns (s : S) :
  Create lib rev s =
  match uvc_init lib s with
  | (e, c, s1) =>
      (Returned (if e <? 0 then Failed (uvc_failure lib rev call_init e)
                 else Value (UvcWrapper_new c)),
       s1, [Euvc_init e c])
  end.
Proof.
  unfold Create, bind, do_uvc_init.
  destruct (uvc_init lib s) as [[e c] s1].
  destruct (e <? 0); [reflexivity|].
  rewrite return_wrapped_run. reflexivity.
Qed.

Lemma FindDevice_returns (this : UvcWrapper) (vid pid : Z)
      (sn : option string) (s : S) :
  FindDevice lib rev this vid pid sn s =
  match uvc_find_device lib (value_ this) vid pid sn s with
  | (e, d, s1) =>
      (Returned (if e <? 0 then Failed (uvc_failure lib rev call_find_device e)
                 else Value (UvcWrapper_new d)),
       s1, [Euvc_find_device (value_ this) vid pid sn e d])
  end.
Proof.
  unfold FindDevice, bind, do_uvc_find_device.
  destruct (uvc_find_device lib (value_ this) vid pid sn s) as [[e d] s1].
  destruct (e <? 0); [reflexivity|].
  rewrite return_wrapped_run. reflexivity.
Qed.

Lemma Open_returns (this : UvcWrapper) (s : S) :
  Open lib rev this s =
  match uvc_open lib (value_ this) s with
  | (e, h, s1) =>
      (Returned (if e <? 0 then Failed (uvc_failure lib rev call_open e)
                 else Value (UvcWrapper_new h)),
       s1, [Euvc_open (value_ this) e h])
  end.
Proof.
  unfold Open, bind, do_uvc_open.
  destruct (uvc_open lib (value_ this) s) as [[e h] s1].
  destruct (e <? 0); [reflexivity|].
  rewrite return_wrapped_run. reflexivity.
Qed.

End Acquisition.

(** X3: [UvcContext::Create], [UvcContext::FindDevice] and
    [UvcDevice::Open] each make exactly one library call and nothing else:
    the temporaries they build and move from release nothing.  Each
    succeeds if and only if the status of its call is non-negative; on
    success the wrapper returned owns exactly the pointer the library gave;
    for a negative status no wrapper exists and the result is the internal
    error made of the label of the call, [": "] and [uvc_strerror] of the
    status. *)
Theorem X3_acquisitions_translate_status :
  forall (S : Type) (lib : libuvc S) (rev : revision) (this : UvcWrapper)
         (vid pid : Z) (sn : option string) (s : S),
    (exists e c s1 r,
        uvc_init lib s = (e, c, s1) /\
        Create lib rev s = (Returned r, s1, [Euvc_init e c]) /\
        (status_ok r = true <-> 0 <= e) /\
        (0 <= e -> exists w, r = Value w /\ held w = [c]) /\
        (e < 0 ->
         r = Failed (InternalError
                       (StrCat [error_label rev call_init; ": ";
                                uvc_strerror lib e])))) /\
    (exists e d s1 r,
        uvc_find_device lib (value_ this) vid pid sn s = (e, d, s1) /\
        FindDevice lib rev this vid pid sn s =
          (Returned r, s1, [Euvc_find_device (value_ this) vid pid sn e d]) /\
        (status_ok r = true <-> 0 <= e) /\
        (0 <= e -> exists w, r = Value w /\ held w = [d]) /\
        (e < 0 ->
         r = Failed (InternalError
                       (StrCat [error_label rev call_find_device; ": ";
                                uvc_strerror lib e])))) /\
    (exists e h s1 r,
        uvc_open lib (value_ this) s = (e, h, s1) /\
        Open lib rev this s = (Returned r, s1, [Euvc_open (value_ this) e h]) /\
        (status_ok r = true <-> 0 <= e) /\
        (0 <= e -> exists w, r = Value w /\ held w = [h]) /\
        (e < 0 ->
         r = Failed (InternalError
                       (StrCat [error_label rev call_open; ": ";
                                uvc_strerror lib e])))).
Proof.
  intros S lib rev this vid pid sn s. split; [|split].
  - rewrite Create_returns.
    destruct (uvc_init lib s) as [[e c] s1].
    exists e, c, s1. eexists. split; [reflexivity|]. split; [reflexivity|].
    destruct (e <? 0) eqn:L;
      [apply Z.ltb_lt in L|apply Z.ltb_ge in L]; cbn [status_ok Failed Value].
    + repeat split; intros; try reflexivity; try discriminate; lia.
    + split; [split; intros; [exact L|reflexivity]|].
      split; [intros _; eexists; split; reflexivity|intros; lia].
  - rewrite FindDevice_returns.
    destruct (uvc_find_device lib (value_ this) vid pid sn s) as [[e d] s1].
    exists e, d, s1. eexists. split; [reflexivity|]. split; [reflexivity|].
    destruct (e <? 0) eqn:L;
      [apply Z.ltb_lt in L|apply Z.ltb_ge in L]; cbn [status_ok Failed Value].
    + repeat split; intros; try reflexivity; try discriminate; lia.
    + split; [split; intros; [exact L|reflexivity]|].
      split; [intros _; eexists; split; reflexivity|intros; lia].
  - rewrite Open_returns.
    destruct (uvc_open lib (value_ this) s) as [[e h] s1].
    exists e, h, s1. eexists. split; [reflexivity|]. split; [reflexivity|].
    destruct (e <? 0) eqn:L;
      [apply Z.ltb_lt in L|apply Z.ltb_ge in L]; cbn [status_ok Failed Value].
    + repeat split; intros; try reflexivity; try discriminate; lia.
    + split; [split; intros; [exact L|reflexivity]|].
      split; [intros _; eexists; split; reflexivity|intros; lia].
Qed.

(** ** Running without a command *)

(** X4: libuvc is called if and only if a command is given.  With the
    program name alone (or an empty argument list) the usage text is
    written to the output stream, nothing else happens and the exit code is
    0; with a command, whatever it is, the first thing the program does is
    [uvc_init]. *)
Theorem X4_library_called_iff_command_given :
  forall (S : Type) (lib : libuvc S) (rev : revision) (args : list string)
         (s : S),
    (subsystem_calls (trace_of (main lib rev args s)) = [] <->
     (List.length args <= 1)%nat) /\
    ((List.length args <= 1)%nat ->
     main lib rev args s = (Returned 0, s, [Ecout usage])) /\
    ((1 < List.length args)%nat ->
     exists e c t, trace_of (main lib rev args s) = Euvc_init e c :: t).
Proof.
  intros S lib rev args s.
  assert (Hno : (List.length args <= 1)%nat ->
                main lib rev args s = (Returned 0, s, [Ecout usage])).
  { intros Hlen. rewrite main_run. unfold Visca2Uvc.
    replace (Z.of_nat (List.length args) <=? 1) with true
      by (symmetry; apply Z.leb_le; lia).
    reflexivity. }
  assert (Hyes : (1 < List.length args)%nat ->
                 exists e c t, trace_of (main lib rev args s) = Euvc_init e c :: t).
  { intros Hlen. rewrite main_run.
    destruct (Visca2Uvc_runs lib rev args s)
      as [ Hlen'
         | e0 c s1 _ E0 L0
         | e0 c s1 e1 d s2 _ E0 L0 E1 L1
         | e0 c s1 e1 d s2 e2 h s3 _ E0 L0 E1 L1 E2 L2
         | e0 c e1 d e2 h s4 r s5 t _ Hopen Hcmd ];
      [lia|..]; try (destruct r as [st|e]);
      unfold trace_of; cbn [snd setup_events app];
      do 3 eexists; reflexivity. }
  split; [|split; assumption].
  split.
  - intros Hcalls.
    destruct (Nat.le_gt_cases (List.length args) 1) as [Hle|Hgt]; [exact Hle|].
    destruct (Hyes Hgt) as (e & c & t & Ht).
    rewrite Ht in Hcalls. discriminate Hcalls.
  - intros Hlen. rewrite (Hno Hlen). reflexivity.
Qed.

(** X4 on the program name alone and on an unknown command. *)
Lemma X4_witness_no_command :
  main Mock.unplugged main_cc ["visca2uvc"] tt = (Returned 0, tt, [Ecout usage]) /\
  exists e c t,
    trace_of (main Mock.unplugged main_cc ["visca2uvc"; "help"] tt)
    = Euvc_init e c :: t.
Proof.
  destruct (X4_library_called_iff_command_given
              unit Mock.unplugged main_cc ["visca2uvc"] tt) as (_ & Hno & _).
  destruct (X4_library_called_iff_command_given
              unit Mock.unplugged main_cc ["visca2uvc"; "help"] tt)
    as (_ & _ & Hyes).
  split.
  - apply Hno. cbn [List.length]. apply Nat.le_refl.
  - apply Hyes. cbn [List.length]. apply Nat.lt_succ_diag_r.
Defined.

(** ** The move assignment of the wrapper *)

(** [UvcWrapper::operator=(UvcWrapper&&)] exchanges the two pointers, so
    no pointer is dropped or duplicated by it: the pointer the target owned
    before is owned by the source afterwards.  Destroying the two objects
    after the assignment makes exactly the release calls that destroying
    them would have made before it, and assigning back restores both. *)
Lemma move_assignment_exchanges_ownership :
  forall (S : Type) (lib : libuvc S) (k : uvc_kind) (this other : UvcWrapper)
         (s : S),
    let after := UvcWrapper_move_assign this other in
    held (fst after) = held other /\
    held (snd after) = held this /\
    UvcWrapper_delete lib k (fst after) s = UvcWrapper_delete lib k other s /\
    UvcWrapper_delete lib k (snd after) s = UvcWrapper_delete lib k this s /\
    UvcWrapper_move_assign (fst after) (snd after) = (this, other) /\
    held (fst (UvcWrapper_move other)) ++ held (snd (UvcWrapper_move other))
    = held other.
Proof.
  intros S lib k [a] [b] s. cbn. repeat split. apply app_nil_r.
Qed.

(** ** The events of the four commands *)

Section KnownCommands.

Context {S : Type} (lib : libuvc S) (rev : revision).

Lemma GetZoomAbs_command_event (h : ptr) (req_code : uvc_req_code)
      (E : exception -> Prop) :
  satisfies (GetZoomAbs lib rev (UvcWrapper_new h) req_code)
            (fails_by_subsystem lib rev) E (command_event h).
Proof.
  intros s. rewrite GetZoomAbs_run.
  destruct (uvc_get_zoom_abs lib _ req_code s) as [[err v] s1].
  split.
  - repeat constructor.
  - cbn. destruct (err <? 0) eqn:L; intros st [= <-].
    apply uvc_failure_is_subsystem_failure, L.
Qed.

Lemma GetZoomRel_command_event (h : ptr) (req_code : uvc_req_code)
      (E : exception -> Prop) :
  satisfies (GetZoomRel lib rev (UvcWrapper_new h) req_code)
            (fails_by_subsystem lib rev) E (command_event h).
Proof.
  intros s. rewrite GetZoomRel_run.
  destruct (uvc_get_zoom_rel lib _ req_code s) as [[err v] s1].
  split.
  - repeat constructor.
  - cbn. destruct (err <? 0) eqn:L; intros st [= <-].
    apply uvc_failure_is_subsystem_failure, L.
Qed.

Lemma SetZoomAbs_command_event (h : ptr) (focal_length : Z)
      (E : exception -> Prop) :
  satisfies (SetZoomAbs lib rev (UvcWrapper_new h) focal_length)
            (fun _ => True) E (command_event h).
Proof.
  intros s. rewrite SetZoomAbs_run.
  destruct (uvc_set_zoom_abs lib _ focal_length s) as [err s1].
  split; [repeat constructor|exact I].
Qed.

Lemma SetZoomRel_command_event (h : ptr) (zoom : ZoomRel)
      (E : exception -> Prop) :
  satisfies (SetZoomRel lib rev (UvcWrapper_new h) zoom)
            (fun _ => True) E (command_event h).
Proof.
  intros s. rewrite SetZoomRel_run.
  destruct (uvc_set_zoom_rel lib _ _ _ _ s) as [err s1].
  split; [repeat constructor|exact I].
Qed.

Lemma cout_command_event (text : string) (E : exception -> Prop) (h : ptr) :
  satisfies (S := S) (cout text) (fun _ => True) E (command_event h).
Proof. apply satisfies_emit; exact I. Qed.

Lemma cout_ZoomRel_command_event (z : ZoomRel) (E : exception -> Prop)
      (h : ptr) :
  satisfies (S := S) (cout_ZoomRel z) (fun _ => True) E (command_event h).
Proof.
  unfold cout_ZoomRel.
  repeat (eapply satisfies_bind; [apply cout_command_event|intros _ _]).
  apply cout_command_event.
Qed.

(** [value()] makes no event, whatever events are allowed. *)
Lemma value_of_operation_any {T : Type} (r : StatusOr T) (args : list string)
      (P : event -> Prop) :
  fails_by_subsystem lib rev r ->
  satisfies (S := S) (value r) (fun _ => True)
            (expected_exception lib rev args) P.
Proof.
  intros Hr. destruct r as [st|v].
  - apply satisfies_throw. left. apply Hr. reflexivity.
  - apply satisfies_ret. exact I.
Qed.

Lemma value_of_SimpleAtoi_any (T : int_type) (tok : string)
      (args : list string) (P : event -> Prop) :
  In tok args ->
  satisfies (S := S) (value (SimpleAtoi T tok)) (fun _ => True)
            (expected_exception lib rev args) P.
Proof.
  intros Hin. destruct (SimpleAtoi T tok) as [st|v] eqn:E.
  - apply satisfies_throw. right. exists T, tok. split; assumption.
  - apply satisfies_ret. exact I.
Qed.

Ltac command_step :=
  first
    [ apply satisfies_ret
    | eapply satisfies_bind;
      [ first [ apply cout_command_event
              | apply cout_ZoomRel_command_event
              | apply GetZoomAbs_command_event | apply GetZoomRel_command_event
              | apply SetZoomAbs_command_event | apply SetZoomRel_command_event
              | apply value_of_operation_any; assumption
              | apply value_of_SimpleAtoi_any; assumption ]
      | intros ? ? ] ].

(** For one of the four commands the chain makes zoom transfers on the
    handle and writes to the output stream, nothing else. *)
Lemma known_commands_satisfy (args : list string) (h : ptr) :
  known_command (nth 1 args "") = true ->
  satisfies (Visca2Uvc_commands lib rev args (UvcWrapper_new h))
            (fun st => st = OkStatus \/ arity_failure st)
            (expected_exception lib rev args) (command_event h).
Proof.
  unfold known_command. cbn [existsb]. rewrite orb_false_r. intros Hknown.
  unfold Visca2Uvc_commands.
  destruct (nth 1 args "" =? "get_zoom_abs")%string.
  { repeat command_step. left. reflexivity. }
  destruct (nth 1 args "" =? "set_zoom_abs")%string.
  { destruct (negb (Z.of_nat (List.length args) =? 3)) eqn:Hlen.
    - apply satisfies_ret. right. left. reflexivity.
    - pose proof (token_in_args args 2 3 Hlen ltac:(lia)).
      repeat command_step. left. reflexivity. }
  destruct (nth 1 args "" =? "get_zoom_rel")%string.
  { repeat command_step. left. reflexivity. }
  destruct (nth 1 args "" =? "set_zoom_rel")%string.
  { destruct (negb (Z.of_nat (List.length args) =? 5)) eqn:Hlen.
    - apply satisfies_ret. right. right. reflexivity.
    - pose proof (token_in_args args 2 5 Hlen ltac:(lia)).
      pose proof (token_in_args args 3 5 Hlen ltac:(lia)).
      repeat command_step. left. reflexivity. }
  discriminate Hknown.
Qed.

(** Events of the four commands write nothing to the error stream and
    print no diagnostics. *)
Lemma command_events_quiet (h : ptr) (t : trace) :
  Forall (command_event h) t ->
  stderr_text t = "" /\ filter is_print_diag t = [].
Proof.
  intros Ht. induction Ht as [|e t He Ht [IHe IHd]]; [split; reflexivity|].
  destruct e; cbn in He; try contradiction;
    cbn [stderr_text filter is_print_diag]; split; assumption.
Qed.

End KnownCommands.

(** ** The error stream *)

Section ErrorStream.

Context {S : Type} (lib : libuvc S) (rev : revision).

(** [Visca2Uvc] itself writes to the error stream only the line for an
    unknown command. *)
Lemma Visca2Uvc_stderr (args : list string) (s : S) :
  stderr_text (trace_of (Visca2Uvc lib rev args s)) =
  match result_of (Visca2Uvc lib rev args s) with
  | Returned st =>
      if ok st && unknown_command_given args
      then ("Unknown command: " ++ nth 1 args "" ++ nl)%string
      else ""
  | Thrown _ => ""
  end.
Proof.
  destruct (Visca2Uvc_runs lib rev args s)
    as [ Hlen
       | e0 c s1 Hlen E0 L0
       | e0 c s1 e1 d s2 Hlen E0 L0 E1 L1
       | e0 c s1 e1 d s2 e2 h s3 Hlen E0 L0 E1 L1 E2 L2
       | e0 c e1 d e2 h s4 r s5 t Hlen Hopen Hcmd ];
    unfold trace_of, result_of; cbn [fst snd]; try reflexivity.
  - unfold unknown_command_given.
    replace (1 <? Z.of_nat (List.length args)) with false
      by (symmetry; apply Z.ltb_ge; lia).
    reflexivity.
  - rewrite !stderr_text_app.
    change (stderr_text (setup_events e0 c e1 d e2 h)) with "".
    change (stderr_text (teardown_events c d h)) with "".
    rewrite append_empty_r. cbn [String.append].
    unfold unknown_command_given.
    replace (1 <? Z.of_nat (List.length args)) with true
      by (symmetry; apply Z.ltb_lt; lia).
    cbn [andb].
    destruct (known_command (nth 1 args "")) eqn:Hknown.
    + pose proof (known_commands_satisfy lib rev args h Hknown s4) as [Ht _].
      rewrite Hcmd in Ht. unfold trace_of in Ht. cbn [snd] in Ht.
      destruct (command_events_quiet h t Ht) as [-> _].
      destruct r as [st|e]; cbn [negb]; rewrite ?andb_false_r; reflexivity.
    + destruct args as [|prog [|cmd rest]]; cbn [List.length] in Hlen; try lia.
      cbn [nth] in *.
      rewrite (commands_unknown lib rev prog cmd rest h s4 Hknown) in Hcmd.
      injection Hcmd as <- <- <-. reflexivity.
Qed.

End ErrorStream.

(** X5: what reaches the error stream.  The text on [std::cerr] at the end
    of [main] is: for an exception, the line ["Exception: "] followed by its
    [what()]; for an arity error, the text of the status and a line end;
    for an unknown command that was reached, the line
    ["Unknown command: <name>"]; and nothing at all in every other run.
    [main] itself writes nothing to the output stream. *)
Theorem X5_error_stream_contents :
  forall (S : Type) (lib : libuvc S) (rev : revision) (args : list string)
         (s : S),
    stderr_text (trace_of (main lib rev args s)) =
    match result_of (Visca2Uvc lib rev args s) with
    | Thrown e => ("Exception: " ++ what e ++ nl)%string
    | Returned st =>
        if ok st
        then if unknown_command_given args
             then ("Unknown command: " ++ nth 1 args "" ++ nl)%string
             else ""
        else (Status_ToString st ++ nl)%string
    end /\
    stdout_text (trace_of (main lib rev args s))
    = stdout_text (trace_of (Visca2Uvc lib rev args s)).
Proof.
  intros S lib rev args s.
  pose proof (Visca2Uvc_stderr lib rev args s) as Herr.
  pose proof (Visca2Uvc_outcome lib rev args s) as Hout.
  rewrite main_run.
  destruct (Visca2Uvc lib rev args s) as [[[st|e] s1] t];
    unfold trace_of, result_of in *; cbn [fst snd] in *;
    rewrite stderr_text_app, stdout_text_app, Herr.
  - destruct Hout as [-> | [-> | ->]]; cbn [ok andb stdout_text stderr_text];
      rewrite ?append_empty_r; split; reflexivity.
  - cbn [stdout_text stderr_text String.append].
    rewrite ?append_empty_r. split; reflexivity.
Qed.

(** ** The diagnostics *)

Section Diagnostics.

Context {S : Type} (lib : libuvc S) (rev : revision).

Lemma print_diag_filter_app (t1 t2 : trace) :
  filter is_print_diag (t1 ++ t2)
  = filter is_print_diag t1 ++ filter is_print_diag t2.
Proof. apply filter_app. Qed.

(** A trace without diagnostics cannot be split at a diagnostics event. *)
Lemma no_print_diag_inside (u t1 t2 : trace) (devh : option ptr) :
  filter is_print_diag u = [] -> u <> t1 ++ Euvc_print_diag devh :: t2.
Proof.
  intros Hnone ->. rewrite print_diag_filter_app in Hnone.
  cbn [filter is_print_diag] in Hnone.
  destruct (filter is_print_diag t1); discriminate Hnone.
Qed.

(** The chain prints no diagnostics and acquires nothing. *)
Lemma commands_no_print_diag (args : list string) (h : ptr) (s : S) :
  (1 < List.length args)%nat ->
  filter is_print_diag
         (trace_of (Visca2Uvc_commands lib rev args (UvcWrapper_new h) s)) = []
  /\ acquired (trace_of (Visca2Uvc_commands lib rev args (UvcWrapper_new h) s))
     = [].
Proof.
  intros Hlen. split.
  - destruct (known_command (nth 1 args "")) eqn:Hknown.
    + pose proof (known_commands_satisfy lib rev args h Hknown s) as [Ht _].
      apply (command_events_quiet h _ Ht).
    + destruct args as [|prog [|cmd rest]]; cbn [List.length] in Hlen; try lia.
      cbn [nth] in Hknown.
      rewrite (commands_unknown lib rev prog cmd rest h s Hknown). reflexivity.
  - pose proof (Visca2Uvc_commands_satisfies lib rev args h s) as [Ht _].
    apply (acquired_on_handle h _ Ht).
Qed.

Ltac decide_status :=
  repeat match goal with
         | H : 0 <= ?e |- context [?e <? 0] =>
             replace (e <? 0) with false by (symmetry; apply Z.ltb_ge; exact H)
         | H : ?e < 0 |- context [?e <? 0] =>
             replace (e <? 0) with true by (symmetry; apply Z.ltb_lt; exact H)
         end.

Lemma Visca2Uvc_print_diag_place (args : list string) (s : S)
      (t1 t2 : trace) (devh : option ptr) :
  trace_of (Visca2Uvc lib rev args s) = t1 ++ Euvc_print_diag devh :: t2 ->
  (exists e0 c e1 d e2 h,
      devh = Some h /\ 0 <= e2 /\
      t1 = [Euvc_init e0 c; Euvc_find_device (Some c) 0 0 None e1 d;
            Euvc_open (Some d) e2 h]) /\
  filter is_print_diag t2 = [].
Proof.
  destruct (Visca2Uvc_runs lib rev args s)
    as [ Hlen
       | e0 c s1 Hlen E0 L0
       | e0 c s1 e1 d s2 Hlen E0 L0 E1 L1
       | e0 c s1 e1 d s2 e2 h s3 Hlen E0 L0 E1 L1 E2 L2
       | e0 c e1 d e2 h s4 r s5 t Hlen Hopen Hcmd ];
    unfold trace_of; cbn [snd]; intros Hsplit;
    try (exfalso; revert Hsplit; apply no_print_diag_inside; reflexivity).
  pose proof (commands_no_print_diag args h s4 Hlen) as [Hnone _].
  rewrite Hcmd in Hnone. unfold trace_of in Hnone. cbn [snd] in Hnone.
  assert (Hrest : filter is_print_diag (t ++ teardown_events c d h) = []).
  { rewrite print_diag_filter_app, Hnone. reflexivity. }
  unfold setup_events in Hsplit. cbn [app] in Hsplit.
  destruct Hopen as (s1 & s2 & s3 & _ & _ & _ & _ & _ & L2 & _).
  destruct t1 as [|a [|b [|c' [|d' t1']]]]; cbn [app] in Hsplit;
    try discriminate Hsplit.
  - injection Hsplit as <- <- <- <- <-. split.
    + exists e0, c, e1, d, e2, h. repeat split. exact L2.
    + exact Hrest.
  - injection Hsplit as _ _ _ _ Htail. exfalso.
    exact (no_print_diag_inside _ _ _ _ Hrest Htail).
Qed.

Lemma Visca2Uvc_print_diag_count (args : list string) (s : S) :
  List.length (filter is_print_diag (trace_of (Visca2Uvc lib rev args s)))
  = List.length
      (filter (fun r => kind_eqb Handle (fst r))
              (acquired (trace_of (Visca2Uvc lib rev args s)))).
Proof.
  destruct (Visca2Uvc_runs lib rev args s)
    as [ Hlen
       | e0 c s1 Hlen E0 L0
       | e0 c s1 e1 d s2 Hlen E0 L0 E1 L1
       | e0 c s1 e1 d s2 e2 h s3 Hlen E0 L0 E1 L1 E2 L2
       | e0 c e1 d e2 h s4 r s5 t Hlen Hopen Hcmd ];
    unfold trace_of, acquired; cbn [snd flat_map acquisition app];
    decide_status; try reflexivity.
  pose proof (commands_no_print_diag args h s4 Hlen) as [Hnone Hacq].
  rewrite Hcmd in Hnone, Hacq. unfold trace_of in Hnone, Hacq.
  cbn [snd] in Hnone, Hacq.
  destruct Hopen as (s1 & s2 & s3 & _ & L0 & _ & L1 & _ & L2 & _).
  rewrite !print_diag_filter_app, Hnone.
  fold (acquired (setup_events e0 c e1 d e2 h ++ t ++ teardown_events c d h)).
  rewrite !acquired_app, Hacq.
  unfold acquired, setup_events, teardown_events.
  cbn [flat_map acquisition app]. decide_status. reflexivity.
Qed.

End Diagnostics.

(** X6: the diagnostics are printed exactly once on every run that opens
    the handle, arity errors and unknown commands included, and never
    otherwise.  They are printed on the handle just opened, directly after
    [uvc_open]: before the command is read, before any write to a stream
    and before any zoom transfer. *)
Theorem X6_diagnostics_once_right_after_open :
  forall (S : Type) (lib : libuvc S) (rev : revision) (args : list string)
         (s : S),
    let t := trace_of (Visca2Uvc lib rev args s) in
    List.length (filter is_print_diag t)
    = List.length (filter (fun r => kind_eqb Handle (fst r)) (acquired t)) /\
    (List.length (filter is_print_diag t) <= 1)%nat /\
    forall t1 devh t2,
      t = t1 ++ Euvc_print_diag devh :: t2 ->
      (exists e0 c e1 d e2 h,
          devh = Some h /\ 0 <= e2 /\
          t1 = [Euvc_init e0 c; Euvc_find_device (Some c) 0 0 None e1 d;
                Euvc_open (Some d) e2 h]) /\
      filter is_print_diag t2 = [].
Proof.
  intros S lib rev args s t.
  split; [apply Visca2Uvc_print_diag_count|].
  split; [|intros t1 devh t2; apply Visca2Uvc_print_diag_place].
  unfold t. rewrite Visca2Uvc_print_diag_count.
  destruct (Visca2Uvc_paired lib rev args s) as (_ & _ & n & Hn).
  assert (Hmap : forall l : list resource,
             List.length (filter (fun r => kind_eqb Handle (fst r)) l)
             = List.length (filter (kind_eqb Handle) (map fst l))).
  { induction l as [|r l IH]; [reflexivity|].
    cbn [filter map]. destruct (kind_eqb Handle (fst r)); cbn [List.length];
      rewrite IH; reflexivity. }
  rewrite Hmap, Hn.
  destruct n as [|[|[|[|n]]]]; cbn; auto.
Qed.

(** ** The set commands *)

(** X7: a token that does not parse never reaches the camera.  When the
    token of [set_zoom_abs], or the first or second token of
    [set_zoom_rel], is refused by the parser, no zoom control transfer is
    made on any run; on a run that has opened the handle the refusal is
    thrown as it is, after ["set: "] has been written for [set_zoom_abs]
    and before anything has been written for [set_zoom_rel], and the three
    resources are released. *)
Theorem X7_unparsed_token_makes_no_zoom_transfer :
  forall (S : Type) (lib : libuvc S) (rev : revision) (prog : string) (s : S)
         (st : Status),
    (forall a,
        SimpleAtoi UInt16 a = Failed st ->
        zoom_transfers
          (trace_of (Visca2Uvc lib rev [prog; "set_zoom_abs"; a] s)) = [] /\
        forall e0 c e1 d e2 h s4,
          opens lib s e0 c e1 d e2 h s4 ->
          Visca2Uvc lib rev [prog; "set_zoom_abs"; a] s =
            (Thrown (BadStatusOrAccess st), closes lib c d h s4,
             setup_events e0 c e1 d e2 h ++ [Ecout "set: "]
               ++ teardown_events c d h)) /\
    (forall a b c',
        SimpleAtoi Int8 a = Failed st \/
        (exists step, SimpleAtoi Int8 a = Value step) /\
        SimpleAtoi UInt8 b = Failed st ->
        zoom_transfers
          (trace_of (Visca2Uvc lib rev [prog; "set_zoom_rel"; a; b; c'] s)) = [] /\
        forall e0 c e1 d e2 h s4,
          opens lib s e0 c e1 d e2 h s4 ->
          Visca2Uvc lib rev [prog; "set_zoom_rel"; a; b; c'] s =
            (Thrown (BadStatusOrAccess st), closes lib c d h s4,
             setup_events e0 c e1 d e2 h ++ teardown_events c d h)).
Proof.
  intros S lib rev prog s st. split.
  - intros a Hbad. split.
    + apply Visca2Uvc_no_zoom_transfer. intros h s4.
      rewrite (commands_set_zoom_abs_bad_token lib rev prog a h s4 st Hbad).
      reflexivity.
    + intros e0 c e1 d e2 h s4 Hopen.
      rewrite (Visca2Uvc_opened lib rev _ s e0 c e1 d e2 h s4)
        by (cbn [List.length]; lia || exact Hopen).
      rewrite (commands_set_zoom_abs_bad_token lib rev prog a h s4 st Hbad).
      reflexivity.
  - intros a b c' Hbad. split.
    + apply Visca2Uvc_no_zoom_transfer. intros h s4.
      rewrite (commands_set_zoom_rel_bad_token lib rev prog a b c' h s4 st Hbad).
      reflexivity.
    + intros e0 c e1 d e2 h s4 Hopen.
      rewrite (Visca2Uvc_opened lib rev _ s e0 c e1 d e2 h s4)
        by (cbn [List.length]; lia || exact Hopen).
      rewrite (commands_set_zoom_rel_bad_token lib rev prog a b c' h s4 st Hbad).
      reflexivity.
Qed.

(** X7 on [set_zoom_rel 1 x 3] and the camera that answers. *)
Lemma X7_witness_set_zoom_rel_bad_flag :
  Visca2Uvc Mock.echo main_cc ["visca2uvc"; "set_zoom_rel"; "1"; "x"; "3"]
            Mock.power_on
  = (Thrown (BadStatusOrAccess (InvalidArgumentError "Cannot parse as h: x")),
     Mock.power_on,
     [Euvc_init 0 Mock.ctx_addr;
      Euvc_find_device (Some Mock.ctx_addr) 0 0 None 0 Mock.dev_addr;
      Euvc_open (Some Mock.dev_addr) 0 Mock.devh_addr;
      Euvc_print_diag (Some Mock.devh_addr);
      Euvc_close Mock.devh_addr; Euvc_unref_device Mock.dev_addr;
      Euvc_exit Mock.ctx_addr]).
Proof.
  destruct (X7_unparsed_token_makes_no_zoom_transfer
              Mock.camera Mock.echo main_cc "visca2uvc" Mock.power_on
              (InvalidArgumentError "Cannot parse as h: x")) as [_ Hrel].
  destruct (Hrel "1" "x" "3") as [_ Hrun].
  - right. split; [exists 1|]; reflexivity.
  - apply (Hrun 0 Mock.ctx_addr 0 Mock.dev_addr 0 Mock.devh_addr).
    exists Mock.power_on, Mock.power_on, Mock.power_on.
    repeat split; discriminate.
Defined.

(** X8: a set request the camera refuses is not what ends the run.  When
    the handle is open, the token parses and [uvc_set_zoom_abs] reports a
    negative status, the error is written to the output stream after
    ["set: "] and goes no further: the current value is still queried and
    the three resources are released.  If that query succeeds, its value is
    printed, nothing reaches the error stream and the exit code is 0.  If
    it fails too, the run ends after ["cur: "] with the exception of the
    query, not of the set request, on the error stream and exit code 1. *)
Theorem X8_refused_set_request_is_only_printed :
  forall (S : Type) (lib : libuvc S) (rev : revision) (prog a : string) (s : S)
         (e0 : uvc_error_t) (c : ptr) (e1 : uvc_error_t) (d : ptr)
         (e2 : uvc_error_t) (h : ptr) (s4 : S)
         (focal_length : Z) (e : uvc_error_t) (s5 : S)
         (e' : uvc_error_t) (v : Z) (s6 : S),
    opens lib s e0 c e1 d e2 h s4 ->
    SimpleAtoi UInt16 a = Value focal_length ->
    uvc_set_zoom_abs lib (Some h) focal_length s4 = (e, s5) -> e < 0 ->
    uvc_get_zoom_abs lib (Some h) UVC_GET_CUR s5 = (e', v, s6) ->
    let r := main lib rev [prog; "set_zoom_abs"; a] s in
    let refused :=
      ("set: " ++ Status_ToString (uvc_failure lib rev call_set_zoom_abs e)
         ++ nl ++ "cur: ")%string in
    state_of r = closes lib c d h s6 /\
    zoom_ops (trace_of r) = [set_absolute_zoom; get_absolute_zoom UVC_GET_CUR] /\
    (0 <= e' ->
     result_of r = Returned 0 /\
     stderr_text (trace_of r) = "" /\
     stdout_text (trace_of r)
     = (refused ++ show_uint16 (convert UInt16 v) ++ nl)%string) /\
    (e' < 0 ->
     result_of r = Returned 1 /\
     stderr_text (trace_of r)
     = ("Exception: "
          ++ what (BadStatusOrAccess (uvc_failure lib rev call_get_zoom_abs e'))
          ++ nl)%string /\
     stdout_text (trace_of r) = refused).
Proof.
  intros S lib rev prog a s e0 c e1 d e2 h s4 f e s5 e' v s6
         Hopen Hparse Hset Le Hget r refused.
  assert (Hrun : r =
            (Returned (if e' <? 0 then 1 else 0), closes lib c d h s6,
             (setup_events e0 c e1 d e2 h ++
              ([Ecout "set: "; Euvc_set_zoom_abs (Some h) f e;
                Ecout (Status_ToString
                         (uvc_failure lib rev call_set_zoom_abs e));
                Ecout nl] ++
               abs_query_events h "cur: " UVC_GET_CUR e' (convert UInt16 v)) ++
              teardown_events c d h) ++
             (if e' <? 0
              then [Ecerr "Exception: ";
                    Ecerr (what (BadStatusOrAccess
                                   (uvc_failure lib rev call_get_zoom_abs e')));
                    Ecerr nl]
              else []))).
  { unfold r. rewrite main_run.
    rewrite (Visca2Uvc_opened lib rev _ s e0 c e1 d e2 h s4)
      by (cbn [List.length]; lia || exact Hopen).
    rewrite (commands_set_zoom_abs_full lib rev prog a h s4 f e s5 e' v s6
               Hparse Hset Hget).
    unfold set_status.
    replace (e <? 0) with true by (symmetry; apply Z.ltb_lt; exact Le).
    destruct (e' <? 0); reflexivity. }
  rewrite Hrun. unfold result_of, state_of, trace_of, abs_query_events.
  cbn [fst snd].
  split; [reflexivity|]. split; [destruct (e' <? 0); reflexivity|]. split.
  - intros L.
    replace (e' <? 0) with false by (symmetry; apply Z.ltb_ge; exact L).
    split; [reflexivity|]. split; [reflexivity|].
    unfold refused, setup_events, teardown_events. cbn [app stdout_text].
    rewrite ?append_assoc, ?append_empty_r. reflexivity.
  - intros L.
    replace (e' <? 0) with true by (symmetry; apply Z.ltb_lt; exact L).
    split; [reflexivity|].
    unfold refused, setup_events, teardown_events.
    cbn [app stdout_text stderr_text].
    rewrite ?append_assoc, ?append_empty_r. split; reflexivity.
Qed.

(** X8 on the camera that refuses set requests and answers the query, and
    on the camera whose transfers all stall. *)
Lemma X8_witness_read_only_camera :
  (result_of (main read_only main_cc ["visca2uvc"; "set_zoom_abs"; "500"]
                   Mock.power_on) = Returned 0 /\
   stdout_text
     (trace_of (main read_only main_cc ["visca2uvc"; "set_zoom_abs"; "500"]
                     Mock.power_on))
   = ("set: INTERNAL: uvc_set_zoom_abs: Pipe" ++ nl ++ "cur: 0" ++ nl)%string) /\
  (result_of (main Mock.stalled main_cc ["visca2uvc"; "set_zoom_abs"; "500"] tt)
   = Returned 1 /\
   stdout_text
     (trace_of (main Mock.stalled main_cc ["visca2uvc"; "set_zoom_abs"; "500"]
                     tt))
   = ("set: INTERNAL: uvc_set_zoom_abs: Pipe" ++ nl ++ "cur: ")%string).
Proof.
  split.
  - destruct (X8_refused_set_request_is_only_printed
                Mock.camera read_only main_cc "visca2uvc" "500" Mock.power_on
                0 Mock.ctx_addr 0 Mock.dev_addr 0 Mock.devh_addr Mock.power_on
                500 (-9) Mock.power_on 0 0 Mock.power_on)
      as (_ & _ & Hok & _).
    + exists Mock.power_on, Mock.power_on, Mock.power_on.
      repeat split; discriminate.
    + reflexivity.
    + reflexivity.
    + reflexivity.
    + reflexivity.
    + destruct Hok as (Hexit & _ & Hout); [discriminate|].
      split; [exact Hexit|exact Hout].
  - destruct (X8_refused_set_request_is_only_printed
                unit Mock.stalled main_cc "visca2uvc" "500" tt
                0 Mock.ctx_addr 0 Mock.dev_addr 0 Mock.devh_addr tt
                500 (-9) tt (-9) 0 tt)
      as (_ & _ & _ & Hfailed).
    + exists tt, tt, tt. repeat split; discriminate.
    + reflexivity.
    + reflexivity.
    + reflexivity.
    + reflexivity.
    + destruct Hfailed as (Hexit & _ & Hout); [reflexivity|].
      split; [exact Hexit|exact Hout].
Defined.

(** ** The two revisions side by side *)

Section Agreement.

Context {S : Type}.

Lemma same_call_refl (e : event) : same_call e e.
Proof. destruct e; exact I || reflexivity. Qed.

Lemma same_calls_refl (t : trace) : Forall2 same_call t t.
Proof. induction t; constructor; auto using same_call_refl. Qed.

Lemma same_calls_subsystem (t1 t2 : trace) :
  Forall2 same_call t1 t2 -> subsystem_calls t1 = subsystem_calls t2.
Proof.
  induction 1 as [|e1 e2 t1 t2 He _ IH]; [reflexivity|].
  unfold subsystem_calls in *. cbn [filter].
  destruct e1, e2; cbn in He; try discriminate He; try contradiction;
    cbn [is_subsystem_call]; try exact IH; rewrite He, IH; reflexivity.
Qed.

Lemma calls_succeed_app (t1 t2 : trace) :
  calls_succeed (t1 ++ t2) = true ->
  calls_succeed t1 = true /\ calls_succeed t2 = true.
Proof.
  unfold calls_succeed. rewrite forallb_app. apply andb_true_iff.
Qed.

Lemma agree_same {A : Type} (P : Prop) (m : M S A) : agree P eq m m.
Proof.
  intros s. repeat split; auto using same_calls_refl.
  destruct (result_of (m s)); cbn; auto.
Qed.

Lemma agree_weaken {A : Type} (P P' : Prop) (R R' : A -> A -> Prop)
      (m1 m2 : M S A) :
  (P' -> P) -> (forall a1 a2, R a1 a2 -> R' a1 a2) ->
  agree P R m1 m2 -> agree P' R' m1 m2.
Proof.
  intros HP HR H s. destruct (H s) as (Hs & Ht & Hr & Hex).
  repeat split; auto.
  destruct (result_of (m1 s)), (result_of (m2 s)); cbn in *; auto.
Qed.

Lemma agree_bind {A B : Type} (P : Prop) (R : A -> A -> Prop)
      (Q : B -> B -> Prop) (m1 m2 : M S A) (k1 k2 : A -> M S B) :
  agree P R m1 m2 ->
  (forall a1 a2, R a1 a2 -> agree (P /\ a1 = a2) Q (k1 a1) (k2 a2)) ->
  agree P Q (bind m1 k1) (bind m2 k2).
Proof.
  intros Hm Hk s. unfold bind. destruct (Hm s) as (Hs & Ht & Hr & Hex).
  destruct (m1 s) as [[r1 s1] t1], (m2 s) as [[r2 s2] t2].
  unfold state_of, trace_of, result_of in *. cbn [fst snd] in *. subst s2.
  destruct r1 as [a1|e1], r2 as [a2|e2]; cbn in Hr; try contradiction.
  - destruct (Hk a1 a2 Hr s1) as (Hs' & Ht' & Hr' & Hex').
    destruct (k1 a1 s1) as [[r1' s1'] t1'], (k2 a2 s1) as [[r2' s2'] t2'].
    unfold state_of, trace_of, result_of in *. cbn [fst snd] in *. subst s2'.
    split; [reflexivity|]. split; [apply Forall2_app; assumption|].
    split; [exact Hr'|].
    intros HP Hok. apply calls_succeed_app in Hok. destruct Hok as [Hok1 Hok2].
    specialize (Hex HP Hok1). injection Hex as Ha Htt. subst a2 t2.
    specialize (Hex' (conj HP eq_refl) Hok2). injection Hex' as -> ->.
    reflexivity.
  - split; [reflexivity|]. split; [exact Ht|]. split; [exact I|].
    intros HP Hok. specialize (Hex HP Hok). injection Hex as -> ->.
    reflexivity.
Qed.

Lemma agree_bind_eq {A B : Type} (P : Prop) (Q : B -> B -> Prop)
      (m1 m2 : M S A) (k1 k2 : A -> M S B) :
  agree P eq m1 m2 ->
  (forall a, agree P Q (k1 a) (k2 a)) ->
  agree P Q (bind m1 k1) (bind m2 k2).
Proof.
  intros Hm Hk. apply (agree_bind P eq); [exact Hm|].
  intros a1 a2 <-. apply (agree_weaken P _ Q); auto. tauto.
Qed.

Lemma agree_finally {A : Type} (P : Prop) (R : A -> A -> Prop)
      (b1 b2 : M S A) (c : M S unit) :
  agree P R b1 b2 -> agree P R (finally b1 c) (finally b2 c).
Proof.
  intros Hb s. unfold finally. destruct (Hb s) as (Hs & Ht & Hr & Hex).
  destruct (b1 s) as [[r1 s1] t1], (b2 s) as [[r2 s2] t2].
  unfold state_of, trace_of, result_of in *. cbn [fst snd] in *. subst s2.
  destruct (c s1) as [[rc sc] tc]. cbn [fst snd].
  split; [reflexivity|].
  split; [apply Forall2_app; [exact Ht|apply same_calls_refl]|].
  split; [exact Hr|].
  intros HP Hok. apply calls_succeed_app in Hok. destruct Hok as [Hok1 _].
  specialize (Hex HP Hok1). injection Hex as -> ->. reflexivity.
Qed.

Lemma agree_try_catch {A : Type} (P : Prop) (R R' : A -> A -> Prop)
      (b1 b2 : M S A) (h1 h2 : exception -> M S A) :
  agree P R b1 b2 ->
  (forall a1 a2, R a1 a2 -> R' a1 a2) ->
  (forall e1 e2, agree (P /\ e1 = e2) R' (h1 e1) (h2 e2)) ->
  agree P R' (try_catch b1 h1) (try_catch b2 h2).
Proof.
  intros Hb HR Hh s. unfold try_catch. destruct (Hb s) as (Hs & Ht & Hr & Hex).
  destruct (b1 s) as [[r1 s1] t1], (b2 s) as [[r2 s2] t2].
  unfold state_of, trace_of, result_of in *. cbn [fst snd] in *. subst s2.
  destruct r1 as [a1|e1], r2 as [a2|e2]; cbn in Hr; try contradiction.
  - split; [reflexivity|]. split; [exact Ht|]. split; [apply HR, Hr|].
    exact Hex.
  - destruct (Hh e1 e2 s1) as (Hs' & Ht' & Hr' & Hex').
    destruct (h1 e1 s1) as [[r1' s1'] t1'], (h2 e2 s1) as [[r2' s2'] t2'].
    unfold state_of, trace_of, result_of in *. cbn [fst snd] in *. subst s2'.
    split; [reflexivity|]. split; [apply Forall2_app; assumption|].
    split; [exact Hr'|].
    intros HP Hok. apply calls_succeed_app in Hok. destruct Hok as [Hok1 Hok2].
    specialize (Hex HP Hok1). injection Hex as He Htt. subst e2 t2.
    specialize (Hex' (conj HP eq_refl) Hok2). injection Hex' as -> ->.
    reflexivity.
Qed.

Lemma agree_cout (P : Prop) (x y : string) :
  (P -> x = y) -> agree (S := S) P eq (cout x) (cout y).
Proof.
  intros Hxy s. cbn. repeat split.
  - constructor; [exact I|constructor].
  - intros HP _. rewrite (Hxy HP). reflexivity.
Qed.

Lemma agree_cerr (P : Prop) (x y : string) :
  (P -> x = y) -> agree (S := S) P eq (cerr x) (cerr y).
Proof.
  intros Hxy s. cbn. repeat split.
  - constructor; [exact I|constructor].
  - intros HP _. rewrite (Hxy HP). reflexivity.
Qed.

Lemma agree_value {T : Type} (P : Prop) (r1 r2 : StatusOr T) :
  both_failed_or_equal r1 r2 -> (P -> r1 = r2) ->
  agree (S := S) P eq (value r1) (value r2).
Proof.
  intros [<- | (st1 & st2 & -> & ->)] Hex; [apply agree_same|].
  intros s. cbn. repeat split; [constructor|].
  intros HP _. specialize (Hex HP). injection Hex as ->. reflexivity.
Qed.

End Agreement.

Section Revisions.

Context {S : Type} (lib : libuvc S).

Ltac failed_call E :=
  intros _ Hok; cbn in Hok; apply Z.ltb_lt in E;
  apply andb_true_iff in Hok; destruct Hok as [Hok _];
  apply Z.leb_le in Hok; lia.

Ltac agree_call E :=
  unfold state_of, trace_of, result_of; cbn [fst snd];
  split; [reflexivity|]; split; [apply same_calls_refl|];
  split; [|first [failed_call E | reflexivity]].

Lemma agree_Create (P : Prop) :
  agree P eq (init_from_value lib Context (Create lib main_cc))
             (init_from_value lib Context (Create lib part_001)).
Proof.
  intros s. rewrite !Create_run.
  destruct (uvc_init lib s) as [[e c] s1]. destruct (e <? 0) eqn:E;
    agree_call E; cbn; auto.
Qed.

Lemma agree_FindDevice (P : Prop) (uvc : UvcWrapper) (vid pid : Z)
      (sn : option string) :
  agree P eq (init_from_value lib Device (FindDevice lib main_cc uvc vid pid sn))
             (init_from_value lib Device (FindDevice lib part_001 uvc vid pid sn)).
Proof.
  intros s. rewrite !FindDevice_run.
  destruct (uvc_find_device lib (value_ uvc) vid pid sn s) as [[e d] s1].
  destruct (e <? 0) eqn:E; agree_call E; cbn; auto.
Qed.

Lemma agree_Open (P : Prop) (dev : UvcWrapper) :
  agree P eq (init_from_value lib Handle (Open lib main_cc dev))
             (init_from_value lib Handle (Open lib part_001 dev)).
Proof.
  intros s. rewrite !Open_run.
  destruct (uvc_open lib (value_ dev) s) as [[e h] s1].
  destruct (e <? 0) eqn:E; agree_call E; cbn; auto.
Qed.

Lemma agree_GetZoomAbs (P : Prop) (this : UvcWrapper) (req_code : uvc_req_code) :
  agree P both_failed_or_equal (GetZoomAbs lib main_cc this req_code)
                               (GetZoomAbs lib part_001 this req_code).
Proof.
  intros s. rewrite !GetZoomAbs_run.
  destruct (uvc_get_zoom_abs lib (value_ this) req_code s) as [[e v] s1].
  destruct (e <? 0) eqn:E; agree_call E; cbn.
  - right. eauto.
  - left. reflexivity.
Qed.

Lemma agree_GetZoomRel (P : Prop) (this : UvcWrapper) (req_code : uvc_req_code) :
  agree P both_failed_or_equal (GetZoomRel lib main_cc this req_code)
                               (GetZoomRel lib part_001 this req_code).
Proof.
  intros s. rewrite !GetZoomRel_run.
  destruct (uvc_get_zoom_rel lib (value_ this) req_code s) as [[e v] s1].
  destruct (e <? 0) eqn:E; agree_call E; cbn.
  - right. eauto.
  - left. reflexivity.
Qed.

Lemma agree_SetZoomAbs (P : Prop) (this : UvcWrapper) (focal_length : Z) :
  agree P (fun _ _ => True) (SetZoomAbs lib main_cc this focal_length)
                            (SetZoomAbs lib part_001 this focal_length).
Proof.
  intros s. rewrite !SetZoomAbs_run.
  destruct (uvc_set_zoom_abs lib (value_ this) focal_length s) as [e s1].
  destruct (e <? 0) eqn:E; agree_call E; cbn; auto.
Qed.

Lemma agree_SetZoomRel (P : Prop) (this : UvcWrapper) (zoom : ZoomRel) :
  agree P (fun _ _ => True) (SetZoomRel lib main_cc this zoom)
                            (SetZoomRel lib part_001 this zoom).
Proof.
  intros s. rewrite !SetZoomRel_run.
  destruct (uvc_set_zoom_rel lib (value_ this) (zoom_rel zoom)
                             (digital_zoom zoom) (speed zoom) s) as [e s1].
  destruct (e <? 0) eqn:E; agree_call E; cbn; auto.
Qed.

(** One step through two chains that differ in the revision only. *)
Ltac agree_step :=
  first
    [ apply agree_same
    | apply agree_bind_eq;
      [ first [ apply agree_same
              | apply agree_value; [assumption | tauto]
              | apply agree_cout; intros [_ ->]; reflexivity ]
      | intros ? ]
    | eapply agree_bind;
      [ first [ apply agree_GetZoomAbs | apply agree_GetZoomRel
              | apply agree_SetZoomAbs | apply agree_SetZoomRel ]
      | intros ? ? ? ] ].

Lemma agree_commands (P : Prop) (args : list string) (handle : UvcWrapper) :
  agree P eq (Visca2Uvc_commands lib main_cc args handle)
             (Visca2Uvc_commands lib part_001 args handle).
Proof.
  unfold Visca2Uvc_commands. cbv zeta.
  destruct (nth 1 args "" =? "get_zoom_abs")%string; [repeat agree_step|].
  destruct (nth 1 args "" =? "set_zoom_abs")%string.
  { destruct (negb (Z.of_nat (List.length args) =? 3)); repeat agree_step. }
  destruct (nth 1 args "" =? "get_zoom_rel")%string; [repeat agree_step|].
  destruct (nth 1 args "" =? "set_zoom_rel")%string; [|apply agree_same].
  destruct (negb (Z.of_nat (List.length args) =? 5)); repeat agree_step.
Qed.

Lemma agree_Visca2Uvc (P : Prop) (args : list string) :
  agree P eq (Visca2Uvc lib main_cc args) (Visca2Uvc lib part_001 args).
Proof.
  unfold Visca2Uvc.
  destruct (Z.of_nat (List.length args) <=? 1); [apply agree_same|].
  apply agree_bind_eq; [apply agree_Create|]. intros uvc.
  apply agree_finally.
  apply agree_bind_eq; [apply agree_FindDevice|]. intros dev.
  apply agree_finally.
  apply agree_bind_eq; [apply agree_Open|]. intros handle.
  apply agree_finally.
  apply agree_bind_eq; [apply agree_same|]. intros _.
  apply agree_commands.
Qed.

Lemma agree_main (args : list string) :
  agree True eq (main lib main_cc args) (main lib part_001 args).
Proof.
  unfold main. apply (agree_try_catch True eq eq); [|auto|].
  - apply agree_bind_eq; [apply agree_Visca2Uvc|]. intros status.
    apply agree_same.
  - intros e1 e2.
    apply agree_bind_eq; [apply agree_same|]. intros _.
    apply agree_bind_eq; [apply agree_cerr; intros [_ ->]; reflexivity|].
    intros _. apply agree_same.
Qed.

End Revisions.

(** X9: the two revisions of the program drive the camera alike.  On every
    library, argument list and starting state, main.cc and unnamed/part_001
    end with the same exit code, leave the library in the same state and
    make the same library calls with the same arguments and results in the
    same order; and when none of those calls reports an error, the two runs
    are equal, text on both streams included.  (After a failed call the
    texts differ: main.cc names the function, part_001 quotes the call.) *)
Theorem X9_revisions_make_the_same_calls :
  forall (S : Type) (lib : libuvc S) (args : list string) (s : S),
    let a := main lib main_cc args s in
    let b := main lib part_001 args s in
    result_of a = result_of b /\
    state_of a = state_of b /\
    subsystem_calls (trace_of a) = subsystem_calls (trace_of b) /\
    (calls_succeed (trace_of a) = true -> a = b).
Proof.
  intros S lib args s a b.
  destruct (agree_main lib args s) as (Hs & Ht & Hr & Hex).
  assert (Ha : exists n, result_of a = Returned n).
  { unfold a. rewrite main_run.
    destruct (Visca2Uvc lib main_cc args s) as [[[st|e] s1] t];
      unfold result_of; cbn [fst]; eauto. }
  assert (Hb : exists n, result_of b = Returned n).
  { unfold b. rewrite main_run.
    destruct (Visca2Uvc lib part_001 args s) as [[[st|e] s1] t];
      unfold result_of; cbn [fst]; eauto. }
  subst a b. repeat split.
  - destruct Ha as [n Ha], Hb as [m Hb]. rewrite Ha, Hb in *.
    cbn in Hr. rewrite Hr. reflexivity.
  - exact Hs.
  - apply same_calls_subsystem, Ht.
  - exact (Hex I).
Qed.

(** Where the revisions differ: with no camera attached, the message on the
    error stream names the function in main.cc and quotes the call text in
    part_001. *)
Example revisions_differ_in_error_text :
  stderr_text (trace_of (main Mock.unplugged main_cc
                              ["visca2uvc"; "get_zoom_abs"] tt))
  = ("Exception: Bad StatusOr access: INTERNAL: uvc_find_device: No such device"
       ++ nl)%string /\
  stderr_text (trace_of (main Mock.unplugged part_001
                              ["visca2uvc"; "get_zoom_abs"] tt))
  = ("Exception: Bad StatusOr access: INTERNAL: "
       ++ "uvc_find_device(ctx_.get(), &dev, vid, pid, sn): No such device"
       ++ nl)%string.
Proof. split; reflexivity. Qed.
